(** * LLM-MD: template expansion and worksheet parsing

    A shallow embedding of [llm_md_parser.py] and the properties of its
    specification.  Python [str] values are modelled as lists of characters
    ([pystr]); a character is a code point below 256, so the
    character classes below ([is_space], [isdigit_char], [lower_char]) are
    Python's classes restricted to that range.  Python [int] values are [Z],
    dictionaries are [gmap], lists that are mutated through a reference are
    kept in an explicit store. *)

From Stdlib Require Import ZArith Ascii String List DecimalString DecimalNat Lia.
From stdpp Require Import gmap strings list.

Local Open Scope list_scope.

Abbreviation pystr := (list ascii).

(** A string literal of the source. *)
Definition str (s : string) : pystr := list_ascii_of_string s.

(** ** Python string primitives *)

Module Py.

Definition code (c : ascii) : nat := nat_of_ascii c.

(** [str.isspace] on one character; the same class as [\s] of [re]. *)
Definition is_space (c : ascii) : bool :=
  let n := code c in
  ((9 <=? n) && (n <=? 13)) || ((28 <=? n) && (n <=? 32))
  || (n =? 133) || (n =? 160).

Definition eqc (a b : ascii) : bool := Ascii.eqb a b.

Fixpoint eqs (a b : pystr) : bool :=
  match a, b with
  | [], [] => true
  | x :: a', y :: b' => eqc x y && eqs a' b'
  | _, _ => false
  end.

Fixpoint drop_while (p : ascii -> bool) (s : pystr) : pystr :=
  match s with
  | [] => []
  | c :: s' => if p c then drop_while p s' else s
  end.

Definition lstrip (s : pystr) : pystr := drop_while is_space s.
Definition rstrip (s : pystr) : pystr := rev (drop_while is_space (rev s)).

(** [s.strip()] *)
Definition strip (s : pystr) : pystr := rstrip (lstrip s).

Definition mem (c : ascii) (cs : list ascii) : bool := existsb (eqc c) cs.

(** [s.strip(chars)] *)
Definition strip_chars (cs : list ascii) (s : pystr) : pystr :=
  rev (drop_while (fun c => mem c cs) (rev (drop_while (fun c => mem c cs) s))).

(** [s.split(sep)] for a one-character separator: never empty. *)
Fixpoint split (sep : ascii) (s : pystr) : list pystr :=
  match s with
  | [] => [[]]
  | c :: s' =>
      if eqc c sep then [] :: split sep s'
      else match split sep s' with
           | w :: ws => (c :: w) :: ws
           | [] => [[c]]
           end
  end.

(** [sep.join(l)] *)
Fixpoint join (sep : pystr) (l : list pystr) : pystr :=
  match l with
  | [] => []
  | x :: l' => match l' with
               | [] => x
               | _ :: _ => x ++ sep ++ join sep l'
               end
  end.

(** [s.startswith(p)] *)
Fixpoint startswith (p s : pystr) : bool :=
  match p, s with
  | [], _ => true
  | x :: p', y :: s' => eqc x y && startswith p' s'
  | _ :: _, [] => false
  end.

(** [s.endswith(p)] *)
Definition endswith (p s : pystr) : bool := startswith (rev p) (rev s).

(** [p in s] for strings. *)
Fixpoint contains (p s : pystr) : bool :=
  startswith p s || match s with
                    | [] => false
                    | _ :: s' => contains p s'
                    end.

(** [c * n] *)
Definition times (c : ascii) (n : nat) : pystr := repeat c n.

(** [str.lower] on one character. *)
Definition lower_char (c : ascii) : ascii :=
  let n := code c in
  if ((65 <=? n) && (n <=? 90))
     || ((192 <=? n) && (n <=? 222) && negb (n =? 215))
  then ascii_of_nat (n + 32) else c.

Definition lower (s : pystr) : pystr := map lower_char s.

Definition is_ascii_digit (c : ascii) : bool :=
  (48 <=? code c) && (code c <=? 57).

(** [str.isdigit] on one character: the decimal digits and the
    superscript digits. *)
Definition isdigit_char (c : ascii) : bool :=
  is_ascii_digit c || (code c =? 178) || (code c =? 179) || (code c =? 185).

(** [s.isdigit()] *)
Definition isdigit (s : pystr) : bool :=
  match s with
  | [] => false
  | _ :: _ => forallb isdigit_char s
  end.

(** The digits of an [int] literal, single underscores allowed between
    digits. *)
Fixpoint int_digits (acc : Z) (after_digit : bool) (s : pystr) : option Z :=
  match s with
  | [] => if after_digit then Some acc else None
  | c :: s' =>
      if eqc c "_"%char then
        if after_digit then int_digits acc false s' else None
      else if is_ascii_digit c
           then int_digits (acc * 10 + Z.of_nat (code c - 48)) true s'
           else None
  end.

(** The white space [int] skips around a literal. *)
Definition int_space (c : ascii) : bool :=
  let n := code c in
  ((9 <=? n) && (n <=? 13)) || (n =? 32) || (n =? 133) || (n =? 160).

(** [int(s)]: [None] stands for the [ValueError] of an invalid literal.
    The interpreter's bound on the length of a literal is left out. *)
Definition int (s : pystr) : option Z :=
  let body := rev (drop_while int_space (rev (drop_while int_space s))) in
  match body with
  | "+"%char :: r => int_digits 0 false r
  | "-"%char :: r => Z.opp <$> int_digits 0 false r
  | _ => int_digits 0 false body
  end.

(** [str(n)] for a natural number. *)
Definition str_of_nat (n : nat) : pystr :=
  list_ascii_of_string (NilZero.string_of_uint (Nat.to_uint n)).

(** Truth value of a string. *)
Definition truthy (s : pystr) : bool :=
  match s with [] => false | _ :: _ => true end.

End Py.

(** ** Errors

    Every exception of the engine is a [ValueError]; the constructors keep
    apart where it is raised and what its message is built from. *)

Inductive error :=
| InvalidHeaderFormat (line : pystr)
| InvalidCardinalityFormat (body : pystr)
| InvalidIntLiteral (literal : pystr)
| TooManyValuesToUnpack
| SectionNotFound (section : pystr).

Inductive result (A : Type) :=
| Ok (a : A)
| Err (e : error).
Arguments Ok {A} a.
Arguments Err {A} e.

#[global] Instance result_ret : MRet result := fun A a => Ok a.
#[global] Instance result_bind : MBind result := fun A B f r =>
  match r with
  | Ok a => f a
  | Err e => Err e
  end.

(** The text of the messages the engine formats itself. *)
Definition error_message (e : error) : option pystr :=
  match e with
  | InvalidHeaderFormat line => Some (str "Invalid header format: " ++ line)
  | InvalidCardinalityFormat body =>
      Some (str "Invalid cardinality format: " ++ body)
  | SectionNotFound s =>
      Some (str "Section '" ++ s ++ str "' not found in template")
  | InvalidIntLiteral _ | TooManyValuesToUnpack => None
  end.

(** ** Data model *)

Inductive cardinality :=
| Unlimited
| Fixed (count : Z)
| Range (min max : Z).

Record header := Header {
  level : nat;
  name : pystr;
  card : cardinality;
  required : bool;
  notes : pystr
}.

(** ** Header grammar *)

Module Grammar.

(** [X+?] followed by [tail]: the shortest non-empty run of [allowed]
    characters after which [tail] matches. *)
Fixpoint lazy_plus {T} (allowed : ascii -> bool) (tail : pystr -> option T)
    (s : pystr) : option (pystr * T) :=
  match s with
  | [] => None
  | c :: s' =>
      if allowed c then
        match tail s' with
        | Some t => Some ([c], t)
        | None => match lazy_plus allowed tail s' with
                  | Some (g, t) => Some (c :: g, t)
                  | None => None
                  end
        end
      else None
  end.

(** Splits at the first occurrence of [c]. *)
Fixpoint until (c : ascii) (s : pystr) : option (pystr * pystr) :=
  match s with
  | [] => None
  | d :: s' => if Py.eqc d c then Some ([], s')
               else match until c s' with
                    | Some (b, r) => Some (d :: b, r)
                    | None => None
                    end
  end.

(** [\s*(\[[^\]]*\])]: the group and what follows it. *)
Definition bracket_group (s : pystr) : option (pystr * pystr) :=
  match Py.lstrip s with
  | "["%char :: r => match until "]"%char r with
                | Some (b, rest) => Some ("["%char :: b ++ ["]"%char], rest)
                | None => None
                end
  | _ => None
  end.

(** The optional notes group and the end of the pattern: blanks, a bar,
    blanks and the rest of the line (group 4), or nothing at all.  Lines
    come from a split at newlines, so the dot matches every character of
    the rest and the end anchor is the end of the line. *)
Definition notes_tail (s : pystr) : option (option pystr) :=
  match Py.lstrip s with
  | "|"%char :: r => Some (Some (Py.lstrip r))
  | _ => match s with
         | [] => Some None
         | _ :: _ => None
         end
  end.

(** [(?:\s*(\$))?] and the rest of the pattern. *)
Definition dollar_tail (s : pystr) : option (bool * option pystr) :=
  let without := (fun n => (false, n)) <$> notes_tail s in
  match Py.lstrip s with
  | "$"%char :: r => match notes_tail r with
                | Some n => Some (true, n)
                | None => without
                end
  | _ => without
  end.

(** [(?:\s*(\[[^\]]*\]))?] and the rest of the pattern. *)
Definition header_tail (s : pystr)
    : option (option pystr * bool * option pystr) :=
  let without := (fun dn => (None, fst dn, snd dn)) <$> dollar_tail s in
  match bracket_group s with
  | Some (b, r) => match dollar_tail r with
                   | Some (d, n) => Some (Some b, d, n)
                   | None => without
                   end
  | None => without
  end.

Definition name_char (c : ascii) : bool := negb (Py.mem c ["|"%char; "["%char; "$"%char]).

(** [re.match] of
    [^([^|\[\$]+?)(?:\s*(\[[^\]]*\]))?(?:\s*(\$))?(?:\s*\|\s*( .* ))?$]
    (the last group is written with blanks around it here):
    groups 1 to 4 (group 3 as a flag). *)
Definition header_match (content : pystr)
    : option (pystr * option pystr * bool * option pystr) :=
  match lazy_plus name_char header_tail content with
  | Some (g1, (g2, g3, g4)) => Some (g1, g2, g3, g4)
  | None => None
  end.

End Grammar.

(** [_parse_cardinality] *)
Definition parse_cardinality (cardinality_str : pystr) : result cardinality :=
  let cardinality_str := Py.strip_chars ["["%char; "]"%char] cardinality_str in
  if Py.eqs cardinality_str ["*"%char] then Ok Unlimited
  else if Py.isdigit cardinality_str then
    match Py.int cardinality_str with
    | Some count => Ok (Fixed count)
    | None => Err (InvalidIntLiteral cardinality_str)
    end
  else if Py.mem "-"%char cardinality_str then
    match Py.split "-"%char cardinality_str with
    | [min_val; max_val] =>
        match Py.int min_val with
        | Some mn => match Py.int max_val with
                     | Some mx => Ok (Range mn mx)
                     | None => Err (InvalidIntLiteral max_val)
                     end
        | None => Err (InvalidIntLiteral min_val)
        end
    | _ => Err TooManyValuesToUnpack
    end
  else Err (InvalidCardinalityFormat cardinality_str).

(** The number of leading header markers. *)
Fixpoint count_level (line : pystr) : nat :=
  match line with
  | "#"%char :: line' => S (count_level line')
  | _ => 0
  end.

(** [_parse_header_line] *)
Definition parse_header_line (line : pystr) : result header :=
  let lvl := count_level line in
  let content := Py.strip (drop lvl line) in
  match Grammar.header_match content with
  | None => Err (InvalidHeaderFormat line)
  | Some (g1, g2, g3, g4) =>
      let nm := Py.strip g1 in
      let cardinality_str := default (str "[1]") g2 in
      let nts := default [] g4 in
      c ← parse_cardinality cardinality_str;
      Ok (Header lvl nm c g3 nts)
  end.

(** ** Template structure *)

(** An entry of the parsed structure: a worksheet section with the headers
    collected under it, or a header outside every section. *)
Inductive entry :=
| WorksheetSection (section_name : pystr) (content : list header)
| HeaderEntry (h : header).

(** [current_section['content'].append(parsed_header)] *)
Definition append_content (h : header) (e : entry) : entry :=
  match e with
  | WorksheetSection n c => WorksheetSection n (c ++ [h])
  | HeaderEntry _ => e
  end.

(** The loop of [_parse_template_structure].  [current_section] refers to
    an entry of [structure], so it is the position of that entry. *)
Fixpoint parse_template_lines (lines : list pystr) (structure : list entry)
    (current_section : option nat) : result (list entry) :=
  match lines with
  | [] => Ok structure
  | raw :: rest =>
      let line := Py.strip raw in
      if negb (Py.truthy line) then
        parse_template_lines rest structure current_section
      else if Py.startswith (str "- ") line then
        let section_name := Py.strip (drop 2 line) in
        parse_template_lines rest
          (structure ++ [WorksheetSection section_name []])
          (Some (length structure))
      else if Py.startswith (str "#") line then
        parsed_header ← parse_header_line line;
        match current_section with
        | Some i =>
            parse_template_lines rest
              (alter (append_content parsed_header) i structure)
              current_section
        | None =>
            parse_template_lines rest
              (structure ++ [HeaderEntry parsed_header]) None
        end
      else parse_template_lines rest structure current_section
  end.

(** [_parse_template_structure] *)
Definition parse_template_structure (lines : list pystr)
    : result (list entry) :=
  parse_template_lines lines [] None.

(** [_find_section_structure] *)
Fixpoint find_section_structure (structure : list entry)
    (section_name : pystr) : option (list header) :=
  match structure with
  | [] => None
  | WorksheetSection n c :: rest =>
      if Py.eqs n section_name then Some c
      else find_section_structure rest section_name
  | HeaderEntry _ :: rest => find_section_structure rest section_name
  end.

(** [_filter_content_structure] *)
Definition filter_content_structure (structure : list entry) : list entry :=
  structure.

(** ** Hierarchy builder

    [_build_hierarchy] appends to the [children] list of objects it holds
    in its stack, and the same objects are reachable from [root_items].  The
    store keeps one node per record of the flat list; a reference to a
    record is its position in that list. *)

Module Hierarchy.

Record node := Node {
  hdr : header;
  kids : list nat
}.

Definition add_kid (i : nat) (n : node) : node :=
  Node (hdr n) (kids n ++ [i]).

Definition level_of (store : list node) (r : nat) : nat :=
  match store !! r with
  | Some n => level (hdr n)
  | None => 0
  end.

(** [while stack and stack[-1]['level'] >= level: stack.pop()]; the top of
    the stack is the head of the list. *)
Fixpoint pop_stack (store : list node) (lvl : nat) (stack : list nat)
    : list nat :=
  match stack with
  | [] => []
  | top :: below =>
      if lvl <=? level_of store top then pop_stack store lvl below
      else stack
  end.

Record state := State {
  store : list node;
  root_items : list nat;
  stack : list nat
}.

(** One turn of the loop, for the record at position [i]. *)
Definition attach (st : state) (i : nat) : state :=
  let lvl := level_of (store st) i in
  let stack' := pop_stack (store st) lvl (stack st) in
  match stack' with
  | parent :: _ =>
      State (alter (add_kid i) parent (store st)) (root_items st)
            (i :: stack')
  | [] => State (store st) (root_items st ++ [i]) (i :: stack')
  end.

Definition initial (structure : list header) : state :=
  State (map (fun h => Node h []) structure) [] [].

Definition run (structure : list header) : state :=
  fold_left attach (seq 0 (length structure)) (initial structure).

End Hierarchy.

(** A record with its children, as the generator reads it. *)
#[warnings="-register-all"]
Inductive item :=
| Item (h : header) (children : list item).

Definition item_header (it : item) : header :=
  match it with Item h _ => h end.
Definition item_children (it : item) : list item :=
  match it with Item _ c => c end.

(** The tree below a node of the store.  A child is always a later record
    than its parent, so [fuel] as large as the store reaches every
    descendant ([reify_fuel] below). *)
Fixpoint reify (fuel : nat) (store : list Hierarchy.node)
    (n : Hierarchy.node) : item :=
  Item (Hierarchy.hdr n)
       (match fuel with
        | 0 => []
        | S fuel' =>
            omap (fun r => reify fuel' store <$> store !! r) (Hierarchy.kids n)
        end).

(** [_build_hierarchy] *)
Definition build_hierarchy (structure : list header) : list item :=
  let st := Hierarchy.run structure in
  omap (fun r => reify (length structure) (Hierarchy.store st)
                   <$> Hierarchy.store st !! r)
       (Hierarchy.root_items st).

(** ** Worksheet generator *)

Definition leaf_line (h : header) : pystr :=
  Py.times "#"%char (level h) ++ str " " ++ name h ++ str " | ".

Definition plain_header (h : header) : pystr :=
  Py.times "#"%char (level h) ++ str " " ++ name h.

Definition numbered_header (h : header) (i : nat) : pystr :=
  Py.times "#"%char (level h) ++ str " " ++ name h ++ str " "
  ++ Py.str_of_nat (i + 1).

(** The count of instances of a record: [quantities.get(path_key, ...)] for
    the unlimited and range cardinalities, the fixed count otherwise. *)
Definition instance_count (h : header) (quantities : gmap pystr Z)
    (path_key : pystr) : Z :=
  match card h with
  | Unlimited => default 2%Z (quantities !! path_key)
  | Range mn _ => default mn (quantities !! path_key)
  | Fixed count => count
  end.

(** The header of instance [i] of a container in the repeated branch. *)
Definition repeated_header (h : header) (i : nat) : pystr :=
  if level h =? 2 then
    if Py.contains (str "chapter") (Py.lower (name h))
    then numbered_header h i
    else plain_header h
  else plain_header h.

(** Truth value of a list of children. *)
Definition has_children (children : list item) : bool :=
  match children with [] => false | _ :: _ => true end.

Definition blank_after_top_level (h : header) : list pystr :=
  if level h =? 1 then [[]] else [].

(** [_generate_item_output]: the lines appended to [result]. *)
Fixpoint generate_item_output (it : item) (quantities : gmap pystr Z)
    (path : list pystr) : list pystr :=
  match it with
  | Item h children =>
      let current_path := path ++ [name h] in
      let path_key := Py.join (str ".") current_path in
      let count := instance_count h quantities path_key in
      let of_children :=
        flat_map (fun child => generate_item_output child quantities
                                 current_path) children in
      if (count =? 1)%Z && negb (has_children children) then
        leaf_line h :: blank_after_top_level h
      else if (count =? 1)%Z && has_children children then
        plain_header h :: blank_after_top_level h ++ of_children
      else
        flat_map (fun i =>
                    if has_children children then
                      repeated_header h i :: of_children
                        ++ blank_after_top_level h
                    else [leaf_line h])
                 (seq 0 (Z.to_nat count))
  end.

(** The loop of [_generate_worksheet], [result] being the lines so far. *)
Fixpoint generate_worksheet_lines (structure : list entry)
    (quantities : gmap pystr Z) (result : list pystr) : list pystr :=
  match structure with
  | [] => result
  | WorksheetSection n content :: rest =>
      let result := match result with
                    | [] => result
                    | _ :: _ => result ++ [[]]
                    end in
      let result := result ++ [str "# " ++ n; str "---"] in
      let hierarchy := build_hierarchy content in
      let result :=
        result ++ flat_map (fun content_item =>
                              generate_item_output content_item quantities [])
                           hierarchy in
      generate_worksheet_lines rest quantities result
  | HeaderEntry h :: rest =>
      generate_worksheet_lines rest quantities
        (result ++ generate_item_output (Item h []) quantities [])
  end.

Definition newline : ascii := ascii_of_nat 10.

(** [_generate_worksheet] *)
Definition generate_worksheet (structure : list entry)
    (quantities : gmap pystr Z) : pystr :=
  Py.join [newline] (generate_worksheet_lines structure quantities []).

(** [parse_llm_md], the [expand] of the specification.  A section's content
    is handed to the generator as it was parsed: a flat list of headers. *)
Definition parse_llm_md (template : pystr) (section : option pystr)
    (quantities : option (gmap pystr Z)) : result pystr :=
  let quantities := default ∅ quantities in
  let lines := Py.split newline (Py.strip template) in
  parsed_structure ← parse_template_structure lines;
  match section with
  | Some s =>
      if Py.truthy s then
        match find_section_structure parsed_structure s with
        | Some (h :: hs) =>
            Ok (generate_worksheet (map HeaderEntry (h :: hs)) quantities)
        | Some [] | None => Err (SectionNotFound s)
        end
      else Ok (generate_worksheet
                 (filter_content_structure parsed_structure) quantities)
  | None => Ok (generate_worksheet
                  (filter_content_structure parsed_structure) quantities)
  end.

(** ** Worksheet parser *)

(** The field mapping of a section is only ever written, one key at a time
    ([fields[name] = value]).  The parser is written once over that
    interface; the engine runs it on a dictionary, and the same run on a log
    of the assignments tells what was committed, and in which order. *)
Class FieldStore (F : Type) := {
  fs_empty : F;
  fs_set : pystr -> pystr -> F -> F
}.

#[global] Instance dict_store : FieldStore (gmap pystr pystr) := {|
  fs_empty := ∅;
  fs_set k v m := <[k := v]> m
|}.

#[global] Instance log_store : FieldStore (list (pystr * pystr)) := {|
  fs_empty := [];
  fs_set k v l := l ++ [(k, v)]
|}.

Module Worksheet.

(** A parsed section: [{'title': ..., 'content': ..., 'fields': {...}}]. *)
Record section (F : Type) := Section {
  title : pystr;
  content : pystr;
  fields : F
}.
Arguments Section {F} _ _ _.
Arguments title {F} _.
Arguments content {F} _.
Arguments fields {F} _.

(** What follows the group [(.+?)] in the field pattern: blanks, a bar,
    blanks and the rest of the line (group 3). *)
Definition bar_tail (s : pystr) : option pystr :=
  match Py.lstrip s with
  | "|"%char :: r => Some (Py.lstrip r)
  | _ => None
  end.

Definition not_newline (c : ascii) : bool :=
  negb (Py.eqc c (ascii_of_nat 10)).

Fixpoint first_some {A B} (f : A -> option B) (l : list A) : option B :=
  match l with
  | [] => None
  | a :: l' => match f a with
               | Some b => Some b
               | None => first_some f l'
               end
  end.

(** Counts from [hi] down to [lo]. *)
Definition down_to (hi lo : nat) : list nat := rev (seq lo (S hi - lo)).

(** [re.match] of [^(#+)\s*(.+?)\s*\|\s*( .* )$] (the last group is
    written with blanks around it here) on a line without a newline:
    groups 1 to 3.  The greedy groups give back one character at a time:
    first the blanks, then the markers. *)
Definition field_match (line : pystr) : option (pystr * pystr * pystr) :=
  first_some (fun hc =>
    let rest := drop hc line in
    let w := length rest - length (Py.lstrip rest) in
    first_some (fun wc =>
      match Grammar.lazy_plus not_newline bar_tail (drop wc rest) with
      | Some (g2, g3) => Some (take hc line, g2, g3)
      | None => None
      end) (down_to w 0))
    (down_to (count_level line) 1).

Section Parser.

Context {F : Type} `{FieldStore F}.

(** The local variables of [parse_worksheet_content].
    [current_section] is the section under construction: its title and
    its field mapping, the parts set before it is finalized. *)
Record state := State {
  sections : gmap pystr (section F);
  current_section : option (pystr * F);
  current_content : list pystr;
  current_field : option pystr;
  current_field_content : list pystr
}.

(** Truth value of [current_field]. *)
Definition field_truthy (f : option pystr) : bool :=
  match f with
  | Some n => Py.truthy n
  | None => false
  end.

(** [current_section['fields'][current_field] = field_content] with
    [field_content = '\n'.join(current_field_content).strip()]. *)
Definition commit (cs : pystr * F) (current_field : option pystr)
    (current_field_content : list pystr) : pystr * F :=
  (fst cs,
   fs_set (default [] current_field)
          (Py.strip (Py.join [newline] current_field_content))
          (snd cs)).

(** [_finalize_section] *)
Definition finalize_section (sections : gmap pystr (section F))
    (current_section : pystr * F) (current_content : list pystr)
    (current_field : option pystr) (current_field_content : list pystr)
    : gmap pystr (section F) :=
  let current_section :=
    if field_truthy current_field
    then commit current_section current_field current_field_content
    else current_section in
  <[fst current_section :=
      Section (fst current_section) (Py.join [newline] current_content)
              (snd current_section)]> sections.

(** The section header branch of the loop. *)
Definition open_section (st : state) (line next : pystr) : state :=
  let sections :=
    match current_section st with
    | Some cs => finalize_section (sections st) cs (current_content st)
                   (current_field st) (current_field_content st)
    | None => sections st
    end in
  let section_title := Py.strip (drop 2 line) in
  State sections (Some (section_title, fs_empty)) [line; next] None [].

(** The other branches of the loop, for one stripped line. *)
Definition step (st : state) (line : pystr) : state :=
  if Py.startswith (str "#") line && Py.endswith (str "|") line then
    let cs :=
      match current_section st with
      | Some cs =>
          if field_truthy (current_field st)
          then Some (commit cs (current_field st)
                       (current_field_content st))
          else Some cs
      | None => None
      end in
    match field_match line with
    | Some (_, g2, _) =>
        State (sections st) cs (current_content st ++ [line])
              (Some (Py.strip g2)) []
    | None =>
        State (sections st) cs (current_content st) (current_field st)
              (current_field_content st)
    end
  else if Py.startswith (str "#") line then
    match current_section st with
    | Some cs =>
        if field_truthy (current_field st) then
          State (sections st)
                (Some (commit cs (current_field st)
                         (current_field_content st)))
                (current_content st ++ [line]) None []
        else
          State (sections st) (Some cs) (current_content st ++ [line])
                (current_field st) (current_field_content st)
    | None =>
        State (sections st) None (current_content st ++ [line])
              (current_field st) (current_field_content st)
    end
  else
    State (sections st) (current_section st)
          (current_content st ++ [line]) (current_field st)
          (if field_truthy (current_field st)
           then current_field_content st ++ [line]
           else current_field_content st).

(** The [while] loop over the lines still to read. *)
Fixpoint loop (st : state) (lines : list pystr) : state :=
  match lines with
  | [] => st
  | raw :: rest =>
      let line := Py.strip raw in
      match rest with
      | next :: rest' =>
          if Py.startswith (str "# ") line
             && Py.eqs (Py.strip next) (str "---")
          then loop (open_section st line next) rest'
          else loop (step st line) rest
      | [] => loop (step st line) rest
      end
  end.

Definition initial : state := State ∅ None [] None [].

(** The section mapping when the scan ends. *)
Definition scan (worksheet_content : pystr) : gmap pystr (section F) :=
  let lines := Py.split newline (Py.strip worksheet_content) in
  let st := loop initial lines in
  match current_section st with
  | Some cs => finalize_section (sections st) cs (current_content st)
                 (current_field st) (current_field_content st)
  | None => sections st
  end.

End Parser.

Arguments state F : clear implicits.

(** What [parse_worksheet_content] returns: the whole mapping, one
    section, or the empty record [{}]. *)
Inductive parsed :=
| AllSections (m : gmap pystr (section (gmap pystr pystr)))
| OneSection (s : section (gmap pystr pystr))
| EmptyRecord.

End Worksheet.

(** [parse_worksheet_content], the [parseWorksheet] of the specification. *)
Definition parse_worksheet_content (worksheet_content : pystr)
    (section_name : option pystr) : Worksheet.parsed :=
  let sections := Worksheet.scan (F := gmap pystr pystr) worksheet_content in
  match section_name with
  | Some n =>
      if Py.truthy n then
        match sections !! n with
        | Some s => Worksheet.OneSection s
        | None => Worksheet.EmptyRecord
        end
      else Worksheet.AllSections sections
  | None => Worksheet.AllSections sections
  end.

(** What [section_data.get(key, default)] returns in the two convenience
    functions: the text or the field mapping of a section, or, when the
    section name is empty and [section_data] is the whole mapping, the
    section whose title happens to be the key. *)
Inductive content_value :=
| ContentText (text : pystr)
| ContentRecord (s : Worksheet.section (gmap pystr pystr)).

Inductive fields_value :=
| FieldsMap (m : gmap pystr pystr)
| FieldsRecord (s : Worksheet.section (gmap pystr pystr)).

(** [get_section_content] *)
Definition get_section_content (worksheet_content section_name : pystr)
    : content_value :=
  match parse_worksheet_content worksheet_content (Some section_name) with
  | Worksheet.OneSection s => ContentText (Worksheet.content s)
  | Worksheet.EmptyRecord => ContentText []
  | Worksheet.AllSections m =>
      match m !! str "content" with
      | Some s => ContentRecord s
      | None => ContentText []
      end
  end.

(** [get_section_fields] *)
Definition get_section_fields (worksheet_content section_name : pystr)
    : fields_value :=
  match parse_worksheet_content worksheet_content (Some section_name) with
  | Worksheet.OneSection s => FieldsMap (Worksheet.fields s)
  | Worksheet.EmptyRecord => FieldsMap ∅
  | Worksheet.AllSections m =>
      match m !! str "fields" with
      | Some s => FieldsRecord s
      | None => FieldsMap ∅
      end
  end.

(** * Vocabulary of the specification *)

(** The lines of the children of a record, in order. *)
Definition generate_children (children : list item)
    (quantities : gmap pystr Z) (current_path : list pystr) : list pystr :=
  flat_map (fun child => generate_item_output child quantities current_path)
           children.

Definition path_key (path : list pystr) (h : header) : pystr :=
  Py.join (str ".") (path ++ [name h]).

(** A template from its lines. *)
Definition template_of (lines : list string) : pystr :=
  Py.join [newline] (map str lines).

(** The lines of a generated worksheet. *)
Definition lines_of (worksheet : pystr) : list pystr :=
  Py.split newline worksheet.

(** ** Instances of a record

    The output of a record falls into blocks, one per instance.  A block
    opens with a header line of the record (its markers, a blank and its
    name, followed by the pipe of a leaf, by the number of a chapter, or by
    nothing) and holds the lines of the record's children, [body], with at
    most one empty line before and after them. *)

Definition optional_blank (l : list pystr) : Prop := l = [] \/ l = [[]].

Definition instance_block (h : header) (body : list pystr) (b : list pystr)
    : Prop :=
  exists first before after,
    Py.startswith (plain_header h) first = true /\
    optional_blank before /\ optional_blank after /\
    b = first :: before ++ body ++ after.

Definition expands_to (out : list pystr) (h : header) (body : list pystr)
    (n : nat) : Prop :=
  exists blocks,
    out = concat blocks /\ length blocks = n /\
    Forall (instance_block h body) blocks.

(** The count the specification gives a record without a quantity
    override. *)
Definition default_count (c : cardinality) : Z :=
  match c with
  | Unlimited => 2
  | Range mn _ => mn
  | Fixed count => count
  end.

Definition is_fixed (c : cardinality) : Prop :=
  match c with
  | Fixed _ => True
  | _ => False
  end.

(** ** The repeated block, as the specification words it

    The instances one after the other, and one empty line after them all
    when the record is on level 1. *)
Definition spec_repeated_block (h : header) (children : list item)
    (quantities : gmap pystr Z) (path : list pystr) (n : nat) : list pystr :=
  flat_map (fun i => repeated_header h i
                       :: generate_children children quantities
                            (path ++ [name h]))
           (seq 0 n)
  ++ blank_after_top_level h.

Definition trailing_blank_once : Prop :=
  forall (h : header) (children : list item) (quantities : gmap pystr Z)
         (path : list pystr),
    children <> [] ->
    (1 < instance_count h quantities (path_key path h))%Z ->
    generate_item_output (Item h children) quantities path =
    spec_repeated_block h children quantities path
      (Z.to_nat (instance_count h quantities (path_key path h))).

(** ** Quantity overrides by dotted path *)

(** The [Child] blocks of a worksheet: its lines that open with the level-2
    header of [Child]. *)
Definition child_blocks (worksheet : pystr) : nat :=
  length (List.filter (Py.startswith (str "## Child")) (lines_of worksheet)).

(** ** Errors *)

(** The part of a header line the grammar is matched against. *)
Definition header_content (line : pystr) : pystr :=
  Py.strip (drop (count_level line) line).

(** ** Commits of a field

    The run of the parser on a log keeps, per section, the assignments to
    the field mapping in the order they were made. *)

(** The dictionary a log of assignments leaves behind. *)
Definition replay (log : list (pystr * pystr)) : gmap pystr pystr :=
  fold_left (fun m kv => <[fst kv := snd kv]> m) log ∅.

(** The value of the last assignment to [k] in a log. *)
Fixpoint last_assigned (k : pystr) (log : list (pystr * pystr))
    : option pystr :=
  match log with
  | [] => None
  | (k', v) :: log' =>
      match last_assigned k log' with
      | Some v' => Some v'
      | None => if decide (k' = k) then Some v else None
      end
  end.

(** The number of assignments to [k] in a log. *)
Definition times_assigned (k : pystr) (log : list (pystr * pystr)) : nat :=
  length (List.filter (fun kv => bool_decide (fst kv = k)) log).




(** ** Nesting by level

    The parent the specification gives a record: the nearest record before
    it whose level is strictly smaller.  A record without one is a root. *)

Definition level_at (structure : list header) (i : nat) : nat :=
  match structure !! i with
  | Some h => level h
  | None => 0
  end.

(** The nearest position before [k] whose level is strictly below [l]. *)
Fixpoint nearest_below (structure : list header) (l k : nat) : option nat :=
  match k with
  | 0 => None
  | S k' => if level_at structure k' <? l then Some k'
            else nearest_below structure l k'
  end.

Definition nearest_smaller (structure : list header) (i : nat) : option nat :=
  nearest_below structure (level_at structure i) i.

(** The records among the first [n] whose parent is [j], in source order. *)
Definition children_upto (structure : list header) (n j : nat) : list nat :=
  List.filter (fun i => bool_decide (nearest_smaller structure i = Some j))
              (seq 0 n).

(** The roots among the first [n] records, in source order. *)
Definition roots_upto (structure : list header) (n : nat) : list nat :=
  List.filter (fun i => bool_decide (nearest_smaller structure i = None))
              (seq 0 n).

Definition children_of (structure : list header) (j : nat) : list nat :=
  children_upto structure (length structure) j.

Definition roots_of (structure : list header) : list nat :=
  roots_upto structure (length structure).

(** The tree of the record at position [j]: the record with, as children,
    the trees of the records whose parent it is, in source order. *)
#[warnings="-register-all"]
Inductive tree_of (structure : list header) : nat -> item -> Prop :=
| TreeOf (j : nat) (h : header) (ts : list item) :
    structure !! j = Some h ->
    Forall2 (tree_of structure) (children_of structure j) ts ->
    tree_of structure j (Item h ts).

(** The open ancestors: every entry of the stack has the entry below it as
    its parent, and the bottom entry is a root. *)
Fixpoint ancestor_chain (structure : list header) (stack : list nat) : Prop :=
  match stack with
  | [] => True
  | x :: below =>
      nearest_smaller structure x = hd_error below
      /\ ancestor_chain structure below
  end.

(** What holds of the builder's state once the first [n] records are in. *)
Record built (structure : list header) (n : nat) (st : Hierarchy.state)
    : Prop := Built {
  built_store : forall j,
    Hierarchy.store st !! j =
    (fun h => Hierarchy.Node h (children_upto structure n j))
      <$> structure !! j;
  built_roots : Hierarchy.root_items st = roots_upto structure n;
  built_chain : ancestor_chain structure (Hierarchy.stack st);
  built_top : hd_error (Hierarchy.stack st) =
              match n with 0 => None | S m => Some m end
}.

(** ** Round trip on leaves *)

(** A name the template grammar reads back as it is written: not empty, no
    blank at either end, none of the characters that end a name, and on one
    line. *)
Record field_name_ok (nm : pystr) : Prop := FieldNameOk {
  name_not_empty : nm <> [];
  name_stripped : Py.strip nm = nm;
  name_chars : forallb Grammar.name_char nm = true;
  name_one_line : forallb Worksheet.not_newline nm = true
}.

(** A section name as the template parser stores it. *)
Record section_name_ok (nm : pystr) : Prop := SectionNameOk {
  section_not_empty : nm <> [];
  section_stripped : Py.strip nm = nm;
  section_one_line : forallb Worksheet.not_newline nm = true
}.

(** The template line of a depth-1 required leaf field. *)
Definition leaf_template_line (nm : pystr) : pystr :=
  str "# " ++ nm ++ str " [1] $".

(** A template of depth-1 required leaf fields only. *)
Definition leaves_template (names : list pystr) : pystr :=
  Py.join [newline] (map leaf_template_line names).

(** The same leaves under a worksheet section. *)
Definition section_leaves_template (section_name : pystr)
    (names : list pystr) : pystr :=
  Py.join [newline]
    ((str "- " ++ section_name) :: map leaf_template_line names).

Definition leaf_header (nm : pystr) : header :=
  Header 1 nm (Fixed 1) true [].

(** The lines the generator emits for the leaves. *)
Definition leaf_lines (names : list pystr) : list pystr :=
  flat_map (fun nm => [str "# " ++ nm ++ str " | "; []]) names.

(** The same lines once the worksheet is stripped: the last field line has
    lost its trailing blank and the empty line after it. *)
Fixpoint stripped_leaf_lines (names : list pystr) : list pystr :=
  match names with
  | [] => []
  | nm :: rest =>
      match rest with
      | [] => [str "# " ++ nm ++ str " |"]
      | _ :: _ => (str "# " ++ nm ++ str " | ") :: [] :: stripped_leaf_lines rest
      end
  end.

(** No blank at the start, at the end. *)
Definition starts_solid (s : pystr) : Prop :=
  match s with
  | [] => False
  | c :: _ => Py.is_space c = false
  end.

Definition ends_solid (s : pystr) : Prop := starts_solid (rev s).

(** The end of [parse_worksheet_content]'s scan: the section still open is
    finalized. *)
Definition finish {F : Type} `{FieldStore F} (st : Worksheet.state F)
    : gmap pystr (Worksheet.section F) :=
  match Worksheet.current_section st with
  | Some cs =>
      Worksheet.finalize_section (Worksheet.sections st) cs
        (Worksheet.current_content st) (Worksheet.current_field st)
        (Worksheet.current_field_content st)
  | None => Worksheet.sections st
  end.

(** The fields committed so far, with the one that is still open. *)
Definition with_pending (names : gset pystr) (current_field : option pystr)
    : gset pystr :=
  match current_field with
  | Some nm => {[nm]} ∪ names
  | None => names
  end.

(** Between two leaves: no field open, or one whose body so far is a single
    empty line. *)
Definition pending_ok (current_field : option pystr)
    (current_field_content : list pystr) : Prop :=
  match current_field with
  | Some nm => nm <> [] /\ Py.strip (Py.join [newline] current_field_content) = []
  | None => True
  end.

(** ** Sample inputs *)

Definition scene_fixed4 : header :=
  Header 2 (str "Scene") (Fixed 4) false [].

Definition scene_override : gmap pystr Z := {[ str "Scene" := 9%Z ]}.

(** Two chapters' worth of outline: a level-2 container under [Outline]. *)
Definition chapter : header := Header 2 (str "Chapter") Unlimited false [].
Definition scene : header := Header 2 (str "Scene") Unlimited false [].
Definition title_leaf : header := Header 3 (str "Title") (Fixed 1) true [].
Definition three_chapters : gmap pystr Z := {[ str "Outline.Chapter" := 3%Z ]}.
Definition three_scenes : gmap pystr Z := {[ str "Outline.Scene" := 3%Z ]}.

(** A level-1 container written [# Part [2]] with one leaf below it. *)
Definition part_twice : item :=
  Item (Header 1 (str "Part") (Fixed 2) false [])
       [Item (Header 2 (str "Note") (Fixed 1) false []) []].

Definition five_children : gmap pystr Z := {[ str "Parent.Child" := 5%Z ]}.

Definition parent_once : header := Header 1 (str "Parent") (Fixed 1) false [].
Definition child_unlimited : header :=
  Header 2 (str "Child") Unlimited false [].

(** A template whose first section has no header line. *)
Definition empty_section_template : pystr :=
  template_of ["- Notes"; "- Basics"; "### Title [1] $"].

(** A worksheet with the field [Name] filled in twice in one section. *)
Definition cast_lines : list pystr :=
  [str "# Cast"; str "---"; str "## Character"; str "### Name |";
   str "Elena"; str "## Character"; str "### Name |"; str "Marcus"].

Definition cast_worksheet : pystr := Py.join [newline] cast_lines.

Definition cast_commits : list (pystr * pystr) :=
  [(str "Name", str "Elena"); (str "Name", str "Marcus")].

Definition cast_section : Worksheet.section (gmap pystr pystr) :=
  Worksheet.Section (str "Cast") cast_worksheet (replay cast_commits).

(** * Vocabulary of the further properties *)

(** The lines [parse_llm_md] hands to the template parser. *)
Definition lines_of_template (template : pystr) : list pystr :=
  Py.split newline (Py.strip template).

(** A template line that is neither a section line nor a header line. *)
Definition is_ignored (raw : pystr) : bool :=
  let line := Py.strip raw in
  negb (Py.truthy line)
  || (negb (Py.startswith (str "- ") line)
      && negb (Py.startswith (str "#") line)).

(** Counts that are not negative. *)
Definition cardinality_nonneg (c : cardinality) : Prop :=
  match c with
  | Unlimited => True
  | Fixed count => (0 <= count)%Z
  | Range mn mx => (0 <= mn)%Z /\ (0 <= mx)%Z
  end.

Definition not_dash (c : ascii) : bool := negb (Py.eqc c "-"%char).

(** ** A header written out

    The template line of a header in the documented order: markers, name,
    cardinality in brackets, the required marker, the notes after a bar. *)

Definition cardinality_text (c : cardinality) : pystr :=
  match c with
  | Unlimited => str "*"
  | Fixed count => Py.str_of_nat (Z.to_nat count)
  | Range mn mx =>
      Py.str_of_nat (Z.to_nat mn) ++ str "-" ++ Py.str_of_nat (Z.to_nat mx)
  end.

Definition required_text (required : bool) : pystr :=
  if required then str " $" else [].

Definition notes_text (notes : pystr) : pystr :=
  match notes with
  | [] => []
  | _ :: _ => str " | " ++ notes
  end.

Definition template_line_of (h : header) : pystr :=
  Py.times "#"%char (level h) ++ str " " ++ name h
  ++ str " [" ++ cardinality_text (card h) ++ str "]"
  ++ required_text (required h) ++ notes_text (notes h).

(** The interpreter reads an [int] literal of at most 4300 digits. *)
Definition literal_limit : Z := 10 ^ 4300.

Definition cardinality_small (c : cardinality) : Prop :=
  match c with
  | Unlimited => True
  | Fixed count => (count < literal_limit)%Z
  | Range mn mx => (mn < literal_limit)%Z /\ (mx < literal_limit)%Z
  end.

(** A header the template grammar can express, on one line, with counts
    the interpreter reads. *)
Record header_ok (h : header) : Prop := HeaderOk {
  ok_level : 1 <= level h;
  ok_name : field_name_ok (name h);
  ok_card : cardinality_nonneg (card h);
  ok_card_small : cardinality_small (card h);
  ok_notes : Py.strip (notes h) = notes h;
  ok_notes_line : forallb Worksheet.not_newline (notes h) = true
}.

(** The digits of a decimal number. *)
Definition digits_of (d : Decimal.uint) : pystr :=
  list_ascii_of_string (NilEmpty.string_of_uint d).

Definition not_bracket (c : ascii) : bool :=
  negb (Py.mem c ["["%char; "]"%char]).

(** ** The hierarchy read in preorder *)

(** The records of a tree, the record first and then its children's. *)
Fixpoint flatten (it : item) : list header :=
  match it with
  | Item h children => h :: flat_map flatten children
  end.

(** The positions in [a, b) whose level no earlier position of the range
    undercuts: the records that open a tree of their own in the range. *)
Definition tops (structure : list header) (a b : nat) : list nat :=
  List.filter
    (fun i => forallb (fun m => level_at structure i <=? level_at structure m)
                      (seq a (i - a)))
    (seq a (b - a)).

(** The range [a, b) ends where the trees opened in it end: at the end of
    the list, or at a record whose level is below all of the range. *)
Definition closed (structure : list header) (a b : nat) : Prop :=
  b = length structure
  \/ forall m, a <= m < b -> level_at structure b < level_at structure m.

(** ** One section on its own *)

(** The lines of a record expanded without its children, its count looked
    up under its bare name. *)
Definition flat_lines (quantities : gmap pystr Z) (h : header) : list pystr :=
  let count := instance_count h quantities (name h) in
  if (count =? 1)%Z then leaf_line h :: blank_after_top_level h
  else concat (repeat [leaf_line h] (Z.to_nat count)).

Definition cast_template : pystr :=
  template_of ["- Cast"; "# Hero"; "## Name [2]"; "### Alias"].

(** ** What the worksheet parser stores *)

(** Field names and values as a section keeps them. *)
Definition fields_tidy (f : gmap pystr pystr) : Prop :=
  forall n v, f !! n = Some v -> n <> [] /\ Py.strip n = n /\ Py.strip v = v.

(** The lines the content of the section titled [t] starts with: the
    title line, stripped, and the rule as it was written. *)
Definition opens_with (t : pystr) (lines : list pystr) : Prop :=
  exists line rule rest,
    lines = line :: rule :: rest
    /\ Py.startswith (str "# ") line = true
    /\ Py.strip (drop 2 line) = t
    /\ Py.strip rule = str "---".

Record section_tidy (k : pystr) (s : Worksheet.section (gmap pystr pystr))
    : Prop := SectionTidy {
  tidy_key : Worksheet.title s = k;
  tidy_title : k <> [] /\ Py.strip k = k;
  tidy_content :
    exists lines,
      Worksheet.content s = Py.join [newline] lines /\ opens_with k lines;
  tidy_fields : fields_tidy (Worksheet.fields s)
}.

(** What the loop of [parse_worksheet_content] keeps true of its state. *)
Record state_tidy (st : Worksheet.state (gmap pystr pystr)) : Prop :=
  StateTidy {
  tidy_sections :
    forall k s, Worksheet.sections st !! k = Some s -> section_tidy k s;
  tidy_current :
    forall t f, Worksheet.current_section st = Some (t, f) ->
      (t <> [] /\ Py.strip t = t) /\ fields_tidy f
      /\ opens_with t (Worksheet.current_content st);
  tidy_field :
    forall n, Worksheet.current_field st = Some n -> Py.strip n = n
}.

(** ** A worksheet filled in

    Under the title line and the rule, a filled worksheet is a run of
    blocks: container headers with what follows them, then a field line,
    then the text written under the field.  The lines are given as the
    parser sees them, stripped. *)

Record block := Block {
  block_heads : list pystr;
  block_level : nat;
  block_name : pystr;
  block_body : list pystr
}.

(** A field line, stripped. *)
Definition field_text (lvl : nat) (nm : pystr) : pystr :=
  Py.times "#"%char lvl ++ str " " ++ nm ++ str " |".

(** A line of text: not a header of any kind, and not a rule. *)
Definition text_line (l : pystr) : Prop :=
  Py.startswith (str "#") l = false /\ Py.eqs l (str "---") = false.

(** A header that is not a field line. *)
Definition head_line (l : pystr) : Prop :=
  Py.startswith (str "#") l = true /\ Py.endswith (str "|") l = false.

Definition heads_ok (heads : list pystr) : Prop :=
  match heads with
  | [] => True
  | first :: others =>
      head_line first /\ Forall (fun l => head_line l \/ text_line l) others
  end.

Record block_ok (b : block) : Prop := BlockOk {
  ok_heads : heads_ok (block_heads b);
  ok_field_level : 1 <= block_level b;
  ok_field_name : field_name_ok (block_name b);
  ok_body : Forall text_line (block_body b)
}.

Definition block_lines (b : block) : list pystr :=
  block_heads b ++ field_text (block_level b) (block_name b) :: block_body b.

(** What a block assigns: the text under the field, joined and stripped. *)
Definition block_value (b : block) : pystr * pystr :=
  (block_name b, Py.strip (Py.join [newline] (block_body b))).

(** The lines [parse_worksheet_content] reads. *)
Definition lines_of_worksheet (worksheet_content : pystr) : list pystr :=
  Py.split newline (Py.strip worksheet_content).

(** The field mapping once the field still open is committed. *)
Definition pend (f : gmap pystr pystr) (current_field : option pystr)
    (current_field_content : list pystr) : gmap pystr pystr :=
  match current_field with
  | Some n => <[n := Py.strip (Py.join [newline] current_field_content)]> f
  | None => f
  end.

(** No field open and nothing collected, or a field whose name counts as
    true. *)
Definition pending_wf (current_field : option pystr)
    (current_field_content : list pystr) : Prop :=
  match current_field with
  | Some n => n <> []
  | None => current_field_content = []
  end.

Definition filled_cast : pystr :=
  Py.join [newline]
    [str "# Cast"; str "---"; str "## Character"; [];
     str "### Name | "; str "  Elena"; str "of Troy  "; [];
     str "### Age | "; str "## Character"; str "### Name | "; str "Marcus"].

Definition filled_cast_blocks : list block :=
  [Block [str "## Character"; []] 3 (str "Name")
         [str "Elena"; str "of Troy"; []];
   Block [] 3 (str "Age") [];
   Block [str "## Character"] 3 (str "Name") [str "Marcus"]].

(** A section [Story] holding [Parent] with the unlimited [Child] below. *)
Definition story_template : pystr :=
  template_of ["- Story"; "# Parent"; "## Child [*]"].

(** * Properties *)

(** ** The generator, one record at a time *)

Lemma generate_item_output_unfold (h : header) (children : list item)
    (quantities : gmap pystr Z) (path : list pystr) :
  generate_item_output (Item h children) quantities path =
  let count := instance_count h quantities (path_key path h) in
  let of_children :=
    generate_children children quantities (path ++ [name h]) in
  if (count =? 1)%Z && negb (has_children children) then
    leaf_line h :: blank_after_top_level h
  else if (count =? 1)%Z && has_children children then
    plain_header h :: blank_after_top_level h ++ of_children
  else
    flat_map (fun i =>
                if has_children children then
                  repeated_header h i :: of_children
                    ++ blank_after_top_level h
                else [leaf_line h])
             (seq 0 (Z.to_nat count)).
Proof. reflexivity. Qed.

Lemma generate_children_app (l1 l2 : list item) (quantities : gmap pystr Z)
    (path : list pystr) :
  generate_children (l1 ++ l2) quantities path =
  generate_children l1 quantities path ++ generate_children l2 quantities path.
Proof. unfold generate_children. apply flat_map_app. Qed.

Lemma generate_children_cons (it : item) (l : list item)
    (quantities : gmap pystr Z) (path : list pystr) :
  generate_children (it :: l) quantities path =
  generate_item_output it quantities path ++ generate_children l quantities path.
Proof. reflexivity. Qed.

(** The repeated branch: taken whenever the count is not 1. *)
Lemma generate_repeated (h : header) (children : list item)
    (quantities : gmap pystr Z) (path : list pystr) :
  instance_count h quantities (path_key path h) ≠ 1%Z ->
  generate_item_output (Item h children) quantities path =
  flat_map (fun i =>
              if has_children children then
                repeated_header h i
                  :: generate_children children quantities (path ++ [name h])
                  ++ blank_after_top_level h
              else [leaf_line h])
           (seq 0 (Z.to_nat (instance_count h quantities (path_key path h)))).
Proof.
  intros Hne. rewrite generate_item_output_unfold. cbv zeta.
  apply Z.eqb_neq in Hne. rewrite Hne. reflexivity.
Qed.

Lemma startswith_refl s : Py.startswith s s = true.
Proof.
  induction s as [|c s IH]; [reflexivity|].
  simpl. unfold Py.eqc. rewrite Ascii.eqb_refl. exact IH.
Qed.

Lemma startswith_app p s : Py.startswith p (p ++ s) = true.
Proof.
  induction p as [|c p IH]; [reflexivity|].
  simpl. unfold Py.eqc. rewrite Ascii.eqb_refl. exact IH.
Qed.

Lemma plain_header_starts_leaf h : Py.startswith (plain_header h) (leaf_line h) = true.
Proof.
  unfold plain_header, leaf_line.
  rewrite !(app_assoc (Py.times _ _)), (app_assoc _ (name h)).
  apply startswith_app.
Qed.

Lemma plain_header_starts_repeated h i :
  Py.startswith (plain_header h) (repeated_header h i) = true.
Proof.
  unfold repeated_header, numbered_header.
  destruct (level h =? 2); [destruct (Py.contains _ _)|];
    try apply startswith_refl.
  unfold plain_header.
  rewrite !(app_assoc (Py.times _ _)), (app_assoc _ (name h)).
  apply startswith_app.
Qed.

Lemma concat_map_flat_map {A B} (f : A -> list B) l :
  concat (map f l) = flat_map f l.
Proof. symmetry. apply flat_map_concat_map. Qed.

Lemma blank_after_top_level_optional h :
  optional_blank (blank_after_top_level h).
Proof.
  unfold blank_after_top_level, optional_blank.
  destruct (level h =? 1); auto.
Qed.

Lemma has_children_false (children : list item) :
  has_children children = false -> children = [].
Proof. destruct children; [reflexivity|discriminate]. Qed.

(** Whatever the count, the output is that many instance blocks. *)
Lemma generate_expands (h : header) (children : list item)
    (quantities : gmap pystr Z) (path : list pystr) :
  expands_to (generate_item_output (Item h children) quantities path) h
             (generate_children children quantities (path ++ [name h]))
             (Z.to_nat (instance_count h quantities (path_key path h))).
Proof.
  pose proof (blank_after_top_level_optional h) as Hb.
  rewrite generate_item_output_unfold. cbv zeta.
  set (count := instance_count h quantities (path_key path h)).
  set (body := generate_children children quantities (path ++ [name h])).
  destruct (Z.eqb_spec count 1) as [He|Hne]; simpl andb.
  - rewrite He. destruct (has_children children) eqn:Hc; simpl negb; cbv iota.
    + exists [plain_header h :: blank_after_top_level h ++ body].
      split; [simpl; now rewrite app_nil_r|]. split; [reflexivity|].
      constructor; [|constructor].
      exists (plain_header h), (blank_after_top_level h), [].
      rewrite app_nil_r. repeat split; auto using startswith_refl.
      now left.
    + apply has_children_false in Hc. subst children. subst body.
      exists [leaf_line h :: blank_after_top_level h].
      split; [simpl; now rewrite app_nil_r|]. split; [reflexivity|].
      constructor; [|constructor].
      exists (leaf_line h), [], (blank_after_top_level h).
      repeat split; auto using plain_header_starts_leaf. now left.
  - eexists (map _ (seq 0 (Z.to_nat count))).
    split; [symmetry; apply concat_map_flat_map|].
    split; [now rewrite length_map, length_seq|].
    apply Forall_map, Forall_forall. intros i _.
    destruct (has_children children) eqn:Hc.
    + exists (repeated_header h i), [], (blank_after_top_level h).
      repeat split; auto using plain_header_starts_repeated. now left.
    + apply has_children_false in Hc. subst children. subst body.
      exists (leaf_line h), [], [].
      repeat split; auto using plain_header_starts_leaf; now left.
Qed.

(** C2. Without a quantity override for its dotted path, a record expands
    to exactly 2 instances when its cardinality is unlimited, to the minimum
    of a range, and to the fixed count of a fixed cardinality; for a fixed
    cardinality an entry of the quantities for its path changes nothing. *)
Theorem cardinality_defaults (h : header) (children : list item)
    (quantities : gmap pystr Z) (path : list pystr) :
  is_fixed (card h) \/ quantities !! path_key path h = None ->
  expands_to (generate_item_output (Item h children) quantities path) h
             (generate_children children quantities (path ++ [name h]))
             (Z.to_nat (default_count (card h))).
Proof.
  intros Hq.
  assert (instance_count h quantities (path_key path h)
          = default_count (card h)) as <-; [|apply generate_expands].
  unfold instance_count, default_count.
  destruct (card h); destruct Hq as [Hf|Hn]; try contradiction;
    try rewrite Hn; reflexivity.
Qed.

(** A [[4]] record named Scene with an override of 9 for its path: four
    instances. *)
Lemma cardinality_defaults_witness :
  expands_to
    (generate_item_output (Item scene_fixed4 []) scene_override []) scene_fixed4
    [] 4.
Proof.
  apply (cardinality_defaults scene_fixed4 [] scene_override []).
  left. exact I.
Defined.

Example cardinality_default_lines :
  parse_llm_md (template_of ["- Plot"; "## Twist [*]"]) None None
    = Ok (template_of ["# Plot"; "---"; "## Twist | "; "## Twist | "])
  /\ parse_llm_md (template_of ["- Plot"; "## Beat [3-5]"]) None None
     = Ok (template_of ["# Plot"; "---"; "## Beat | "; "## Beat | ";
                        "## Beat | "])
  /\ parse_llm_md (template_of ["- Plot"; "## Scene [4]"]) None
                  (Some scene_override)
     = Ok (template_of ["# Plot"; "---"; "## Scene | "; "## Scene | ";
                        "## Scene | "; "## Scene | "]).
Proof. repeat split; vm_compute; reflexivity. Qed.

(** ** Chapter numbering *)

Lemma has_children_true (children : list item) :
  children <> [] -> has_children children = true.
Proof. destruct children; [contradiction|reflexivity]. Qed.

(** C4. With more than one instance, a level-2 container whose name in
    lower case contains [chapter] numbers its headers from 1; every other
    level-2 container repeats the same header without a suffix. *)
Theorem chapter_numbering (h : header) (children : list item)
    (quantities : gmap pystr Z) (path : list pystr) :
  level h = 2 ->
  children <> [] ->
  (1 < instance_count h quantities (path_key path h))%Z ->
  generate_item_output (Item h children) quantities path =
  flat_map (fun i =>
              (if Py.contains (str "chapter") (Py.lower (name h))
               then str "## " ++ name h ++ str " " ++ Py.str_of_nat (i + 1)
               else str "## " ++ name h)
              :: generate_children children quantities (path ++ [name h]))
           (seq 0 (Z.to_nat (instance_count h quantities (path_key path h)))).
Proof.
  intros Hl Hc Hn.
  rewrite generate_repeated by lia.
  rewrite (has_children_true _ Hc).
  apply flat_map_ext. intros i.
  unfold repeated_header, blank_after_top_level, numbered_header, plain_header.
  rewrite Hl. simpl Nat.eqb. cbv iota. rewrite app_nil_r.
  destruct (Py.contains _ _); reflexivity.
Qed.

Lemma chapter_numbering_witness :
  generate_item_output (Item chapter [Item title_leaf []]) three_chapters
                       [str "Outline"] =
  flat_map (fun i =>
              (str "## " ++ str "Chapter" ++ str " " ++ Py.str_of_nat (i + 1))
              :: [str "### Title | "])
           (seq 0 3).
Proof.
  apply (chapter_numbering chapter [Item title_leaf []] three_chapters
           [str "Outline"]).
  - reflexivity.
  - discriminate.
  - vm_compute. reflexivity.
Defined.

Example three_chapters_lines :
  generate_item_output (Item chapter [Item title_leaf []]) three_chapters
                       [str "Outline"] =
  map str ["## Chapter 1"; "### Title | "; "## Chapter 2"; "### Title | ";
           "## Chapter 3"; "### Title | "]%string.
Proof. vm_compute. reflexivity. Qed.

Example three_scenes_lines :
  generate_item_output (Item scene [Item title_leaf []]) three_scenes
                       [str "Outline"] =
  map str ["## Scene"; "### Title | "; "## Scene"; "### Title | ";
           "## Scene"; "### Title | "]%string.
Proof. vm_compute. reflexivity. Qed.

(** ** Blank lines of a repeated container *)

(** C5, as the specification states it, fails: the empty line of a level-1
    container comes after every instance, not once after the whole block. *)
Lemma trailing_blank_once_fails :
  generate_item_output part_twice ∅ [] =
    [str "# Part"; str "## Note | "; []; str "# Part"; str "## Note | "; []]
  /\ ~ trailing_blank_once.
Proof.
  split; [vm_compute; reflexivity|].
  intros Hclaim.
  specialize (Hclaim (Header 1 (str "Part") (Fixed 2) false [])
                [Item (Header 2 (str "Note") (Fixed 1) false []) []] ∅ []).
  assert (Hc : [Item (Header 2 (str "Note") (Fixed 1) false []) []] <> [])
    by discriminate.
  specialize (Hclaim Hc). vm_compute in Hclaim.
  specialize (Hclaim eq_refl). discriminate Hclaim.
Qed.

(** C5, amended. With more than one instance and with children, a record
    on level 1 is followed by one empty line after each of its instances
    (after the instance's children); a record on any other level by none. *)
Theorem blank_after_each_instance (h : header) (children : list item)
    (quantities : gmap pystr Z) (path : list pystr) :
  children <> [] ->
  (1 < instance_count h quantities (path_key path h))%Z ->
  generate_item_output (Item h children) quantities path =
  flat_map (fun i =>
              repeated_header h i
                :: generate_children children quantities (path ++ [name h])
                ++ (if level h =? 1 then [[]] else []))
           (seq 0 (Z.to_nat (instance_count h quantities (path_key path h)))).
Proof.
  intros Hc Hn.
  rewrite generate_repeated by lia.
  rewrite (has_children_true _ Hc). reflexivity.
Qed.

Lemma blank_after_each_instance_witness :
  generate_item_output part_twice ∅ [] =
  flat_map (fun i =>
              repeated_header (Header 1 (str "Part") (Fixed 2) false []) i
                :: [str "## Note | "] ++ [[]])
           (seq 0 2).
Proof.
  apply (blank_after_each_instance (Header 1 (str "Part") (Fixed 2) false [])
           [Item (Header 2 (str "Note") (Fixed 1) false []) []] ∅ []).
  - discriminate.
  - vm_compute. reflexivity.
Defined.

(** ** Records of count zero *)

Lemma generate_worksheet_lines_app (s1 s2 : list entry)
    (quantities : gmap pystr Z) (result : list pystr) :
  generate_worksheet_lines (s1 ++ s2) quantities result =
  generate_worksheet_lines s2 quantities
    (generate_worksheet_lines s1 quantities result).
Proof.
  revert result. induction s1 as [|e s1 IH]; intros result; [reflexivity|].
  destruct e; simpl; apply IH.
Qed.

Lemma generate_worksheet_lines_header (h : header) (rest : list entry)
    (quantities : gmap pystr Z) (result : list pystr) :
  generate_worksheet_lines (HeaderEntry h :: rest) quantities result =
  generate_worksheet_lines rest quantities
    (result ++ generate_item_output (Item h []) quantities []).
Proof. reflexivity. Qed.

(** C10. A record written [[0]] emits no line, whatever its descendants, and
    the records before and after it expand as they do without it: among the
    children of a record or the roots of a section, and among the headers
    outside every section. *)
Theorem zero_count_emits_nothing (lvl : nat) (nm nts : pystr) (rq : bool)
    (children : list item) (quantities : gmap pystr Z) (path : list pystr) :
  let zero := Header lvl nm (Fixed 0) rq nts in
  parse_cardinality (str "[0]") = Ok (Fixed 0)
  /\ generate_item_output (Item zero children) quantities path = []
  /\ (forall before after : list item,
        generate_children (before ++ Item zero children :: after)
                          quantities path =
        generate_children before quantities path
        ++ generate_children after quantities path)
  /\ (forall (before after : list entry) (result : list pystr),
        generate_worksheet_lines (before ++ HeaderEntry zero :: after)
                                 quantities result =
        generate_worksheet_lines (before ++ after) quantities result).
Proof.
  intros zero.
  assert (Hz : forall ch p, generate_item_output (Item zero ch) quantities p = []).
  { intros ch p. rewrite generate_repeated; [reflexivity|]. discriminate. }
  split; [reflexivity|]. split; [apply Hz|]. split.
  - intros before after.
    rewrite generate_children_app, generate_children_cons, Hz. reflexivity.
  - intros before after result.
    rewrite !generate_worksheet_lines_app.
    rewrite generate_worksheet_lines_header, Hz, app_nil_r. reflexivity.
Qed.

(** ** Quantity overrides by dotted path *)

Lemma generate_worksheet_lines_section (n : pystr) (content : list header)
    (quantities : gmap pystr Z) :
  generate_worksheet_lines [WorksheetSection n content] quantities [] =
  [str "# " ++ n; str "---"]
  ++ generate_children (build_hierarchy content) quantities [].
Proof. reflexivity. Qed.

Lemma generate_worksheet_lines_extends (structure : list entry)
    (quantities : gmap pystr Z) :
  forall result : list pystr,
    exists more,
      generate_worksheet_lines structure quantities result = result ++ more.
Proof.
  induction structure as [|e structure IH]; intros result.
  - exists []. cbn. now rewrite app_nil_r.
  - destruct e as [n content|h].
    + cbn [generate_worksheet_lines]. cbv zeta.
      destruct (IH ((match result with [] => result | _ :: _ => result ++ [[]] end
                     ++ [str "# " ++ n; str "---"])
                    ++ flat_map (fun content_item =>
                                   generate_item_output content_item
                                     quantities [])
                                (build_hierarchy content))) as [more Hm].
      rewrite Hm.
      destruct result as [|r result].
      * eexists. cbn [app]. reflexivity.
      * eexists. rewrite <- !app_assoc. reflexivity.
    + rewrite generate_worksheet_lines_header.
      destruct (IH (result ++ generate_item_output (Item h []) quantities []))
        as [more Hm].
      rewrite Hm. eexists. rewrite <- app_assoc. reflexivity.
Qed.

(** The roots of a section, wherever the section stands in the template. *)
Lemma generate_worksheet_lines_middle (s1 s2 : list entry) (n : pystr)
    (content : list header) (quantities : gmap pystr Z) :
  exists prefix suffix,
    generate_worksheet_lines (s1 ++ WorksheetSection n content :: s2)
                             quantities []
    = prefix ++ generate_children (build_hierarchy content) quantities []
        ++ suffix.
Proof.
  rewrite generate_worksheet_lines_app. cbn [generate_worksheet_lines].
  cbv zeta. fold (generate_children (build_hierarchy content) quantities []).
  set (r1 := generate_worksheet_lines s1 quantities []).
  set (r1' := match r1 with [] => r1 | _ :: _ => r1 ++ [[]] end).
  destruct (generate_worksheet_lines_extends s2 quantities
              ((r1' ++ [str "# " ++ n; str "---"])
                 ++ generate_children (build_hierarchy content) quantities []))
    as [more Hm].
  rewrite Hm. exists (r1' ++ [str "# " ++ n; str "---"]), more.
  rewrite <- !app_assoc. reflexivity.
Qed.

(** C3. The code at the failing input.  Asked for the section [Story] with
    the quantities mapping [Parent.Child] to 5, the generator expands the
    headers of the section one by one without building the hierarchy:
    [Parent] becomes a field line, [Child] is looked up under its bare
    name and gets the default of two instances.  The full expansion of the
    same template builds the hierarchy and gives the five blocks. *)
Theorem dotted_key_lost_with_section :
  parse_llm_md story_template (Some (str "Story")) (Some five_children)
    = Ok (Py.join [newline]
            [str "# Parent | "; []; str "## Child | "; str "## Child | "])
  /\ (exists out,
        parse_llm_md story_template (Some (str "Story")) (Some five_children)
          = Ok out
        /\ child_blocks out = 2)
  /\ (exists out,
        parse_llm_md story_template None (Some five_children) = Ok out
        /\ child_blocks out = 5).
Proof.
  split; [vm_compute; reflexivity|].
  split; eexists; (split; [vm_compute; reflexivity|vm_compute; reflexivity]).
Qed.

(** X10. In a full expansion, a record that is neither fixed nor a root
    takes its count from the quantities under the names of its ancestors
    and its own joined by dots, the name of the section left out: below a
    root [hp] of any section of the template, every instance of [hp] holds
    exactly [n] blocks of its child [hc] when the quantities map the two
    names joined by a dot to [n]. *)
Theorem dotted_path_in_full_expansion (template section_name : pystr)
    (s1 s2 : list entry) (content : list header) (hp hc : header)
    (grandchildren pre post before after : list item)
    (quantities : gmap pystr Z) (n : Z) :
  parse_template_structure (lines_of_template template)
    = Ok (s1 ++ WorksheetSection section_name content :: s2) ->
  build_hierarchy content
    = before ++ Item hp (pre ++ Item hc grandchildren :: post) :: after ->
  ~ is_fixed (card hc) ->
  quantities !! (name hp ++ str "." ++ name hc) = Some n ->
  exists prefix suffix blocks,
    parse_llm_md template None (Some quantities)
      = Ok (Py.join [newline]
              (prefix
                 ++ generate_item_output
                      (Item hp (pre ++ Item hc grandchildren :: post))
                      quantities []
                 ++ suffix))
    /\ expands_to
         (generate_item_output
            (Item hp (pre ++ Item hc grandchildren :: post)) quantities [])
         hp
         (generate_children pre quantities [name hp]
            ++ blocks ++ generate_children post quantities [name hp])
         (Z.to_nat (instance_count hp quantities (name hp)))
    /\ expands_to blocks hc
         (generate_children grandchildren quantities [name hp; name hc])
         (Z.to_nat n).
Proof.
  intros Hparse Hh Hfix Hq.
  destruct (generate_worksheet_lines_middle s1 s2 section_name content
              quantities) as (prefix0 & suffix0 & Hlines).
  rewrite Hh, generate_children_app, generate_children_cons in Hlines.
  exists (prefix0 ++ generate_children before quantities []),
         (generate_children after quantities [] ++ suffix0),
         (generate_item_output (Item hc grandchildren) quantities [name hp]).
  split; [|split].
  - unfold parse_llm_md. cbv zeta. fold (lines_of_template template).
    rewrite Hparse. cbn [mbind result_bind default id].
    unfold filter_content_structure, generate_worksheet.
    rewrite Hlines, <- !app_assoc. reflexivity.
  - pose proof (generate_expands hp (pre ++ Item hc grandchildren :: post)
                  quantities []) as He.
    change (path_key [] hp) with (name hp) in He.
    change ([] ++ [name hp]) with [name hp] in He.
    rewrite generate_children_app, generate_children_cons in He. exact He.
  - pose proof (generate_expands hc grandchildren quantities [name hp]) as He.
    change (path_key [name hp] hc) with (name hp ++ str "." ++ name hc) in He.
    change ([name hp] ++ [name hc]) with [name hp; name hc] in He.
    unfold instance_count in He. rewrite Hq in He.
    destruct (card hc); [exact He|contradiction Hfix; exact I|exact He].
Qed.

Lemma dotted_path_in_full_expansion_witness :
  exists prefix suffix blocks,
    parse_llm_md story_template None (Some five_children)
      = Ok (Py.join [newline]
              (prefix
                 ++ generate_item_output
                      (Item parent_once ([] ++ Item child_unlimited [] :: []))
                      five_children []
                 ++ suffix))
    /\ expands_to
         (generate_item_output
            (Item parent_once ([] ++ Item child_unlimited [] :: []))
            five_children [])
         parent_once
         (generate_children [] five_children [name parent_once]
            ++ blocks ++ generate_children [] five_children [name parent_once])
         (Z.to_nat (instance_count parent_once five_children
                      (name parent_once)))
    /\ expands_to blocks child_unlimited
         (generate_children [] five_children
            [name parent_once; name child_unlimited])
         (Z.to_nat 5).
Proof.
  apply (dotted_path_in_full_expansion story_template (str "Story") [] []
           [parent_once; child_unlimited] parent_once child_unlimited
           [] [] [] [] [] five_children 5%Z).
  - vm_compute. reflexivity.
  - vm_compute. reflexivity.
  - exact id.
  - vm_compute. reflexivity.
Defined.

Example five_children_lines :
  parse_llm_md (template_of ["- Story"; "# Parent"; "## Child [*]"])
               None (Some five_children) =
  Ok (Py.join [newline]
        [str "# Story"; str "---"; str "# Parent"; []; str "## Child | ";
         str "## Child | "; str "## Child | "; str "## Child | ";
         str "## Child | "]).
Proof. vm_compute. reflexivity. Qed.

(** ** Missing sections *)

Lemma expand_missing_section (template s : pystr) (structure : list entry)
    (quantities : option (gmap pystr Z)) :
  parse_template_structure (Py.split newline (Py.strip template))
    = Ok structure ->
  Py.truthy s = true ->
  find_section_structure structure s = None ->
  parse_llm_md template (Some s) quantities = Err (SectionNotFound s).
Proof.
  intros Hp Ht Hf. unfold parse_llm_md. rewrite Hp. simpl.
  rewrite Ht, Hf. reflexivity.
Qed.

Lemma parse_worksheet_missing_section (worksheet n : pystr) :
  Py.truthy n = true ->
  Worksheet.scan (F := gmap pystr pystr) worksheet !! n = None ->
  parse_worksheet_content worksheet (Some n) = Worksheet.EmptyRecord.
Proof.
  intros Ht Hn. unfold parse_worksheet_content. rewrite Ht, Hn. reflexivity.
Qed.

(** When the template parses, [expand] reports a section as not found if
    and only if the search yields nothing or an empty content list. *)
Lemma section_not_found_iff (template s : pystr) (structure : list entry)
    (quantities : option (gmap pystr Z)) :
  parse_template_structure (Py.split newline (Py.strip template))
    = Ok structure ->
  Py.truthy s = true ->
  parse_llm_md template (Some s) quantities = Err (SectionNotFound s) <->
  find_section_structure structure s = None
  \/ find_section_structure structure s = Some [].
Proof.
  intros Hp Ht. unfold parse_llm_md. rewrite Hp. simpl. rewrite Ht.
  destruct (find_section_structure structure s) as [[|h hs]|].
  - split; [now right|reflexivity].
  - split; [discriminate|]. intros [Hf|Hf]; discriminate Hf.
  - split; [now left|reflexivity].
Qed.

(** C6, at the input where the code departs from it: the section [Notes]
    is in the parsed template, with no header under it, and asking for it
    raises the error of a section that was not found. *)
Lemma empty_section_reported_missing :
  parse_template_structure
    (Py.split newline (Py.strip empty_section_template))
    = Ok [WorksheetSection (str "Notes") [];
          WorksheetSection (str "Basics")
            [Header 3 (str "Title") (Fixed 1) true []]]
  /\ parse_llm_md empty_section_template (Some (str "Notes")) None
     = Err (SectionNotFound (str "Notes"))
  /\ error_message (SectionNotFound (str "Notes"))
     = Some (str "Section 'Notes' not found in template")
  /\ parse_llm_md empty_section_template (Some (str "Basics")) None
     = Ok (str "### Title | ").
Proof. repeat split; vm_compute; reflexivity. Qed.

(** ** Malformed cardinalities *)

Lemma contains_app_r (p a : pystr) : Py.contains p (a ++ p) = true.
Proof.
  induction a as [|c a IH]; simpl.
  - destruct p; simpl; [reflexivity|].
    unfold Py.eqc. rewrite Ascii.eqb_refl, startswith_refl. reflexivity.
  - rewrite IH. apply orb_true_r.
Qed.

(** C7, as the specification states it, fails: the error of [[abc]] carries
    the text between the brackets and not the line, and bodies that are not
    of the three forms can be accepted. *)
Lemma format_error_counterexample :
  parse_llm_md (str "### Field [abc]") None None
    = Err (InvalidCardinalityFormat (str "abc"))
  /\ error_message (InvalidCardinalityFormat (str "abc"))
     = Some (str "Invalid cardinality format: abc")
  /\ Py.contains (str "### Field [abc]")
                 (str "Invalid cardinality format: abc") = false
  /\ parse_header_line (str "### Field [[3]")
     = Ok (Header 3 (str "Field") (Fixed 3) false [])
  /\ parse_header_line (str "### Field [ 1 - 2 ]")
     = Ok (Header 3 (str "Field") (Range 1 2) false []).
Proof. repeat split; vm_compute; reflexivity. Qed.

(** C7, amended. Both sample lines make template parsing raise a
    [ValueError].  A bracket group whose text, once the brackets at its ends
    are stripped, is not [*], is not made of digits and holds no dash raises
    with that text in the message; a header whose content fails the grammar
    raises with the line in the message. *)
Theorem format_errors :
  parse_llm_md (str "### Field [abc]") None None
    = Err (InvalidCardinalityFormat (str "abc"))
  /\ parse_llm_md (str "### Field [2-]") None None
     = Err (InvalidIntLiteral [])
  /\ (forall (line g1 g2 : pystr) (g3 : bool) (g4 : option pystr),
        Grammar.header_match (header_content line)
          = Some (g1, Some g2, g3, g4) ->
        let body := Py.strip_chars ["["%char; "]"%char] g2 in
        Py.eqs body ["*"%char] = false ->
        Py.isdigit body = false ->
        Py.mem "-"%char body = false ->
        parse_header_line line = Err (InvalidCardinalityFormat body)
        /\ error_message (InvalidCardinalityFormat body)
           = Some (str "Invalid cardinality format: " ++ body))
  /\ (forall line : pystr,
        Grammar.header_match (header_content line) = None ->
        parse_header_line line = Err (InvalidHeaderFormat line)
        /\ exists m, error_message (InvalidHeaderFormat line) = Some m
                     /\ Py.contains line m = true).
Proof.
  split; [vm_compute; reflexivity|]. split; [vm_compute; reflexivity|]. split.
  - intros line g1 g2 g3 g4 Hm body Hs Hd Hdash.
    split; [|reflexivity].
    unfold parse_header_line. unfold header_content in Hm. rewrite Hm.
    simpl default. unfold parse_cardinality. fold body.
    rewrite Hs, Hd, Hdash. reflexivity.
  - intros line Hm. unfold parse_header_line.
    unfold header_content in Hm. rewrite Hm.
    split; [reflexivity|]. eexists. split; [reflexivity|].
    apply contains_app_r.
Qed.

Lemma format_errors_witness :
  parse_header_line (str "### Field [abc]")
    = Err (InvalidCardinalityFormat (str "abc"))
  /\ parse_header_line (str "###") = Err (InvalidHeaderFormat (str "###")).
Proof.
  split.
  - apply (proj1 (proj2 (proj2 format_errors)) (str "### Field [abc]")
             (str "Field") (str "[abc]") false None);
      vm_compute; reflexivity.
  - apply (proj2 (proj2 (proj2 format_errors)) (str "###")).
    vm_compute. reflexivity.
Defined.

(** ** Repeated field names *)

Ltac proj_simpl :=
  cbn [Worksheet.sections Worksheet.current_section Worksheet.current_content
       Worksheet.current_field Worksheet.current_field_content
       fmap option_fmap option_map].

Lemma replay_snoc (log : list (pystr * pystr)) (k v : pystr) :
  replay (log ++ [(k, v)]) = <[k := v]> (replay log).
Proof. unfold replay. rewrite fold_left_app. reflexivity. Qed.

Lemma last_assigned_snoc (k k' v : pystr) (log : list (pystr * pystr)) :
  last_assigned k (log ++ [(k', v)]) =
  if decide (k' = k) then Some v else last_assigned k log.
Proof.
  induction log as [|[k0 v0] log IH]; simpl.
  - reflexivity.
  - rewrite IH. destruct (decide (k' = k)); [reflexivity|].
    reflexivity.
Qed.

Lemma replay_lookup (log : list (pystr * pystr)) (k : pystr) :
  replay log !! k = last_assigned k log.
Proof.
  induction log as [|[k' v] log IH] using rev_ind.
  - apply lookup_empty.
  - rewrite replay_snoc, last_assigned_snoc, lookup_insert.
    destruct (decide (k' = k)); [reflexivity|exact IH].
Qed.





Lemma loop_last {F : Type} `{FieldStore F} (st : Worksheet.state F)
    (raw : pystr) :
  Worksheet.loop st [raw] = Worksheet.step st (Py.strip raw).
Proof. reflexivity. Qed.

Lemma loop_next {F : Type} `{FieldStore F} (st : Worksheet.state F)
    (raw next : pystr) (rest : list pystr) :
  Worksheet.loop st (raw :: next :: rest) =
  if Py.startswith (str "# ") (Py.strip raw)
     && Py.eqs (Py.strip next) (str "---")
  then Worksheet.loop (Worksheet.open_section st (Py.strip raw) next) rest
  else Worksheet.loop (Worksheet.step st (Py.strip raw)) (next :: rest).
Proof. reflexivity. Qed.





Example cast_name_twice :
  Worksheet.fields
    <$> Worksheet.scan (F := list (pystr * pystr)) cast_worksheet !! str "Cast"
    = Some cast_commits
  /\ times_assigned (str "Name") cast_commits = 2
  /\ Worksheet.fields cast_section !! str "Name" = Some (str "Marcus").
Proof. repeat split; vm_compute; reflexivity. Qed.

(** ** The hierarchy builder *)

Lemma nearest_below_spec (structure : list header) (l k j : nat) :
  nearest_below structure l k = Some j <->
  j < k /\ level_at structure j < l
  /\ forall m, j < m < k -> l <= level_at structure m.
Proof.
  induction k as [|k IH]; simpl.
  - split; [discriminate|lia].
  - destruct (Nat.ltb_spec (level_at structure k) l) as [Hlt|Hge].
    + split.
      * intros [= <-]. repeat split; [lia|exact Hlt|lia].
      * intros (Hj & Hl & Hm).
        destruct (decide (j = k)) as [->|Hne]; [reflexivity|].
        specialize (Hm k). lia.
    + rewrite IH. split.
      * intros (Hj & Hl & Hm). repeat split; [lia|exact Hl|].
        intros m Hmk. destruct (decide (m = k)) as [->|]; [exact Hge|].
        apply Hm. lia.
      * intros (Hj & Hl & Hm).
        assert (j <> k) by (intros ->; lia).
        repeat split; [lia|exact Hl|]. intros m Hmk. apply Hm. lia.
Qed.

Lemma nearest_below_none (structure : list header) (l k : nat) :
  nearest_below structure l k = None <->
  forall m, m < k -> l <= level_at structure m.
Proof.
  induction k as [|k IH]; simpl.
  - split; [lia|reflexivity].
  - destruct (Nat.ltb_spec (level_at structure k) l) as [Hlt|Hge].
    + split; [discriminate|]. intros Hm. specialize (Hm k). lia.
    + rewrite IH. split.
      * intros Hm m Hmk. destruct (decide (m = k)) as [->|]; [exact Hge|].
        apply Hm. lia.
      * intros Hm m Hmk. apply Hm. lia.
Qed.

Lemma nearest_below_lower_none (structure : list header) (l l' k : nat) :
  nearest_below structure l' k = None -> l <= l' ->
  nearest_below structure l k = None.
Proof.
  rewrite !nearest_below_none. intros Hm Hl m Hmk.
  specialize (Hm m Hmk). lia.
Qed.

Lemma nearest_below_lower_some (structure : list header) (l l' k y : nat) :
  nearest_below structure l' k = Some y -> l <= l' ->
  nearest_below structure l k = nearest_below structure l (S y).
Proof.
  induction k as [|k IH]; simpl; [discriminate|].
  destruct (Nat.ltb_spec (level_at structure k) l') as [Hlt|Hge].
  - intros [= <-] _. reflexivity.
  - intros Hy Hl.
    destruct (Nat.ltb_spec (level_at structure k) l) as [Hlt'|_]; [lia|].
    rewrite (IH Hy Hl). reflexivity.
Qed.

(** The loop that pops the stack stops at the parent of the incoming
    record. *)
Lemma pop_stack_parent (store : list Hierarchy.node) (structure : list header)
    (l n : nat) (stack : list nat) :
  (forall r, Hierarchy.level_of store r = level_at structure r) ->
  ancestor_chain structure stack ->
  nearest_below structure l n =
    match stack with
    | [] => None
    | x :: _ => nearest_below structure l (S x)
    end ->
  ancestor_chain structure (Hierarchy.pop_stack store l stack)
  /\ nearest_below structure l n
     = hd_error (Hierarchy.pop_stack store l stack).
Proof.
  intros Hlv. induction stack as [|x below IH]; intros Hc Hn.
  - split; [exact I|exact Hn].
  - simpl. rewrite Hlv.
    destruct (Nat.leb_spec l (level_at structure x)) as [Hle|Hgt].
    + destruct Hc as [Hx Hc]. apply IH; [exact Hc|].
      rewrite Hn. simpl.
      destruct (Nat.ltb_spec (level_at structure x) l) as [|_]; [lia|].
      unfold nearest_smaller in Hx.
      destruct below as [|y below']; simpl in Hx.
      * apply (nearest_below_lower_none _ _ _ _ Hx Hle).
      * apply (nearest_below_lower_some _ _ _ _ _ Hx Hle).
    + split; [exact Hc|]. rewrite Hn. simpl.
      destruct (Nat.ltb_spec (level_at structure x) l) as [_|]; [|lia].
      reflexivity.
Qed.

Lemma children_upto_S (structure : list header) (n j : nat) :
  children_upto structure (S n) j =
  children_upto structure n j
  ++ (if bool_decide (nearest_smaller structure n = Some j) then [n] else []).
Proof.
  unfold children_upto. rewrite seq_S, List.filter_app. reflexivity.
Qed.

Lemma roots_upto_S (structure : list header) (n : nat) :
  roots_upto structure (S n) =
  roots_upto structure n
  ++ (if bool_decide (nearest_smaller structure n = None) then [n] else []).
Proof.
  unfold roots_upto. rewrite seq_S, List.filter_app. reflexivity.
Qed.

Lemma built_levels (structure : list header) (n : nat) (st : Hierarchy.state) :
  built structure n st ->
  forall r, Hierarchy.level_of (Hierarchy.store st) r = level_at structure r.
Proof.
  intros [Hs _ _ _] r. unfold Hierarchy.level_of, level_at. rewrite Hs.
  destruct (structure !! r); reflexivity.
Qed.

(** One turn of the loop keeps the state as the specification has it. *)
Lemma attach_built (structure : list header) (n : nat) (st : Hierarchy.state) :
  built structure n st -> built structure (S n) (Hierarchy.attach st n).
Proof.
  intros Hb. pose proof (built_levels _ _ _ Hb) as Hlv.
  destruct Hb as [Hs Hr Hc Ht].
  unfold Hierarchy.attach. rewrite Hlv.
  destruct (pop_stack_parent (Hierarchy.store st) structure
              (level_at structure n) n (Hierarchy.stack st) Hlv Hc)
    as [Hc' Hp].
  { destruct (Hierarchy.stack st) as [|x below]; destruct n as [|m];
      simpl in Ht; try discriminate; [reflexivity|].
    injection Ht as ->. reflexivity. }
  fold (nearest_smaller structure n) in Hp.
  destruct (Hierarchy.pop_stack _ _ _) as [|p below] eqn:Hpop;
    simpl in Hp; constructor; simpl.
  - intros j. rewrite Hs, children_upto_S, Hp.
    rewrite bool_decide_eq_false_2 by discriminate.
    now rewrite app_nil_r.
  - rewrite Hr, roots_upto_S, Hp.
    rewrite bool_decide_eq_true_2 by reflexivity. reflexivity.
  - split; [exact Hp|exact I].
  - reflexivity.
  - intros j. rewrite children_upto_S, Hp.
    destruct (decide (p = j)) as [->|Hne].
    + rewrite list_lookup_alter_eq, Hs.
      rewrite bool_decide_eq_true_2 by reflexivity.
      destruct (structure !! j); reflexivity.
    + rewrite list_lookup_alter_ne by exact Hne. rewrite Hs.
      rewrite bool_decide_eq_false_2 by congruence.
      now rewrite app_nil_r.
  - rewrite Hr, roots_upto_S, Hp.
    rewrite bool_decide_eq_false_2 by discriminate.
    now rewrite app_nil_r.
  - split; [exact Hp|exact Hc'].
  - reflexivity.
Qed.

Lemma fold_attach_built (structure : list header) (k n : nat)
    (st : Hierarchy.state) :
  built structure n st ->
  built structure (n + k) (fold_left Hierarchy.attach (seq n k) st).
Proof.
  revert n st. induction k as [|k IH]; intros n st Hb; simpl.
  - now rewrite Nat.add_0_r.
  - rewrite <- Nat.add_succ_comm. apply IH, attach_built, Hb.
Qed.

Lemma initial_built (structure : list header) :
  built structure 0 (Hierarchy.initial structure).
Proof.
  constructor; simpl.
  - intros j. rewrite list_lookup_fmap. reflexivity.
  - reflexivity.
  - exact I.
  - reflexivity.
Qed.

Lemma run_built (structure : list header) :
  built structure (length structure) (Hierarchy.run structure).
Proof.
  apply (fold_attach_built structure (length structure) 0), initial_built.
Qed.

Lemma children_of_spec (structure : list header) (i j : nat) :
  In i (children_of structure j) <->
  i < length structure /\ j < i
  /\ level_at structure j < level_at structure i
  /\ forall m, j < m < i -> level_at structure i <= level_at structure m.
Proof.
  unfold children_of, children_upto.
  rewrite filter_In, in_seq, bool_decide_eq_true.
  unfold nearest_smaller. rewrite nearest_below_spec. intuition lia.
Qed.

Lemma roots_of_spec (structure : list header) (i : nat) :
  In i (roots_of structure) <->
  i < length structure
  /\ forall m, m < i -> level_at structure i <= level_at structure m.
Proof.
  unfold roots_of, roots_upto.
  rewrite filter_In, in_seq, bool_decide_eq_true.
  unfold nearest_smaller. rewrite nearest_below_none. intuition lia.
Qed.

Lemma run_store (structure : list header) :
  Hierarchy.store (Hierarchy.run structure)
  = imap (fun j h => Hierarchy.Node h (children_of structure j)) structure.
Proof.
  destruct (run_built structure) as [Hs _ _ _].
  apply list_eq. intros j. rewrite list_lookup_imap. apply Hs.
Qed.

Lemma omap_reify_trees (structure : list header)
    (store : list Hierarchy.node) (fuel : nat) (refs : list nat) :
  Forall (fun r => exists n, store !! r = Some n
                             /\ tree_of structure r (reify fuel store n))
         refs ->
  Forall2 (tree_of structure) refs
          (omap (fun r => reify fuel store <$> store !! r) refs).
Proof.
  intros Hall. induction Hall as [|r refs (n & Hn & Ht) _ IH]; [constructor|].
  cbn [omap list_omap]. rewrite Hn.
  cbn [fmap option_fmap option_map]. constructor; [exact Ht|exact IH].
Qed.

Lemma run_lookup (structure : list header) (r : nat) :
  r < length structure ->
  exists n, Hierarchy.store (Hierarchy.run structure) !! r = Some n.
Proof.
  intros Hr. apply lookup_lt_is_Some. now rewrite run_store, length_imap.
Qed.

Lemma reify_tree (structure : list header) (fuel j : nat)
    (n : Hierarchy.node) :
  Hierarchy.store (Hierarchy.run structure) !! j = Some n ->
  length structure - j <= fuel ->
  tree_of structure j
          (reify fuel (Hierarchy.store (Hierarchy.run structure)) n).
Proof.
  revert j n. induction fuel as [|fuel IH]; intros j n Hj Hf.
  - apply lookup_lt_Some in Hj. rewrite run_store, length_imap in Hj. lia.
  - pose proof Hj as Hn. rewrite run_store, list_lookup_imap in Hn.
    destruct (structure !! j) as [h|] eqn:Hh; [|discriminate].
    injection Hn as <-. cbn [reify Hierarchy.hdr Hierarchy.kids].
    constructor; [exact Hh|].
    apply omap_reify_trees, Forall_forall. intros r Hr.
    apply list_elem_of_In, children_of_spec in Hr.
    destruct (run_lookup structure r) as [n' Hn']; [lia|].
    exists n'. split; [exact Hn'|]. apply (IH r n' Hn'). lia.
Qed.

(** The roots the generator walks are the trees of the records without a
    parent. *)
Lemma build_hierarchy_trees (structure : list header) :
  Forall2 (tree_of structure) (roots_of structure) (build_hierarchy structure).
Proof.
  unfold build_hierarchy. cbv zeta.
  destruct (run_built structure) as [_ -> _ _].
  fold (roots_of structure).
  apply omap_reify_trees, Forall_forall. intros r Hr.
  apply list_elem_of_In, roots_of_spec in Hr.
  destruct (run_lookup structure r) as [n' Hn']; [lia|].
  exists n'. split; [exact Hn'|]. apply (reify_tree structure _ r n' Hn'). lia.
Qed.

(** C8. The builder makes every record a child of the nearest record before
    it whose level is strictly smaller, and a root when there is none; the
    children of a record and the roots keep the order of the source, and the
    trees handed to the generator are those of that relation.  A level-3
    record right after a level-1 record is a child of that record. *)
Theorem hierarchy_nearest_smaller (structure : list header) :
  let st := Hierarchy.run structure in
  Hierarchy.root_items st = roots_of structure
  /\ Hierarchy.store st
     = imap (fun j h => Hierarchy.Node h (children_of structure j)) structure
  /\ (forall i j,
        In i (children_of structure j) <->
        i < length structure /\ j < i
        /\ level_at structure j < level_at structure i
        /\ forall m, j < m < i ->
                     level_at structure i <= level_at structure m)
  /\ (forall i,
        In i (roots_of structure) <->
        i < length structure
        /\ forall m, m < i -> level_at structure i <= level_at structure m)
  /\ Forall2 (tree_of structure) (roots_of structure)
             (build_hierarchy structure)
  /\ (forall (n1 n3 t1 t3 : pystr) (c1 c3 : cardinality) (r1 r3 : bool),
        build_hierarchy [Header 1 n1 c1 r1 t1; Header 3 n3 c3 r3 t3]
        = [Item (Header 1 n1 c1 r1 t1) [Item (Header 3 n3 c3 r3 t3) []]]).
Proof.
  intros st. destruct (run_built structure) as [_ Hr _ _].
  split; [exact Hr|]. split; [apply run_store|].
  split; [apply children_of_spec|]. split; [apply roots_of_spec|].
  split; [apply build_hierarchy_trees|].
  intros. reflexivity.
Qed.

(** The tree below a node does not depend on the fuel once there is
    enough of it to reach the end of the store. *)
Lemma reify_fuel (structure : list header) (f1 f2 j : nat)
    (n : Hierarchy.node) :
  let store := Hierarchy.store (Hierarchy.run structure) in
  store !! j = Some n ->
  length structure - j <= f1 ->
  length structure - j <= f2 ->
  reify f1 store n = reify f2 store n.
Proof.
  intros store. revert f2 j n.
  induction f1 as [|f1 IH]; intros f2 j n Hj H1 H2.
  - apply lookup_lt_Some in Hj. subst store.
    rewrite run_store, length_imap in Hj. lia.
  - destruct f2 as [|f2].
    + apply lookup_lt_Some in Hj. subst store.
      rewrite run_store, length_imap in Hj. lia.
    + simpl. f_equal. apply list_omap_ext.
      assert (Hk : Forall (fun r => j < r) (Hierarchy.kids n)).
      { destruct (run_built structure) as [Hs _ _ _].
        fold store in Hs. rewrite Hs in Hj.
        destruct (structure !! j) as [h|]; [|discriminate].
        injection Hj as <-. simpl. apply Forall_forall. intros r Hr.
        apply list_elem_of_In, children_of_spec in Hr. lia. }
      induction Hk as [|r kids Hr Hk IHk]; constructor; [|exact IHk].
      destruct (store !! r) as [n'|] eqn:Hn'; simpl; [|reflexivity].
      f_equal. apply (IH f2 r n' Hn'); lia.
Qed.

(** ** Strings: stripping, splitting and joining *)

Lemma drop_while_length (p : ascii -> bool) (s : pystr) :
  length (Py.drop_while p s) <= length s.
Proof.
  induction s as [|c s IH]; simpl; [lia|].
  destruct (p c); simpl; lia.
Qed.

Lemma drop_while_fixed (p : ascii -> bool) (s : pystr) :
  length (Py.drop_while p s) = length s -> Py.drop_while p s = s.
Proof.
  destruct s as [|c s]; simpl; [reflexivity|].
  destruct (p c); [|reflexivity].
  pose proof (drop_while_length p s). lia.
Qed.

Lemma drop_while_head (p : ascii -> bool) (c : ascii) (s : pystr) :
  Py.drop_while p (c :: s) = c :: s -> p c = false.
Proof.
  simpl. destruct (p c); [|reflexivity].
  intros Heq. pose proof (drop_while_length p s) as Hl.
  rewrite Heq in Hl. simpl in Hl. lia.
Qed.

Lemma drop_while_all (p : ascii -> bool) (a b : pystr) :
  forallb p a = true -> Py.drop_while p (a ++ b) = Py.drop_while p b.
Proof.
  induction a as [|c a IH]; simpl; [reflexivity|].
  intros [Hc Ha]%andb_prop. rewrite Hc. apply IH, Ha.
Qed.

Lemma lstrip_solid (s : pystr) : starts_solid s -> Py.lstrip s = s.
Proof.
  destruct s as [|c s]; [contradiction|].
  unfold starts_solid, Py.lstrip. cbn [Py.drop_while]. intros ->. reflexivity.
Qed.

Lemma rstrip_solid (s : pystr) : ends_solid s -> Py.rstrip s = s.
Proof.
  unfold ends_solid, Py.rstrip. intros Hs.
  change (Py.drop_while Py.is_space (rev s)) with (Py.lstrip (rev s)).
  rewrite (lstrip_solid _ Hs). apply rev_involutive.
Qed.

Lemma strip_solid (s : pystr) :
  starts_solid s -> ends_solid s -> Py.strip s = s.
Proof.
  intros Hs He. unfold Py.strip. rewrite (lstrip_solid _ Hs).
  apply rstrip_solid, He.
Qed.

Lemma solid_of_strip (s : pystr) :
  s <> [] -> Py.strip s = s -> starts_solid s /\ ends_solid s.
Proof.
  intros Hne Hs.
  assert (Hl : Py.lstrip s = s).
  { apply drop_while_fixed.
    pose proof (drop_while_length Py.is_space s) as H1.
    pose proof (drop_while_length Py.is_space (rev (Py.lstrip s))) as H2.
    rewrite length_rev in H2.
    assert (length (Py.strip s) = length s) as H3 by now rewrite Hs.
    unfold Py.strip, Py.rstrip in H3. rewrite length_rev in H3.
    unfold Py.lstrip in *. lia. }
  assert (Hr : Py.lstrip (rev s) = rev s).
  { unfold Py.strip in Hs. rewrite Hl in Hs. unfold Py.rstrip in Hs.
    apply (f_equal (@rev ascii)) in Hs. rewrite rev_involutive in Hs.
    exact Hs. }
  split.
  - destruct s as [|c s]; [contradiction|].
    apply (drop_while_head _ _ _ Hl).
  - unfold ends_solid. destruct (rev s) as [|c r] eqn:Hrev.
    + apply (f_equal (@rev ascii)) in Hrev. rewrite rev_involutive in Hrev.
      contradiction.
    + apply (drop_while_head _ _ _ Hr).
Qed.

Lemma starts_solid_app (a b : pystr) :
  starts_solid a -> starts_solid (a ++ b).
Proof. destruct a; [contradiction|exact id]. Qed.

Lemma ends_solid_app (a b : pystr) : ends_solid b -> ends_solid (a ++ b).
Proof.
  unfold ends_solid. rewrite rev_app_distr. apply starts_solid_app.
Qed.

Lemma rstrip_blanks (a b : pystr) :
  forallb Py.is_space b = true -> Py.rstrip (a ++ b) = Py.rstrip a.
Proof.
  intros Hb. unfold Py.rstrip. rewrite rev_app_distr.
  rewrite drop_while_all; [reflexivity|].
  rewrite forallb_forall in *. intros c Hc. apply Hb.
  now apply in_rev.
Qed.

Lemma strip_trailing_blanks (a b : pystr) :
  starts_solid a -> ends_solid a -> forallb Py.is_space b = true ->
  Py.strip (a ++ b) = a.
Proof.
  intros Hs He Hb. unfold Py.strip.
  rewrite (lstrip_solid _ (starts_solid_app a b Hs)).
  rewrite (rstrip_blanks _ _ Hb). apply rstrip_solid, He.
Qed.

Lemma split_one_line (s : pystr) :
  forallb Worksheet.not_newline s = true -> Py.split newline s = [s].
Proof.
  induction s as [|c s IH]; [reflexivity|].
  cbn [forallb Py.split].
  intros [Hc Hs]%andb_prop. unfold Worksheet.not_newline in Hc.
  apply negb_true_iff in Hc. unfold newline in *. rewrite Hc, (IH Hs).
  reflexivity.
Qed.

Lemma split_at_newline (a b : pystr) :
  forallb Worksheet.not_newline a = true ->
  Py.split newline (a ++ newline :: b) = a :: Py.split newline b.
Proof.
  induction a as [|c a IH]; cbn [forallb Py.split app].
  - intros _. unfold Py.eqc. rewrite Ascii.eqb_refl. reflexivity.
  - intros [Hc Ha]%andb_prop. unfold Worksheet.not_newline in Hc.
    apply negb_true_iff in Hc. unfold newline in *. rewrite Hc, (IH Ha).
    reflexivity.
Qed.

Lemma join_cons2 (sep x y : pystr) (l : list pystr) :
  Py.join sep (x :: y :: l) = x ++ sep ++ Py.join sep (y :: l).
Proof. reflexivity. Qed.

Lemma split_join (ls : list pystr) :
  ls <> [] ->
  Forall (fun l => forallb Worksheet.not_newline l = true) ls ->
  Py.split newline (Py.join [newline] ls) = ls.
Proof.
  intros Hne Hall. induction Hall as [|x l Hx Hl IH]; [contradiction|].
  destruct l as [|y l].
  - apply split_one_line, Hx.
  - rewrite join_cons2.
    change ([newline] ++ Py.join [newline] (y :: l))
      with (newline :: Py.join [newline] (y :: l)).
    rewrite (split_at_newline _ _ Hx). f_equal. apply IH. discriminate.
Qed.

Lemma join_snoc_app (sep x y : pystr) (l : list pystr) :
  Py.join sep (l ++ [x ++ y]) = Py.join sep (l ++ [x]) ++ y.
Proof.
  induction l as [|z l IH]; [reflexivity|].
  destruct l as [|z' l].
  - simpl. now rewrite <- !app_assoc.
  - change ((z :: z' :: l) ++ [x ++ y]) with (z :: z' :: (l ++ [x ++ y])).
    change ((z :: z' :: l) ++ [x]) with (z :: z' :: (l ++ [x])).
    rewrite !join_cons2.
    change (z' :: l ++ [x ++ y]) with ((z' :: l) ++ [x ++ y]).
    change (z' :: l ++ [x]) with ((z' :: l) ++ [x]).
    rewrite IH. now rewrite <- !app_assoc.
Qed.

Lemma join_snoc_empty (sep x : pystr) (l : list pystr) :
  Py.join sep (l ++ [x; []]) = Py.join sep (l ++ [x]) ++ sep.
Proof.
  induction l as [|z l IH].
  - simpl. now rewrite app_nil_r.
  - destruct l as [|z' l].
    + simpl. now rewrite app_nil_r, <- !app_assoc.
    + change ((z :: z' :: l) ++ [x; []]) with (z :: z' :: (l ++ [x; []])).
      change ((z :: z' :: l) ++ [x]) with (z :: z' :: (l ++ [x])).
      rewrite !join_cons2.
      change (z' :: l ++ [x; []]) with ((z' :: l) ++ [x; []]).
      change (z' :: l ++ [x]) with ((z' :: l) ++ [x]).
      rewrite IH. now rewrite <- !app_assoc.
Qed.

Lemma join_starts_solid (sep x : pystr) (l : list pystr) :
  starts_solid x -> starts_solid (Py.join sep (x :: l)).
Proof.
  intros Hx. destruct l; [exact Hx|].
  rewrite join_cons2. apply starts_solid_app, Hx.
Qed.

Lemma join_ends_solid (sep x : pystr) (l : list pystr) :
  ends_solid x -> ends_solid (Py.join sep (l ++ [x])).
Proof.
  intros Hx.
  rewrite <- (app_nil_l x), join_snoc_app. apply ends_solid_app, Hx.
Qed.

(** ** The header grammar on a leaf line *)

Lemma lazy_plus_exact {T} (allowed : ascii -> bool)
    (tail : pystr -> option T) (g t : pystr) (r : T) :
  g <> [] ->
  forallb allowed g = true ->
  tail t = Some r ->
  (forall p u, g = p ++ u -> p <> [] -> u <> [] -> tail (u ++ t) = None) ->
  Grammar.lazy_plus allowed tail (g ++ t) = Some (g, r).
Proof.
  induction g as [|c g IH]; [contradiction|].
  intros _ [Hc Hg]%andb_prop Ht Hu.
  cbn [app Grammar.lazy_plus]. rewrite Hc.
  destruct g as [|d g].
  - cbn [app]. rewrite Ht. reflexivity.
  - rewrite (Hu [c] (d :: g)); [|reflexivity|discriminate|discriminate].
    rewrite IH; [reflexivity|discriminate|exact Hg|exact Ht|].
    intros p u Hpu Hp Hne. apply (Hu (c :: p) u); [|discriminate|exact Hne].
    rewrite Hpu. reflexivity.
Qed.

Lemma ends_solid_tail (c : ascii) (s : pystr) :
  s <> [] -> ends_solid (c :: s) -> ends_solid s.
Proof.
  unfold ends_solid. cbn [rev]. intros Hne.
  destruct (rev s) as [|d r] eqn:Hr; [|exact id].
  apply (f_equal (@rev ascii)) in Hr. rewrite rev_involutive in Hr.
  contradiction.
Qed.

Lemma ends_solid_suffix (p u : pystr) :
  u <> [] -> ends_solid (p ++ u) -> ends_solid u.
Proof.
  intros Hne. induction p as [|c p IH]; [exact id|].
  intros Hs. apply IH. apply (ends_solid_tail c); [|exact Hs].
  destruct p; [exact Hne|discriminate].
Qed.

Lemma ends_solid_single (c : ascii) : ends_solid [c] -> Py.is_space c = false.
Proof. exact id. Qed.

(** The first character that is not a blank belongs to the part that ends
    without a blank. *)
Lemma lstrip_first (u t : pystr) :
  u <> [] -> ends_solid u ->
  exists c rest, Py.lstrip (u ++ t) = c :: rest /\ In c u.
Proof.
  induction u as [|a u IH]; [contradiction|]. intros _ Hs.
  unfold Py.lstrip. cbn [app Py.drop_while].
  destruct (Py.is_space a) eqn:Ha.
  - destruct u as [|b u].
    + apply ends_solid_single in Hs. congruence.
    + destruct IH as (c & rest & Hc & Hin).
      * discriminate.
      * apply (ends_solid_tail a); [discriminate|exact Hs].
      * exists c, rest. split; [exact Hc|now right].
  - exists a, (u ++ t). split; [reflexivity|now left].
Qed.

Lemma name_char_not_special (c : ascii) :
  Grammar.name_char c = true ->
  c <> "["%char /\ c <> "$"%char /\ c <> "|"%char.
Proof.
  intros Hc. repeat split; intros ->; discriminate Hc.
Qed.

Lemma bracket_group_other (s r : pystr) (c : ascii) :
  Py.lstrip s = c :: r -> c <> "["%char -> Grammar.bracket_group s = None.
Proof.
  intros Hs Hc. unfold Grammar.bracket_group. rewrite Hs.
  destruct c as [[] [] [] [] [] [] [] []]; try reflexivity.
  contradiction Hc. reflexivity.
Qed.

Lemma notes_tail_other (s r : pystr) (c : ascii) :
  Py.lstrip s = c :: r -> c <> "|"%char -> Grammar.notes_tail s = None.
Proof.
  intros Hs Hc. unfold Grammar.notes_tail. rewrite Hs.
  assert (s <> []) as Hne by (intros ->; discriminate Hs).
  destruct c as [[] [] [] [] [] [] [] []];
    try (destruct s; [contradiction|reflexivity]).
  contradiction Hc. reflexivity.
Qed.

Lemma dollar_tail_other (s r : pystr) (c : ascii) :
  Py.lstrip s = c :: r -> c <> "$"%char -> c <> "|"%char ->
  Grammar.dollar_tail s = None.
Proof.
  intros Hs Hd Hb. unfold Grammar.dollar_tail.
  rewrite (notes_tail_other _ _ _ Hs Hb), Hs.
  destruct c as [[] [] [] [] [] [] [] []]; try reflexivity.
  contradiction Hd. reflexivity.
Qed.

Lemma header_tail_blocked (u t : pystr) :
  u <> [] -> forallb Grammar.name_char u = true -> ends_solid u ->
  Grammar.header_tail (u ++ t) = None.
Proof.
  intros Hne Hu Hs.
  destruct (lstrip_first u t Hne Hs) as (c & rest & Hc & Hin).
  rewrite forallb_forall in Hu.
  destruct (name_char_not_special c (Hu c Hin)) as (Hb & Hd & Hp).
  unfold Grammar.header_tail.
  rewrite (bracket_group_other _ _ _ Hc Hb).
  rewrite (dollar_tail_other _ _ _ Hc Hd Hp). reflexivity.
Qed.

Lemma forallb_suffix (p : ascii -> bool) (a b : pystr) :
  forallb p (a ++ b) = true -> forallb p b = true.
Proof. rewrite forallb_app. now intros [_ Hb]%andb_prop. Qed.

Lemma header_match_leaf (nm : pystr) :
  field_name_ok nm ->
  Grammar.header_match (nm ++ str " [1] $")
  = Some (nm, Some (str "[1]"), true, None).
Proof.
  intros [Hne Hs Hc Hl].
  destruct (solid_of_strip nm Hne Hs) as [_ He].
  unfold Grammar.header_match.
  rewrite (lazy_plus_exact Grammar.name_char Grammar.header_tail nm
             (str " [1] $") (Some (str "[1]"), true, None));
    [reflexivity|exact Hne|exact Hc|reflexivity|].
  intros p u Hpu Hp Hu. subst nm. apply header_tail_blocked.
  - exact Hu.
  - apply (forallb_suffix _ p), Hc.
  - apply (ends_solid_suffix p), He. exact Hu.
Qed.

Lemma strip_leaf_content (nm : pystr) :
  field_name_ok nm ->
  Py.strip (" "%char :: nm ++ str " [1] $") = nm ++ str " [1] $".
Proof.
  intros [Hne Hs _ _].
  destruct (solid_of_strip nm Hne Hs) as [Hst _].
  unfold Py.strip.
  change (Py.lstrip (" "%char :: nm ++ str " [1] $"))
    with (Py.lstrip (nm ++ str " [1] $")).
  rewrite (lstrip_solid _ (starts_solid_app _ _ Hst)).
  apply rstrip_solid, ends_solid_app. reflexivity.
Qed.

(** The template line of a leaf parses to the leaf. *)
Lemma parse_leaf_line (nm : pystr) :
  field_name_ok nm ->
  parse_header_line (leaf_template_line nm) = Ok (leaf_header nm).
Proof.
  intros Hok. unfold parse_header_line, leaf_template_line.
  change (count_level (str "# " ++ nm ++ str " [1] $")) with 1.
  change (drop 1 (str "# " ++ nm ++ str " [1] $"))
    with (" "%char :: nm ++ str " [1] $").
  rewrite (strip_leaf_content nm Hok), (header_match_leaf nm Hok).
  destruct Hok as [_ Hs _ _]. rewrite Hs. reflexivity.
Qed.

(** ** A template of leaves, parsed and expanded *)

Lemma strip_leaf_line (nm : pystr) :
  field_name_ok nm ->
  Py.strip (leaf_template_line nm) = leaf_template_line nm.
Proof.
  intros _. apply strip_solid; [reflexivity|].
  unfold leaf_template_line. apply ends_solid_app, ends_solid_app.
  reflexivity.
Qed.

Lemma parse_template_lines_leaf (nm : pystr) (rest : list pystr)
    (structure : list entry) (current : option nat) :
  field_name_ok nm ->
  parse_template_lines (leaf_template_line nm :: rest) structure current =
  match current with
  | Some i =>
      parse_template_lines rest
        (alter (append_content (leaf_header nm)) i structure) current
  | None =>
      parse_template_lines rest (structure ++ [HeaderEntry (leaf_header nm)])
                           None
  end.
Proof.
  intros Hok. cbn [parse_template_lines].
  rewrite (strip_leaf_line nm Hok), (parse_leaf_line nm Hok).
  reflexivity.
Qed.

Lemma parse_template_lines_section (nm : pystr) (rest : list pystr) :
  section_name_ok nm ->
  parse_template_lines ((str "- " ++ nm) :: rest) [] None =
  parse_template_lines rest [WorksheetSection nm []] (Some 0).
Proof.
  intros [Hne Hs _].
  destruct (solid_of_strip nm Hne Hs) as [_ He].
  cbn [parse_template_lines].
  rewrite (strip_solid (str "- " ++ nm));
    [|reflexivity|apply ends_solid_app, He].
  change (drop 2 (str "- " ++ nm)) with nm. rewrite Hs. reflexivity.
Qed.

Lemma parse_leaves_in_section (section_name : pystr) (names : list pystr)
    (acc : list header) :
  Forall field_name_ok names ->
  parse_template_lines (map leaf_template_line names)
                       [WorksheetSection section_name acc] (Some 0)
  = Ok [WorksheetSection section_name (acc ++ map leaf_header names)].
Proof.
  intros Hall. revert acc.
  induction Hall as [|nm names Hnm _ IH]; intros acc.
  - simpl. now rewrite app_nil_r.
  - cbn [map]. rewrite (parse_template_lines_leaf _ _ _ _ Hnm).
    change (alter (append_content (leaf_header nm)) 0
              [WorksheetSection section_name acc])
      with [WorksheetSection section_name (acc ++ [leaf_header nm])].
    rewrite IH, <- app_assoc. reflexivity.
Qed.

Lemma parse_leaves_alone (names : list pystr) (acc : list entry) :
  Forall field_name_ok names ->
  parse_template_lines (map leaf_template_line names) acc None
  = Ok (acc ++ map (fun nm => HeaderEntry (leaf_header nm)) names).
Proof.
  intros Hall. revert acc.
  induction Hall as [|nm names Hnm _ IH]; intros acc.
  - simpl. now rewrite app_nil_r.
  - cbn [map]. rewrite (parse_template_lines_leaf _ _ _ _ Hnm).
    rewrite IH, <- app_assoc. reflexivity.
Qed.

Lemma generate_leaf (nm : pystr) (quantities : gmap pystr Z)
    (path : list pystr) :
  generate_item_output (Item (leaf_header nm) []) quantities path
  = [str "# " ++ nm ++ str " | "; []].
Proof. reflexivity. Qed.

Lemma generate_leaves_alone (names : list pystr) (quantities : gmap pystr Z)
    (result : list pystr) :
  generate_worksheet_lines (map (fun nm => HeaderEntry (leaf_header nm)) names)
                           quantities result
  = result ++ leaf_lines names.
Proof.
  revert result. induction names as [|nm names IH]; intros result.
  - simpl. now rewrite app_nil_r.
  - cbn [map]. rewrite generate_worksheet_lines_header, generate_leaf, IH.
    rewrite <- app_assoc. reflexivity.
Qed.

(** Records that are all on one level are all roots. *)
Lemma fold_attach_flat (hs : list header) (l k n : nat) :
  Forall (fun h => level h = l) hs ->
  n + k <= length hs ->
  fold_left Hierarchy.attach (seq n k)
    (Hierarchy.State (map (fun h => Hierarchy.Node h []) hs) (seq 0 n)
                     (match n with 0 => [] | S m => [m] end))
  = Hierarchy.State (map (fun h => Hierarchy.Node h []) hs) (seq 0 (n + k))
                    (match n + k with 0 => [] | S m => [m] end).
Proof.
  intros Hall. revert n. induction k as [|k IH]; intros n Hn.
  - now rewrite Nat.add_0_r.
  - cbn [seq fold_left].
    assert (Hlv : forall i, i < length hs ->
              Hierarchy.level_of (map (fun h => Hierarchy.Node h []) hs) i = l).
    { intros i Hi. unfold Hierarchy.level_of. rewrite list_lookup_fmap.
      destruct (hs !! i) as [h|] eqn:Hh.
      - simpl. apply (Forall_lookup_1 _ _ _ _ Hall Hh).
      - apply lookup_ge_None in Hh. lia. }
    assert (Ha : Hierarchy.attach
              (Hierarchy.State (map (fun h => Hierarchy.Node h []) hs)
                 (seq 0 n) (match n with 0 => [] | S m => [m] end)) n
            = Hierarchy.State (map (fun h => Hierarchy.Node h []) hs)
                (seq 0 (S n)) [n]).
    { unfold Hierarchy.attach. cbn [Hierarchy.store Hierarchy.stack
                                     Hierarchy.root_items].
      rewrite (Hlv n) by lia.
      destruct n as [|m].
      - reflexivity.
      - cbn [Hierarchy.pop_stack]. rewrite (Hlv m) by lia.
        rewrite Nat.leb_refl. cbn [Hierarchy.pop_stack].
        rewrite (seq_S (S m) 0). reflexivity. }
    rewrite Ha. rewrite (IH (S n)) by lia.
    replace (S n + k) with (n + S k) by lia. reflexivity.
Qed.

Lemma omap_seq_lookup {A B} (g : A -> B) (l : list A) (k : nat)
    (f : nat -> option B) :
  (forall r, f (k + r) = g <$> l !! r) ->
  omap f (seq k (length l)) = map g l.
Proof.
  revert k. induction l as [|x l IH]; intros k Hf; [reflexivity|].
  cbn [length seq omap list_omap map].
  pose proof (Hf 0) as H0. rewrite Nat.add_0_r in H0. rewrite H0. simpl.
  f_equal. apply IH. intros r.
  replace (S k + r) with (k + S r) by lia. apply (Hf (S r)).
Qed.

Lemma build_hierarchy_flat (hs : list header) (l : nat) :
  Forall (fun h => level h = l) hs ->
  build_hierarchy hs = map (fun h => Item h []) hs.
Proof.
  intros Hall.
  pose proof (fold_attach_flat hs l (length hs) 0 Hall (Nat.le_refl _)) as Hf.
  change (seq 0 0) with (@nil nat) in Hf.
  change (0 + length hs) with (length hs) in Hf.
  unfold build_hierarchy, Hierarchy.run, Hierarchy.initial. rewrite Hf.
  cbn [Hierarchy.store Hierarchy.root_items Nat.add].
  apply omap_seq_lookup. intros r. cbn [Nat.add].
  rewrite list_lookup_fmap.
  destruct (hs !! r) as [h|]; [|reflexivity].
  simpl. destruct (length hs); reflexivity.
Qed.

Lemma generate_leaves_in_section (section_name : pystr) (names : list pystr)
    (quantities : gmap pystr Z) :
  generate_worksheet_lines
    [WorksheetSection section_name (map leaf_header names)] quantities []
  = [str "# " ++ section_name; str "---"] ++ leaf_lines names.
Proof.
  rewrite generate_worksheet_lines_section.
  rewrite (build_hierarchy_flat _ 1);
    [|apply Forall_map, Forall_forall; intros; reflexivity].
  f_equal. induction names as [|nm names IH]; [reflexivity|].
  cbn [map]. rewrite generate_children_cons, generate_leaf, IH.
  reflexivity.
Qed.

(** ** The generated worksheet, stripped and split *)

Lemma leaf_line_blank (nm : pystr) :
  str "# " ++ nm ++ str " | " = (str "# " ++ nm ++ str " |") ++ [" "%char].
Proof. rewrite <- !app_assoc. reflexivity. Qed.

Lemma stripped_leaf_lines_cons2 (nm m : pystr) (rest : list pystr) :
  stripped_leaf_lines (nm :: m :: rest) =
  (str "# " ++ nm ++ str " | ") :: [] :: stripped_leaf_lines (m :: rest).
Proof. reflexivity. Qed.

Lemma leaf_lines_stripped (names : list pystr) (head : list pystr) :
  names <> [] ->
  Py.join [newline] (head ++ leaf_lines names) =
  Py.join [newline] (head ++ stripped_leaf_lines names)
  ++ [" "%char; newline].
Proof.
  revert head. induction names as [|nm names IH]; [contradiction|].
  intros head _. destruct names as [|m rest].
  - cbn [leaf_lines flat_map stripped_leaf_lines app].
    rewrite leaf_line_blank, join_snoc_empty, join_snoc_app.
    rewrite <- app_assoc. reflexivity.
  - rewrite stripped_leaf_lines_cons2.
    change (leaf_lines (nm :: m :: rest))
      with ([str "# " ++ nm ++ str " | "; []] ++ leaf_lines (m :: rest)).
    change ((str "# " ++ nm ++ str " | ") :: []
              :: stripped_leaf_lines (m :: rest))
      with ([str "# " ++ nm ++ str " | "; []]
              ++ stripped_leaf_lines (m :: rest)).
    rewrite !app_assoc. apply IH. discriminate.
Qed.

Lemma stripped_leaf_lines_last (names : list pystr) :
  names <> [] ->
  exists front b, stripped_leaf_lines names = front ++ [b ++ ["|"%char]].
Proof.
  induction names as [|nm names IH]; [contradiction|]. intros _.
  destruct names as [|m rest].
  - exists [], (str "# " ++ nm ++ [" "%char]).
    cbn [stripped_leaf_lines app]. rewrite <- !app_assoc. reflexivity.
  - destruct IH as (front & b & Hf); [discriminate|].
    exists ((str "# " ++ nm ++ str " | ") :: [] :: front), b.
    rewrite stripped_leaf_lines_cons2, Hf. reflexivity.
Qed.

Lemma stripped_leaf_lines_first (names : list pystr) :
  names <> [] ->
  exists x rest, stripped_leaf_lines names = x :: rest /\ starts_solid x.
Proof.
  destruct names as [|nm names]; [contradiction|]. intros _.
  destruct names as [|m rest]; eexists _, _; (split; [reflexivity|]);
    reflexivity.
Qed.

(** Stripping the worksheet takes the blank and the newline after the last
    field line, and nothing else. *)
Lemma strip_worksheet (names : list pystr) (head : list pystr) :
  names <> [] ->
  match head with
  | [] => True
  | h :: _ => starts_solid h
  end ->
  Py.strip (Py.join [newline] (head ++ leaf_lines names))
  = Py.join [newline] (head ++ stripped_leaf_lines names).
Proof.
  intros Hne Hh. rewrite (leaf_lines_stripped names head Hne).
  apply strip_trailing_blanks; [| |reflexivity].
  - destruct head as [|h head].
    + destruct (stripped_leaf_lines_first names Hne) as (x & rest & -> & Hx).
      apply join_starts_solid, Hx.
    + apply join_starts_solid, Hh.
  - destruct (stripped_leaf_lines_last names Hne) as (front & b & ->).
    rewrite app_assoc. apply join_ends_solid, ends_solid_app. reflexivity.
Qed.

Lemma field_line_one_line (nm tail : pystr) :
  forallb Worksheet.not_newline nm = true ->
  forallb Worksheet.not_newline tail = true ->
  forallb Worksheet.not_newline (str "# " ++ nm ++ tail) = true.
Proof.
  intros Hn Ht. rewrite !forallb_app, Hn, Ht. reflexivity.
Qed.

Lemma stripped_leaf_lines_one_line (names : list pystr) :
  Forall field_name_ok names ->
  Forall (fun l => forallb Worksheet.not_newline l = true)
         (stripped_leaf_lines names).
Proof.
  intros Hall. induction Hall as [|nm names Hnm Hall IH]; [constructor|].
  destruct Hnm as [_ _ _ Hl]. destruct names as [|m rest].
  - constructor; [|constructor]. now apply field_line_one_line.
  - rewrite stripped_leaf_lines_cons2.
    constructor; [now apply field_line_one_line|].
    constructor; [reflexivity|exact IH].
Qed.

(** ** The worksheet parser on field lines *)

Lemma bar_tail_other (s r : pystr) (c : ascii) :
  Py.lstrip s = c :: r -> c <> "|"%char -> Worksheet.bar_tail s = None.
Proof.
  intros Hs Hc. unfold Worksheet.bar_tail. rewrite Hs.
  destruct c as [[] [] [] [] [] [] [] []]; try reflexivity.
  contradiction Hc. reflexivity.
Qed.

Lemma bar_tail_blocked (u t : pystr) :
  u <> [] -> forallb Grammar.name_char u = true -> ends_solid u ->
  Worksheet.bar_tail (u ++ t) = None.
Proof.
  intros Hne Hu Hs.
  destruct (lstrip_first u t Hne Hs) as (c & rest & Hc & Hin).
  rewrite forallb_forall in Hu.
  destruct (name_char_not_special c (Hu c Hin)) as (_ & _ & Hp).
  apply (bar_tail_other _ _ _ Hc Hp).
Qed.

Lemma field_match_leaf (nm : pystr) :
  field_name_ok nm ->
  Worksheet.field_match (str "# " ++ nm ++ str " |") = Some (str "#", nm, []).
Proof.
  intros [Hne Hs Hc Hl].
  destruct (solid_of_strip nm Hne Hs) as [Hst He].
  assert (Hlazy : Grammar.lazy_plus Worksheet.not_newline Worksheet.bar_tail
                    (nm ++ str " |") = Some (nm, [])).
  { apply lazy_plus_exact; [exact Hne|exact Hl|reflexivity|].
    intros p u Hpu Hp Hu. subst nm. apply bar_tail_blocked.
    - exact Hu.
    - apply (forallb_suffix _ p), Hc.
    - apply (ends_solid_suffix p), He. exact Hu. }
  unfold Worksheet.field_match.
  change (count_level (str "# " ++ nm ++ str " |")) with 1.
  change (Worksheet.down_to 1 1) with [1].
  cbn [Worksheet.first_some].
  change (drop 1 (str "# " ++ nm ++ str " |"))
    with (" "%char :: nm ++ str " |").
  change (Py.lstrip (" "%char :: nm ++ str " |"))
    with (Py.lstrip (nm ++ str " |")).
  rewrite (lstrip_solid _ (starts_solid_app _ _ Hst)).
  replace (length (" "%char :: nm ++ str " |") - length (nm ++ str " |"))
    with 1 by (cbn [length]; lia).
  change (Worksheet.down_to 1 0) with [1; 0].
  cbn [Worksheet.first_some].
  change (drop 1 (" "%char :: nm ++ str " |")) with (nm ++ str " |").
  rewrite Hlazy. reflexivity.
Qed.

Lemma endswith_bar (a : pystr) :
  Py.endswith (str "|") (a ++ str " |") = true.
Proof. unfold Py.endswith. rewrite rev_app_distr. reflexivity. Qed.

Lemma strip_field_line (nm : pystr) :
  field_name_ok nm ->
  Py.strip (str "# " ++ nm ++ str " |") = str "# " ++ nm ++ str " |".
Proof.
  intros _. apply strip_solid; [reflexivity|].
  apply ends_solid_app, ends_solid_app. reflexivity.
Qed.

Lemma strip_field_line_blank (nm : pystr) :
  field_name_ok nm ->
  Py.strip (str "# " ++ nm ++ str " | ") = str "# " ++ nm ++ str " |".
Proof.
  intros _. rewrite leaf_line_blank.
  apply strip_trailing_blanks; [reflexivity| |reflexivity].
  apply ends_solid_app, ends_solid_app. reflexivity.
Qed.

Lemma pending_truthy (cf : option pystr) (cfc : list pystr) (nm : pystr) :
  pending_ok cf cfc -> cf = Some nm -> Worksheet.field_truthy cf = true.
Proof.
  intros Hp ->. destruct Hp as [Hne _]. destruct nm; [contradiction|].
  reflexivity.
Qed.

(** A field line commits the field that was open and opens its own. *)
Lemma step_field_line (section_title nm : pystr) (names : gset pystr)
    (cc cfc : list pystr) (cf : option pystr)
    (ss : gmap pystr (Worksheet.section (gmap pystr pystr))) :
  field_name_ok nm ->
  pending_ok cf cfc ->
  Worksheet.step
    (Worksheet.State ss (Some (section_title, gset_to_gmap [] names))
                     cc cf cfc)
    (str "# " ++ nm ++ str " |")
  = Worksheet.State ss
      (Some (section_title, gset_to_gmap [] (with_pending names cf)))
      (cc ++ [str "# " ++ nm ++ str " |"]) (Some nm) [].
Proof.
  intros Hok Hp. unfold Worksheet.step.
  change (Py.startswith (str "#") (str "# " ++ nm ++ str " |")) with true.
  rewrite (app_assoc (str "# ") nm), endswith_bar, <- app_assoc.
  cbn [andb]. proj_simpl.
  rewrite (field_match_leaf nm Hok).
  destruct Hok as [_ Hs _ _]. rewrite Hs.
  destruct cf as [n0|].
  - rewrite (pending_truthy _ _ _ Hp eq_refl).
    destruct Hp as [_ Hv]. unfold Worksheet.commit. cbn [fst snd default].
    rewrite Hv. cbn [fs_set dict_store with_pending].
    rewrite <- gset_to_gmap_union_singleton. reflexivity.
  - reflexivity.
Qed.

Lemma step_empty_line {F : Type} `{FieldStore F} (st : Worksheet.state F) :
  Worksheet.step st [] =
  Worksheet.State (Worksheet.sections st) (Worksheet.current_section st)
    (Worksheet.current_content st ++ [[]]) (Worksheet.current_field st)
    (if Worksheet.field_truthy (Worksheet.current_field st)
     then Worksheet.current_field_content st ++ [[]]
     else Worksheet.current_field_content st).
Proof. reflexivity. Qed.

Lemma finish_pending (section_title : pystr) (names : gset pystr)
    (cc cfc : list pystr) (cf : option pystr) :
  pending_ok cf cfc ->
  finish (Worksheet.State ∅ (Some (section_title, gset_to_gmap [] names))
                          cc cf cfc)
  = {[ section_title :=
         Worksheet.Section section_title (Py.join [newline] cc)
           (gset_to_gmap [] (with_pending names cf)) ]}.
Proof.
  intros Hp. unfold finish. proj_simpl. unfold Worksheet.finalize_section.
  destruct cf as [n0|].
  - rewrite (pending_truthy _ _ _ Hp eq_refl).
    destruct Hp as [_ Hv]. unfold Worksheet.commit. cbn [fst snd default].
    rewrite Hv. cbn [fs_set dict_store with_pending].
    rewrite <- gset_to_gmap_union_singleton, insert_empty. reflexivity.
  - cbn [Worksheet.field_truthy fst snd with_pending].
    rewrite insert_empty. reflexivity.
Qed.

(** The fields of the section, once all leaves are read. *)
Lemma loop_leaves (section_title : pystr) (names : list pystr) :
  Forall field_name_ok names ->
  forall (committed : gset pystr) (cc cfc : list pystr) (cf : option pystr),
    pending_ok cf cfc ->
    exists cc',
      finish (Worksheet.loop
                (Worksheet.State ∅
                   (Some (section_title, gset_to_gmap [] committed))
                   cc cf cfc)
                (stripped_leaf_lines names))
      = {[ section_title :=
             Worksheet.Section section_title (Py.join [newline] cc')
               (gset_to_gmap []
                  (with_pending committed cf ∪ list_to_set names)) ]}.
Proof.
  intros Hall. induction Hall as [|nm names Hnm Hall IH];
    intros committed cc cfc cf Hp.
  - exists cc. cbn [stripped_leaf_lines Worksheet.loop].
    rewrite (finish_pending _ _ _ _ _ Hp).
    rewrite list_to_set_nil, (right_id_L ∅ (∪)). reflexivity.
  - assert (Hnew : pending_ok (Some nm) []).
    { split; [apply Hnm|reflexivity]. }
    destruct names as [|m rest].
    + eexists. cbn [stripped_leaf_lines]. rewrite loop_last.
      rewrite (strip_field_line nm Hnm), (step_field_line _ _ _ _ _ _ _ Hnm Hp).
      rewrite (finish_pending _ _ _ _ _ Hnew). cbn [with_pending].
      rewrite list_to_set_singleton_L.
      rewrite (comm_L (∪) {[nm]} (with_pending committed cf)). reflexivity.
    + rewrite stripped_leaf_lines_cons2, loop_next.
      change (Py.eqs (Py.strip []) (str "---")) with false.
      rewrite andb_false_r.
      rewrite (strip_field_line_blank nm Hnm),
              (step_field_line _ _ _ _ _ _ _ Hnm Hp).
      destruct (stripped_leaf_lines (m :: rest)) as [|x xs] eqn:Hx.
      { destruct rest; discriminate Hx. }
      rewrite loop_next.
      change (Py.startswith (str "# ") (Py.strip [])) with false.
      cbn [andb]. change (Py.strip []) with (@nil ascii).
      rewrite step_empty_line. proj_simpl.
      rewrite (pending_truthy _ _ _ Hnew eq_refl).
      destruct (IH (with_pending committed cf)
                  ((cc ++ [str "# " ++ nm ++ str " |"]) ++ [[]])
                  ([] ++ [[]]) (Some nm)) as [cc' Hcc'].
      { split; [apply Hnm|reflexivity]. }
      assert (Hset : with_pending (with_pending committed cf) (Some nm)
                       ∪ list_to_set (m :: rest)
                     = with_pending committed cf
                       ∪ list_to_set (nm :: m :: rest)).
      { cbn [with_pending]. rewrite (list_to_set_cons nm (m :: rest)).
        rewrite (comm_L (∪) {[nm]} (with_pending committed cf)).
        rewrite <- (assoc_L (∪)). reflexivity. }
      exists cc'. rewrite Hcc', Hset. reflexivity.
Qed.

Lemma step_no_section {F : Type} `{FieldStore F} (st : Worksheet.state F)
    (line : pystr) :
  Worksheet.current_section st = None ->
  Worksheet.current_section (Worksheet.step st line) = None
  /\ Worksheet.sections (Worksheet.step st line) = Worksheet.sections st.
Proof.
  intros Hn. unfold Worksheet.step. rewrite Hn.
  destruct (Py.startswith (str "#") line && Py.endswith (str "|") line).
  - destruct (Worksheet.field_match line) as [[[g1 g2] g3]|]; split;
      reflexivity.
  - destruct (Py.startswith (str "#") line); split; reflexivity.
Qed.

(** Without a rule line no section is ever opened. *)
Lemma loop_no_rule {F : Type} `{FieldStore F} (lines : list pystr) :
  Forall (fun l => Py.eqs (Py.strip l) (str "---") = false) lines ->
  forall st : Worksheet.state F,
    Worksheet.current_section st = None ->
    Worksheet.current_section (Worksheet.loop st lines) = None
    /\ Worksheet.sections (Worksheet.loop st lines) = Worksheet.sections st.
Proof.
  intros Hall. induction Hall as [|raw rest Hraw Hrest IH]; intros st Hn.
  - split; [exact Hn|reflexivity].
  - destruct (step_no_section st (Py.strip raw) Hn) as [Hc Hs].
    destruct rest as [|next rest'].
    + rewrite loop_last. split; [exact Hc|exact Hs].
    + rewrite loop_next.
      apply Forall_inv in Hrest. rewrite Hrest, andb_false_r.
      destruct (IH _ Hc) as [Hc' Hs']. split; [exact Hc'|].
      rewrite Hs'. exact Hs.
Qed.

Lemma stripped_leaf_lines_no_rule (names : list pystr) :
  Forall field_name_ok names ->
  Forall (fun l => Py.eqs (Py.strip l) (str "---") = false)
         (stripped_leaf_lines names).
Proof.
  intros Hall. induction Hall as [|nm names Hnm Hall IH]; [constructor|].
  destruct names as [|m rest].
  - constructor; [|constructor].
    rewrite (strip_field_line nm Hnm). reflexivity.
  - rewrite stripped_leaf_lines_cons2.
    constructor; [rewrite (strip_field_line_blank nm Hnm); reflexivity|].
    constructor; [reflexivity|exact IH].
Qed.

Lemma scan_finish {F : Type} `{FieldStore F} (worksheet : pystr) :
  Worksheet.scan worksheet =
  finish (Worksheet.loop Worksheet.initial
            (Py.split newline (Py.strip worksheet))).
Proof. reflexivity. Qed.

Lemma join_ends_solid_all (sep : pystr) (l : list pystr) :
  l <> [] -> Forall ends_solid l -> ends_solid (Py.join sep l).
Proof.
  intros Hne Hall. destruct (exists_last Hne) as (front & x & ->).
  apply join_ends_solid. apply Forall_app in Hall as [_ Hx].
  now apply Forall_inv in Hx.
Qed.

Lemma strip_join_solid (sep : pystr) (l : list pystr) :
  l <> [] -> Forall starts_solid l -> Forall ends_solid l ->
  Py.strip (Py.join sep l) = Py.join sep l.
Proof.
  intros Hne Hs He. apply strip_solid.
  - destruct l as [|x l]; [contradiction|].
    apply join_starts_solid. now apply Forall_inv in Hs.
  - apply join_ends_solid_all; assumption.
Qed.

Lemma leaf_template_line_ends (nm : pystr) :
  ends_solid (leaf_template_line nm).
Proof.
  unfold leaf_template_line. apply ends_solid_app, ends_solid_app. reflexivity.
Qed.

Lemma leaf_template_line_one_line (nm : pystr) :
  field_name_ok nm ->
  forallb Worksheet.not_newline (leaf_template_line nm) = true.
Proof.
  intros [_ _ _ Hl]. unfold leaf_template_line.
  rewrite !forallb_app, Hl. reflexivity.
Qed.

Lemma Forall_map_leaf {P : pystr -> Prop} (names : list pystr) :
  (forall nm, field_name_ok nm -> P (leaf_template_line nm)) ->
  Forall field_name_ok names ->
  Forall P (map leaf_template_line names).
Proof.
  intros HP Hall. induction Hall; constructor; auto.
Qed.

(** The lines of the template of leaves, as the template parser reads
    them. *)
Lemma template_lines (first : list pystr) (names : list pystr) :
  first ++ map leaf_template_line names <> [] ->
  Forall starts_solid first -> Forall ends_solid first ->
  Forall (fun l => forallb Worksheet.not_newline l = true) first ->
  Forall field_name_ok names ->
  Py.split newline
    (Py.strip (Py.join [newline] (first ++ map leaf_template_line names)))
  = first ++ map leaf_template_line names.
Proof.
  intros Hne Hs He Hl Hall.
  rewrite strip_join_solid; [apply split_join| | |]; try exact Hne.
  - apply Forall_app. split; [exact Hl|].
    apply Forall_map_leaf; [apply leaf_template_line_one_line|exact Hall].
  - apply Forall_app. split; [exact Hs|].
    apply Forall_map_leaf; [reflexivity|exact Hall].
  - apply Forall_app. split; [exact He|].
    apply Forall_map_leaf; [intros; apply leaf_template_line_ends|exact Hall].
Qed.

(** The lines of the generated worksheet, as the worksheet parser reads
    them. *)
Lemma worksheet_lines (head : list pystr) (names : list pystr) :
  head ++ stripped_leaf_lines names <> [] ->
  Forall starts_solid head -> Forall ends_solid head ->
  Forall (fun l => forallb Worksheet.not_newline l = true) head ->
  Forall field_name_ok names ->
  Py.split newline (Py.strip (Py.join [newline] (head ++ leaf_lines names)))
  = head ++ stripped_leaf_lines names.
Proof.
  intros Hne Hs He Hl Hall.
  assert (Hstrip : Py.strip (Py.join [newline] (head ++ leaf_lines names))
                   = Py.join [newline] (head ++ stripped_leaf_lines names)).
  { destruct names as [|nm names].
    - cbn [leaf_lines flat_map stripped_leaf_lines] in *.
      rewrite app_nil_r in *. apply strip_join_solid; assumption.
    - apply strip_worksheet; [discriminate|].
      destruct head; [exact I|now apply Forall_inv in Hs]. }
  rewrite Hstrip. apply split_join; [exact Hne|].
  apply Forall_app. split; [exact Hl|].
  apply stripped_leaf_lines_one_line, Hall.
Qed.

(** ** Round trip on leaves *)

(** What [expand] makes of a section of leaves. *)
Lemma expand_section_leaves (section_name : pystr) (names : list pystr) :
  section_name_ok section_name ->
  Forall field_name_ok names ->
  parse_llm_md (section_leaves_template section_name names) None None
  = Ok (Py.join [newline]
          ([str "# " ++ section_name; str "---"] ++ leaf_lines names)).
Proof.
  intros Hsec Hall. unfold parse_llm_md, section_leaves_template.
  destruct (solid_of_strip _ (section_not_empty _ Hsec)
              (section_stripped _ Hsec)) as [_ He].
  change ((str "- " ++ section_name) :: map leaf_template_line names)
    with ([str "- " ++ section_name] ++ map leaf_template_line names).
  rewrite template_lines; [|discriminate| | | |exact Hall].
  - unfold parse_template_structure. cbn [app].
    rewrite (parse_template_lines_section _ _ Hsec).
    rewrite (parse_leaves_in_section _ _ [] Hall).
    cbn [app mbind result_bind default]. unfold filter_content_structure.
    unfold generate_worksheet.
    rewrite generate_leaves_in_section. reflexivity.
  - constructor; [reflexivity|constructor].
  - constructor; [apply ends_solid_app, He|constructor].
  - constructor; [|constructor].
    rewrite forallb_app, (section_one_line _ Hsec). reflexivity.
Qed.

(** What [expand] makes of leaves outside every section. *)
Lemma expand_leaves (names : list pystr) :
  Forall field_name_ok names ->
  parse_llm_md (leaves_template names) None None
  = Ok (Py.join [newline] (leaf_lines names)).
Proof.
  intros Hall. unfold parse_llm_md, leaves_template.
  destruct names as [|nm names]; [reflexivity|].
  assert (Ht : [] ++ map leaf_template_line (nm :: names) <> [])
    by discriminate.
  apply template_lines in Ht; [|constructor|constructor|constructor|exact Hall].
  change ([] ++ map leaf_template_line (nm :: names))
    with (map leaf_template_line (nm :: names)) in Ht.
  rewrite Ht. unfold parse_template_structure.
  rewrite (parse_leaves_alone _ [] Hall).
  cbn [app mbind result_bind default]. unfold filter_content_structure.
  unfold generate_worksheet.
  rewrite generate_leaves_alone. reflexivity.
Qed.

(** C1, as the specification states it, fails: the worksheet of a template
    of leaves has no section line, and the parser keeps fields only inside a
    section, so the result holds no section and no field mapping. *)
Lemma round_trip_counterexample :
  exists worksheet,
    parse_llm_md (template_of ["# Name [1] $"; "# Age [1] $"]) None None
      = Ok worksheet
    /\ lines_of worksheet
       = [str "# Name | "; []; str "# Age | "; []]
    /\ parse_worksheet_content worksheet None = Worksheet.AllSections ∅.
Proof.
  eexists. split; [vm_compute; reflexivity|].
  split; vm_compute; reflexivity.
Qed.

(** C1, amended. For a template made of one worksheet section line and,
    under it, depth-1 required leaf fields only, [expand] without section
    and quantities followed by [parseWorksheet] yields that one section,
    with a field mapping whose keys are exactly the leaf names and whose
    values are all the empty string.  Without the section line the result
    holds no section at all. *)
Theorem round_trip_on_leaves (section_name : pystr) (names : list pystr) :
  section_name_ok section_name ->
  Forall field_name_ok names ->
  (exists worksheet content,
     parse_llm_md (section_leaves_template section_name names) None None
       = Ok worksheet
     /\ parse_worksheet_content worksheet None
        = Worksheet.AllSections
            {[ section_name :=
                 Worksheet.Section section_name content
                   (gset_to_gmap [] (list_to_set names)) ]})
  /\ (exists worksheet,
        parse_llm_md (leaves_template names) None None = Ok worksheet
        /\ parse_worksheet_content worksheet None = Worksheet.AllSections ∅).
Proof.
  intros Hsec Hall.
  destruct (solid_of_strip _ (section_not_empty _ Hsec)
              (section_stripped _ Hsec)) as [_ He].
  split.
  - destruct (loop_leaves section_name names Hall ∅
                [str "# " ++ section_name; str "---"] [] None I)
      as [cc' Hloop].
    eexists _, (Py.join [newline] cc').
    split; [apply (expand_section_leaves _ _ Hsec Hall)|].
    unfold parse_worksheet_content. f_equal.
    rewrite scan_finish, worksheet_lines;
      [|discriminate| | | |exact Hall].
    + cbn [app]. rewrite loop_next.
      rewrite (strip_solid (str "# " ++ section_name));
        [|reflexivity|apply ends_solid_app, He].
      change (Py.startswith (str "# ") (str "# " ++ section_name)) with true.
      change (Py.eqs (Py.strip (str "---")) (str "---")) with true.
      cbn [andb]. unfold Worksheet.open_section, Worksheet.initial.
      proj_simpl.
      change (drop 2 (str "# " ++ section_name)) with section_name.
      rewrite (section_stripped _ Hsec).
      cbn [fs_empty dict_store].
      rewrite <- (gset_to_gmap_empty (K := pystr) (@nil ascii)).
      rewrite Hloop. cbn [with_pending].
      rewrite (union_empty_l_L (list_to_set names)). reflexivity.
    + constructor; [reflexivity|]. constructor; [reflexivity|constructor].
    + constructor; [apply ends_solid_app, He|].
      constructor; [reflexivity|constructor].
    + constructor; [|constructor; [reflexivity|constructor]].
      rewrite forallb_app, (section_one_line _ Hsec). reflexivity.
  - eexists. split; [apply (expand_leaves _ Hall)|].
    unfold parse_worksheet_content. f_equal. rewrite scan_finish.
    destruct names as [|nm names]; [vm_compute; reflexivity|].
    assert (Hw : [] ++ stripped_leaf_lines (nm :: names) <> [])
      by (destruct names; discriminate).
    apply worksheet_lines in Hw;
      [|constructor|constructor|constructor|exact Hall].
    change ([] ++ leaf_lines (nm :: names))
      with (leaf_lines (nm :: names)) in Hw.
    change ([] ++ stripped_leaf_lines (nm :: names))
      with (stripped_leaf_lines (nm :: names)) in Hw.
    rewrite Hw.
    destruct (loop_no_rule (F := gmap pystr pystr)
                (stripped_leaf_lines (nm :: names))
                (stripped_leaf_lines_no_rule _ Hall)
                Worksheet.initial eq_refl) as [Hc Hs].
    unfold finish. rewrite Hc, Hs. reflexivity.
Qed.

Lemma round_trip_on_leaves_witness :
  (exists worksheet content,
     parse_llm_md (section_leaves_template (str "Basics")
                     [str "Name"; str "Age"]) None None
       = Ok worksheet
     /\ parse_worksheet_content worksheet None
        = Worksheet.AllSections
            {[ str "Basics" :=
                 Worksheet.Section (str "Basics") content
                   (gset_to_gmap [] (list_to_set [str "Name"; str "Age"])) ]})
  /\ (exists worksheet,
        parse_llm_md (leaves_template [str "Name"; str "Age"]) None None
          = Ok worksheet
        /\ parse_worksheet_content worksheet None = Worksheet.AllSections ∅).
Proof.
  apply (round_trip_on_leaves (str "Basics") [str "Name"; str "Age"]).
  - constructor; [discriminate|reflexivity|reflexivity].
  - repeat constructor; try discriminate; reflexivity.
Defined.

Example basics_round_trip :
  parse_llm_md (template_of ["- Basics"; "# Name [1] $"; "# Age [1] $"])
               None None
  = Ok (Py.join [newline]
          [str "# Basics"; str "---"; str "# Name | "; []; str "# Age | "; []])
  /\ (Worksheet.fields
        <$> Worksheet.scan (F := gmap pystr pystr)
              (Py.join [newline]
                 [str "# Basics"; str "---"; str "# Name | "; [];
                  str "# Age | "; []])
            !! str "Basics")
     = Some {[ str "Name" := []; str "Age" := [] ]}.
Proof. split; vm_compute; reflexivity. Qed.

(** * Further properties *)

(** ** More on stripping *)

Lemma drop_while_solid (p : ascii -> bool) (s r : pystr) (c : ascii) :
  Py.drop_while p s = c :: r -> p c = false.
Proof.
  induction s as [|d s IH]; [discriminate|]. cbn [Py.drop_while].
  destruct (p d) eqn:Hd; [exact IH|]. intros [= <- _]. exact Hd.
Qed.

Lemma drop_while_snoc (p : ascii -> bool) (a b : pystr) (c : ascii) :
  p c = false ->
  Py.drop_while p (a ++ c :: b) = Py.drop_while p a ++ c :: b.
Proof.
  intros Hc. induction a as [|d a IH]; cbn [app Py.drop_while].
  - rewrite Hc. reflexivity.
  - destruct (p d); [exact IH|reflexivity].
Qed.

Lemma strip_all_space (s : pystr) :
  forallb Py.is_space s = true -> Py.strip s = [].
Proof.
  intros Hs. unfold Py.strip, Py.lstrip.
  rewrite <- (app_nil_r s), (drop_while_all _ _ _ Hs). reflexivity.
Qed.

Lemma lstrip_shape (s : pystr) : Py.lstrip s = [] \/ starts_solid (Py.lstrip s).
Proof.
  destruct (Py.lstrip s) as [|c r] eqn:Hs; [now left|right].
  apply (drop_while_solid _ _ _ _ Hs).
Qed.

Lemma rstrip_cons_solid (c : ascii) (s : pystr) :
  Py.is_space c = false -> Py.rstrip (c :: s) = c :: Py.rstrip s.
Proof.
  intros Hc. unfold Py.rstrip. cbn [rev].
  rewrite (drop_while_snoc _ _ [] _ Hc), rev_app_distr. reflexivity.
Qed.

Lemma rstrip_shape (s : pystr) : Py.rstrip s = [] \/ ends_solid (Py.rstrip s).
Proof.
  unfold ends_solid, Py.rstrip. rewrite rev_involutive.
  destruct (Py.drop_while Py.is_space (rev s)) as [|c r] eqn:Hs; [now left|].
  right. apply (drop_while_solid _ _ _ _ Hs).
Qed.

(** A stripped string is empty or has no blank at either end. *)
Lemma strip_shape (s : pystr) :
  Py.strip s = [] \/ (starts_solid (Py.strip s) /\ ends_solid (Py.strip s)).
Proof.
  unfold Py.strip. destruct (lstrip_shape s) as [->|Hl]; [now left|].
  destruct (Py.lstrip s) as [|c r]; [contradiction|].
  right. split.
  - rewrite (rstrip_cons_solid _ _ Hl). exact Hl.
  - destruct (rstrip_shape (c :: r)) as [He|He]; [|exact He].
    rewrite (rstrip_cons_solid _ _ Hl) in He. discriminate He.
Qed.

Lemma strip_idempotent (s : pystr) : Py.strip (Py.strip s) = Py.strip s.
Proof.
  destruct (strip_shape s) as [->|[Hs He]]; [reflexivity|].
  apply strip_solid; assumption.
Qed.

Lemma drop_while_forallb (p q : ascii -> bool) (s : pystr) :
  forallb q s = true -> forallb q (Py.drop_while p s) = true.
Proof.
  induction s as [|c s IH]; [reflexivity|]. cbn [forallb Py.drop_while].
  intros [Hc Hs]%andb_prop. destruct (p c); [apply IH, Hs|].
  cbn [forallb]. now rewrite Hc, Hs.
Qed.

Lemma forallb_rev (q : ascii -> bool) (s : pystr) :
  forallb q (rev s) = forallb q s.
Proof.
  induction s as [|c s IH]; [reflexivity|]. cbn [rev forallb].
  rewrite forallb_app, IH. cbn [forallb]. rewrite andb_true_r.
  apply andb_comm.
Qed.

(** Stripping keeps every property of the characters. *)
Lemma strip_forallb (q : ascii -> bool) (s : pystr) :
  forallb q s = true -> forallb q (Py.strip s) = true.
Proof.
  intros Hs. unfold Py.strip, Py.rstrip, Py.lstrip.
  rewrite forallb_rev. apply drop_while_forallb.
  rewrite forallb_rev. apply drop_while_forallb, Hs.
Qed.

(** ** The template parser, line by line *)

Lemma startswith_hash (l : pystr) :
  Py.startswith (str "#") l = true -> exists r, l = "#"%char :: r.
Proof.
  destruct l as [|c r]; [discriminate|]. cbn [str list_ascii_of_string Py.startswith].
  intros [Hc _]%andb_prop. apply Ascii.eqb_eq in Hc. subst c. now exists r.
Qed.

Lemma parse_template_lines_header (raw : pystr) (rest : list pystr)
    (structure : list entry) (current : option nat) :
  Py.startswith (str "#") (Py.strip raw) = true ->
  parse_template_lines (raw :: rest) structure current =
  parsed_header ← parse_header_line (Py.strip raw);
  match current with
  | Some i =>
      parse_template_lines rest
        (alter (append_content parsed_header) i structure) current
  | None =>
      parse_template_lines rest (structure ++ [HeaderEntry parsed_header]) None
  end.
Proof.
  intros Hh. cbn [parse_template_lines].
  destruct (startswith_hash _ Hh) as [r Hr]. rewrite Hr. reflexivity.
Qed.

Lemma parse_template_lines_ignored (raw : pystr) (rest : list pystr)
    (structure : list entry) (current : option nat) :
  is_ignored raw = true ->
  parse_template_lines (raw :: rest) structure current =
  parse_template_lines rest structure current.
Proof.
  unfold is_ignored. cbv zeta. intros Hi. cbn [parse_template_lines].
  destruct (negb (Py.truthy (Py.strip raw))); [reflexivity|].
  cbn [orb] in Hi. apply andb_prop in Hi as [H1 H2].
  apply negb_true_iff in H1, H2. rewrite H1, H2. reflexivity.
Qed.

(** Lines that parse leave a state from which the rest is parsed. *)
Lemma parse_template_lines_prefix (l1 : list pystr) (structure : list entry)
    (current : option nat) (r : list entry) :
  parse_template_lines l1 structure current = Ok r ->
  exists structure' current',
    forall l2, parse_template_lines (l1 ++ l2) structure current
               = parse_template_lines l2 structure' current'.
Proof.
  revert structure current.
  induction l1 as [|raw l1 IH]; intros structure current Hok.
  - exists structure, current. reflexivity.
  - cbn [parse_template_lines app] in *.
    destruct (negb (Py.truthy (Py.strip raw))); [exact (IH _ _ Hok)|].
    destruct (Py.startswith (str "- ") (Py.strip raw)); [exact (IH _ _ Hok)|].
    destruct (Py.startswith (str "#") (Py.strip raw)); [|exact (IH _ _ Hok)].
    destruct (parse_header_line (Py.strip raw)) as [h|e]; [|discriminate Hok].
    cbn [mbind result_bind] in *.
    destruct current as [i|]; exact (IH _ _ Hok).
Qed.

Lemma parse_template_lines_skip (l1 l2 : list pystr) (junk : pystr)
    (structure : list entry) (current : option nat) :
  is_ignored junk = true ->
  parse_template_lines (l1 ++ junk :: l2) structure current =
  parse_template_lines (l1 ++ l2) structure current.
Proof.
  intros Hj. revert structure current.
  induction l1 as [|raw l1 IH]; intros structure current.
  - apply parse_template_lines_ignored, Hj.
  - cbn [parse_template_lines app].
    destruct (negb (Py.truthy (Py.strip raw))); [apply IH|].
    destruct (Py.startswith (str "- ") (Py.strip raw)); [apply IH|].
    destruct (Py.startswith (str "#") (Py.strip raw)); [|apply IH].
    destruct (parse_header_line (Py.strip raw)) as [h|e]; [|reflexivity].
    cbn [mbind result_bind]. destruct current as [i|]; apply IH.
Qed.

(** X1. A template of white space only expands to the empty string, and
    asking it for a section raises the error of a section not found. *)
Theorem blank_template (template : pystr)
    (quantities : option (gmap pystr Z)) :
  forallb Py.is_space template = true ->
  parse_llm_md template None quantities = Ok []
  /\ forall s, Py.truthy s = true ->
       parse_llm_md template (Some s) quantities = Err (SectionNotFound s).
Proof.
  intros Hb. unfold parse_llm_md. rewrite (strip_all_space _ Hb).
  split; [reflexivity|]. intros s Hs. simpl. rewrite Hs. reflexivity.
Qed.

Lemma blank_template_witness :
  parse_llm_md (str "  ") None None = Ok []
  /\ forall s, Py.truthy s = true ->
       parse_llm_md (str "  ") (Some s) None = Err (SectionNotFound s).
Proof. apply (blank_template (str "  ") None). reflexivity. Defined.

(** X2. The whole template is parsed before anything else: when the lines
    before a header line parse and that line is malformed, [expand] raises
    the error of that line, whatever follows it and whatever section or
    quantities are asked for. *)
Theorem first_bad_header_aborts (template : pystr)
    (before after : list pystr) (bad : pystr) (structure : list entry)
    (e : error) (section : option pystr)
    (quantities : option (gmap pystr Z)) :
  lines_of_template template = before ++ bad :: after ->
  parse_template_structure before = Ok structure ->
  Py.startswith (str "#") (Py.strip bad) = true ->
  parse_header_line (Py.strip bad) = Err e ->
  parse_llm_md template section quantities = Err e.
Proof.
  intros Hl Hb Hh He. unfold parse_llm_md.
  unfold lines_of_template in Hl. rewrite Hl.
  unfold parse_template_structure in *.
  destruct (parse_template_lines_prefix _ _ _ _ Hb) as (s' & c' & Hp).
  rewrite Hp, (parse_template_lines_header _ _ _ _ Hh), He. reflexivity.
Qed.

Lemma first_bad_header_aborts_witness :
  parse_llm_md (template_of ["- Basics"; "### Title"; "### Field [abc]";
                             "- Style"; "### Tone"])
               (Some (str "Style")) None
  = Err (InvalidCardinalityFormat (str "abc")).
Proof.
  apply (first_bad_header_aborts _ [str "- Basics"; str "### Title"]
           [str "- Style"; str "### Tone"] (str "### Field [abc]")
           [WorksheetSection (str "Basics")
              [Header 3 (str "Title") (Fixed 1) false []]]);
    vm_compute; reflexivity.
Defined.

(** X3. A line that, once stripped, is empty or starts neither with the
    section marker nor with a header marker has no effect: the template
    with the line and the template without it expand alike. *)
Theorem free_text_ignored (with_line without_line : pystr)
    (before after : list pystr) (junk : pystr) (section : option pystr)
    (quantities : option (gmap pystr Z)) :
  lines_of_template with_line = before ++ junk :: after ->
  lines_of_template without_line = before ++ after ->
  is_ignored junk = true ->
  parse_llm_md with_line section quantities
  = parse_llm_md without_line section quantities.
Proof.
  intros H1 H2 Hj. unfold parse_llm_md.
  unfold lines_of_template in H1, H2. rewrite H1, H2.
  unfold parse_template_structure.
  rewrite (parse_template_lines_skip _ _ _ _ _ Hj). reflexivity.
Qed.

Lemma free_text_ignored_witness :
  parse_llm_md (template_of ["- Basics"; "Fill in every field."; "### Title"])
               None None
  = parse_llm_md (template_of ["- Basics"; "### Title"]) None None.
Proof.
  apply (free_text_ignored _ _ [str "- Basics"] [str "### Title"]
           (str "Fill in every field."));
    vm_compute; reflexivity.
Defined.

(** ** What a parsed header is *)

Lemma lazy_plus_prefix {T} (allowed : ascii -> bool)
    (tail : pystr -> option T) (s g : pystr) (t : T) :
  Grammar.lazy_plus allowed tail s = Some (g, t) ->
  g <> [] /\ forallb allowed g = true
  /\ exists r, s = g ++ r /\ tail r = Some t.
Proof.
  revert g. induction s as [|c s IH]; intros g; [discriminate|].
  cbn [Grammar.lazy_plus]. destruct (allowed c) eqn:Hc; [|discriminate].
  destruct (tail s) as [t'|] eqn:Ht.
  - intros [= <- <-]. split; [discriminate|]. split; [cbn; now rewrite Hc|].
    exists s. split; [reflexivity|exact Ht].
  - destruct (Grammar.lazy_plus allowed tail s) as [[g' t']|]; [|discriminate].
    intros [= <- <-]. destruct (IH g' eq_refl) as (Hne & Hg & r & -> & Hr).
    split; [discriminate|]. split; [cbn; now rewrite Hc, Hg|].
    exists r. split; [reflexivity|exact Hr].
Qed.

Lemma int_digits_nonneg (s : pystr) (acc n : Z) (b : bool) :
  (0 <= acc)%Z -> Py.int_digits acc b s = Some n -> (0 <= n)%Z.
Proof.
  revert acc b. induction s as [|c s IH]; intros acc b Hacc.
  - cbn. destruct b; [|discriminate]. now intros [= <-].
  - cbn [Py.int_digits]. destruct (Py.eqc c "_"%char).
    + destruct b; [|discriminate]. apply IH, Hacc.
    + destruct (Py.is_ascii_digit c); [|discriminate]. apply IH. lia.
Qed.

(** [int] by the first character of the literal. *)
Lemma int_by_sign (s : pystr) :
  Py.int s =
  match rev (Py.drop_while Py.int_space
               (rev (Py.drop_while Py.int_space s))) with
  | [] => None
  | c :: r =>
      if Py.eqc c "+"%char then Py.int_digits 0 false r
      else if Py.eqc c "-"%char then Z.opp <$> Py.int_digits 0 false r
      else Py.int_digits 0 false (c :: r)
  end.
Proof.
  unfold Py.int. cbv zeta.
  destruct (rev _) as [|c r]; [reflexivity|].
  destruct c as [[] [] [] [] [] [] [] []]; reflexivity.
Qed.

Lemma int_nonneg (s : pystr) (n : Z) :
  forallb not_dash s = true -> Py.int s = Some n -> (0 <= n)%Z.
Proof.
  intros Hs. rewrite int_by_sign.
  assert (Hb : forallb not_dash
                 (rev (Py.drop_while Py.int_space
                         (rev (Py.drop_while Py.int_space s)))) = true).
  { rewrite forallb_rev. apply drop_while_forallb.
    rewrite forallb_rev. apply drop_while_forallb, Hs. }
  destruct (rev _) as [|c r]; [discriminate|].
  cbn [forallb] in Hb. apply andb_prop in Hb as [Hc _].
  unfold not_dash in Hc. apply negb_true_iff in Hc. rewrite Hc.
  destruct (Py.eqc c "+"%char); apply int_digits_nonneg; lia.
Qed.

Lemma isdigit_not_dash (s : pystr) :
  Py.isdigit s = true -> forallb not_dash s = true.
Proof.
  unfold Py.isdigit. destruct s as [|c s]; [discriminate|].
  generalize (c :: s). clear. intros s Hs.
  rewrite forallb_forall in *. intros c Hc. specialize (Hs c Hc).
  destruct c as [[] [] [] [] [] [] [] []]; try reflexivity; discriminate Hs.
Qed.

Lemma split_not_sep (s : pystr) :
  Forall (fun w => forallb not_dash w = true) (Py.split "-"%char s).
Proof.
  induction s as [|c s IH]; [repeat constructor|].
  cbn [Py.split]. destruct (Py.eqc c "-"%char) eqn:Hc.
  - constructor; [reflexivity|exact IH].
  - destruct (Py.split "-"%char s) as [|w ws].
    + constructor; [|constructor]. cbn. unfold not_dash. now rewrite Hc.
    + inversion IH as [|? ? Hw Hws]; subst. constructor; [|exact Hws].
      cbn. unfold not_dash at 1. now rewrite Hc, Hw.
Qed.

Lemma parse_cardinality_nonneg (s : pystr) (c : cardinality) :
  parse_cardinality s = Ok c -> cardinality_nonneg c.
Proof.
  unfold parse_cardinality. cbv zeta.
  set (b := Py.strip_chars _ s).
  destruct (Py.eqs b ["*"%char]); [intros [= <-]; exact I|].
  destruct (Py.isdigit b) eqn:Hd.
  - destruct (Py.int b) as [n|] eqn:Hn; [|discriminate].
    intros [= <-]. apply (int_nonneg b n); [|exact Hn].
    apply isdigit_not_dash, Hd.
  - destruct (Py.mem "-"%char b); [|discriminate].
    pose proof (split_not_sep b) as Hsp.
    destruct (Py.split "-"%char b) as [|mn [|mx [|? ?]]]; try discriminate.
    destruct (Py.int mn) as [a|] eqn:Ha; [|discriminate].
    destruct (Py.int mx) as [a'|] eqn:Ha'; [|discriminate].
    intros [= <-]. inversion Hsp as [|? ? H1 H2]; subst.
    inversion H2 as [|? ? H3 _]; subst.
    split; [apply (int_nonneg mn a H1 Ha)|apply (int_nonneg mx a' H3 Ha')].
Qed.

Lemma strip_nonempty_of_solid (g : pystr) :
  starts_solid g -> Py.strip g <> [].
Proof.
  intros Hg. unfold Py.strip. rewrite (lstrip_solid _ Hg).
  destruct g as [|c g]; [contradiction|].
  rewrite (rstrip_cons_solid _ _ Hg). discriminate.
Qed.

(** X4. A header that parses, from a line of the template, has the number
    of leading markers as its level, a name that is not empty, has no blank
    at either end and none of the characters [|], [[] and [$], and counts
    that are not negative. *)
Theorem parsed_header_shape (line : pystr) (h : header) :
  forallb Worksheet.not_newline line = true ->
  parse_header_line line = Ok h ->
  level h = count_level line
  /\ name h <> []
  /\ Py.strip (name h) = name h
  /\ forallb Grammar.name_char (name h) = true
  /\ cardinality_nonneg (card h).
Proof.
  intros _. unfold parse_header_line. cbv zeta.
  destruct (Grammar.header_match _) as [[[[g1 g2] g3] g4]|] eqn:Hm;
    [|discriminate].
  destruct (parse_cardinality _) as [c|] eqn:Hc; [|discriminate].
  cbn [mbind result_bind]. intros [= <-]. cbn [level name card].
  unfold Grammar.header_match in Hm.
  destruct (Grammar.lazy_plus _ _ _) as [[g [[x y] z]]|] eqn:Hl;
    [|discriminate].
  injection Hm as -> -> -> ->.
  destruct (lazy_plus_prefix _ _ _ _ _ Hl) as (Hne & Hg & r & Hr & _).
  split; [reflexivity|]. split; [|split; [|split]].
  - apply strip_nonempty_of_solid.
    destruct (strip_shape (drop (count_level line) line)) as [He|[Hs _]].
    + rewrite He in Hr. destruct g1; [contradiction|discriminate Hr].
    + rewrite Hr in Hs. destruct g1; [contradiction|exact Hs].
  - apply strip_idempotent.
  - apply strip_forallb, Hg.
  - apply (parse_cardinality_nonneg _ _ Hc).
Qed.

Lemma parsed_header_shape_witness :
  level (Header 2 (str "Key Scenes") (Range 2 4) false (str "pick"))
    = count_level (str "## Key Scenes  [2-4] | pick")
  /\ str "Key Scenes" <> []
  /\ Py.strip (str "Key Scenes") = str "Key Scenes"
  /\ forallb Grammar.name_char (str "Key Scenes") = true
  /\ cardinality_nonneg (Range 2 4).
Proof.
  apply (parsed_header_shape (str "## Key Scenes  [2-4] | pick")
           (Header 2 (str "Key Scenes") (Range 2 4) false (str "pick")));
    vm_compute; reflexivity.
Defined.

(** ** Numbers written and read *)

Lemma tail_mul_ten (n : nat) : Nat.tail_mul 10 n = 10 * n.
Proof. apply Nat.tail_mul_spec. Qed.

Ltac digit_step IH :=
  unfold digits_of in *;
  cbn [NilEmpty.string_of_uint list_ascii_of_string Py.int_digits
       Nat.of_uint_acc];
  match goal with
  | |- context [Py.eqc ?c "_"%char] =>
      change (Py.eqc c "_"%char) with false;
      change (Py.is_ascii_digit c) with true; cbv iota;
      let v := eval vm_compute in (Py.code c - 48) in
      change (Py.code c - 48) with v
  end;
  rewrite <- IH; f_equal; rewrite tail_mul_ten; lia.

Lemma int_digits_uint (d : Decimal.uint) (acc : nat) :
  Py.int_digits (Z.of_nat acc) true (digits_of d)
  = Some (Z.of_nat (Nat.of_uint_acc d acc)).
Proof.
  revert acc. induction d as [|d IH|d IH|d IH|d IH|d IH|d IH|d IH|d IH|d IH|d IH];
    intros acc; [reflexivity|..]; digit_step IH.
Qed.

Lemma int_digits_first (d : Decimal.uint) :
  d <> Decimal.Nil ->
  Py.int_digits 0 false (digits_of d) = Some (Z.of_nat (Nat.of_uint d)).
Proof.
  intros Hd. unfold Nat.of_uint.
  destruct d as [|d|d|d|d|d|d|d|d|d|d]; [contradiction|..];
    unfold digits_of;
    cbn [NilEmpty.string_of_uint list_ascii_of_string Py.int_digits];
    match goal with
    | |- context [Py.eqc ?c "_"%char] =>
        let k := eval vm_compute in (Py.code c - 48) in
        exact (int_digits_uint d k)
    end.
Qed.

Lemma digits_all (d : Decimal.uint) :
  forallb Py.is_ascii_digit (digits_of d) = true.
Proof.
  induction d; [reflexivity|..]; unfold digits_of in *;
    cbn [NilEmpty.string_of_uint list_ascii_of_string forallb];
    rewrite IHd; reflexivity.
Qed.

(** [str(n)] is a literal of decimal digits that [int] reads as [n]. *)
Lemma str_of_nat_digits (n : nat) :
  Py.str_of_nat n <> []
  /\ forallb Py.is_ascii_digit (Py.str_of_nat n) = true
  /\ Py.int_digits 0 false (Py.str_of_nat n) = Some (Z.of_nat n).
Proof.
  unfold Py.str_of_nat, NilZero.string_of_uint.
  pose proof (DecimalNat.Unsigned.of_to n) as Hn.
  destruct (Nat.to_uint n) as [|d|d|d|d|d|d|d|d|d|d] eqn:Hd.
  1: { cbn in Hn. subst n. split; [discriminate|split; reflexivity]. }
  all: split; [discriminate|].
  all: split; [apply (digits_all (_ d))|].
  all: rewrite <- Hn; apply (int_digits_first (_ d)); discriminate.
Qed.

Lemma drop_while_none (p : ascii -> bool) (s : pystr) :
  forallb (fun c => negb (p c)) s = true -> Py.drop_while p s = s.
Proof.
  destruct s as [|c s]; [reflexivity|]. cbn [forallb Py.drop_while].
  intros [Hc _]%andb_prop. apply negb_true_iff in Hc. now rewrite Hc.
Qed.

Lemma digit_char_facts (c : ascii) :
  Py.is_ascii_digit c = true ->
  Py.int_space c = false /\ Py.eqc c "+"%char = false
  /\ Py.eqc c "-"%char = false /\ Py.eqc c "*"%char = false
  /\ not_bracket c = true /\ Py.isdigit_char c = true
  /\ Py.eqc c "]"%char = false.
Proof.
  destruct c as [[] [] [] [] [] [] [] []]; intros H;
    try discriminate H; repeat split; reflexivity.
Qed.

Lemma forallb_impl (p q : ascii -> bool) (s : pystr) :
  (forall c, p c = true -> q c = true) ->
  forallb p s = true -> forallb q s = true.
Proof.
  intros Hpq. rewrite !forallb_forall. intros Hs c Hc. apply Hpq, Hs, Hc.
Qed.

(** [int] reads a literal of decimal digits with [int_digits]. *)
Lemma int_of_digits (s : pystr) :
  s <> [] -> forallb Py.is_ascii_digit s = true ->
  Py.int s = Py.int_digits 0 false s.
Proof.
  intros Hne Hs. rewrite int_by_sign.
  assert (Hsp : forallb (fun c => negb (Py.int_space c)) s = true).
  { apply (forallb_impl _ _ _ (fun c H => f_equal negb (proj1 (digit_char_facts c H))) Hs). }
  rewrite (drop_while_none _ _ Hsp).
  rewrite drop_while_none by (now rewrite forallb_rev).
  rewrite rev_involutive. destruct s as [|c r]; [contradiction|].
  cbn [forallb] in Hs. apply andb_prop in Hs as [Hc _].
  destruct (digit_char_facts c Hc) as (_ & -> & -> & _). reflexivity.
Qed.

Lemma int_str_of_nat (n : nat) : Py.int (Py.str_of_nat n) = Some (Z.of_nat n).
Proof.
  destruct (str_of_nat_digits n) as (Hne & Hd & Hi).
  rewrite (int_of_digits _ Hne Hd). exact Hi.
Qed.

Lemma split_none (sep : ascii) (s : pystr) :
  forallb (fun c => negb (Py.eqc c sep)) s = true -> Py.split sep s = [s].
Proof.
  induction s as [|c s IH]; [reflexivity|]. cbn [forallb Py.split].
  intros [Hc Hs]%andb_prop. apply negb_true_iff in Hc.
  rewrite Hc, (IH Hs). reflexivity.
Qed.

Lemma split_at (sep : ascii) (a b : pystr) :
  forallb (fun c => negb (Py.eqc c sep)) a = true ->
  Py.split sep (a ++ sep :: b) = a :: Py.split sep b.
Proof.
  induction a as [|c a IH]; cbn [forallb Py.split app].
  - intros _. unfold Py.eqc. rewrite Ascii.eqb_refl. reflexivity.
  - intros [Hc Ha]%andb_prop. apply negb_true_iff in Hc.
    rewrite Hc, (IH Ha). reflexivity.
Qed.

Lemma strip_chars_brackets (body : pystr) :
  forallb not_bracket body = true ->
  Py.strip_chars ["["%char; "]"%char] ("["%char :: body ++ ["]"%char]) = body.
Proof.
  intros Hb. unfold Py.strip_chars.
  change (Py.drop_while (fun c => Py.mem c ["["%char; "]"%char])
            ("["%char :: body ++ ["]"%char]))
    with (Py.drop_while (fun c => Py.mem c ["["%char; "]"%char])
            (body ++ ["]"%char])).
  destruct body as [|c body].
  - reflexivity.
  - cbn [forallb] in Hb. apply andb_prop in Hb as [Hc Hb].
    unfold not_bracket in Hc. apply negb_true_iff in Hc.
    cbn [app Py.drop_while]. rewrite Hc.
    change (c :: body ++ ["]"%char]) with ((c :: body) ++ ["]"%char]).
    rewrite rev_app_distr. cbn [rev app].
    change (Py.drop_while (fun c0 => Py.mem c0 ["["%char; "]"%char])
              ("]"%char :: rev body ++ [c]))
      with (Py.drop_while (fun c0 => Py.mem c0 ["["%char; "]"%char])
              (rev body ++ [c])).
    rewrite drop_while_none; [now rewrite rev_app_distr, rev_involutive|].
    rewrite forallb_app, forallb_rev. cbn [forallb]. unfold not_bracket in Hb.
    now rewrite Hb, Hc.
Qed.

Lemma digits_clear (s : pystr) :
  forallb Py.is_ascii_digit s = true ->
  forallb not_bracket s = true /\ forallb not_dash s = true
  /\ forallb Py.isdigit_char s = true
  /\ forallb (fun c => negb (Py.eqc c "-"%char)) s = true
  /\ forallb (fun c => negb (Py.eqc c "]"%char)) s = true.
Proof.
  intros Hs.
  repeat split; apply (forallb_impl Py.is_ascii_digit); try exact Hs;
    intros c Hc; destruct (digit_char_facts c Hc) as (_&_&Hd&_&Hb&Hi&Hr);
    unfold not_dash; rewrite ?Hd, ?Hr; auto.
Qed.

Lemma eqs_digits_star (s : pystr) :
  s <> [] -> forallb Py.is_ascii_digit s = true ->
  Py.eqs s ["*"%char] = false.
Proof.
  destruct s as [|c s]; [contradiction|]. intros _ [Hc _]%andb_prop.
  cbn [Py.eqs]. destruct (digit_char_facts c Hc) as (_&_&_&->&_). reflexivity.
Qed.

(** The text of a cardinality between brackets parses to the cardinality. *)
Lemma parse_cardinality_text (c : cardinality) :
  cardinality_nonneg c ->
  parse_cardinality ("["%char :: cardinality_text c ++ ["]"%char]) = Ok c.
Proof.
  intros Hc. destruct c as [|n|a b].
  - reflexivity.
  - cbn [cardinality_text]. cbn [cardinality_nonneg] in Hc.
    destruct (str_of_nat_digits (Z.to_nat n)) as (Hne & Hd & _).
    destruct (digits_clear _ Hd) as (Hb & _ & Hi & _).
    unfold parse_cardinality. cbv zeta. rewrite (strip_chars_brackets _ Hb).
    rewrite (eqs_digits_star _ Hne Hd).
    assert (Py.isdigit (Py.str_of_nat (Z.to_nat n)) = true) as ->.
    { unfold Py.isdigit. destruct (Py.str_of_nat _); [contradiction|exact Hi]. }
    rewrite int_str_of_nat, Z2Nat.id by exact Hc. reflexivity.
  - cbn [cardinality_text]. cbn [cardinality_nonneg] in Hc.
    destruct Hc as [Ha Hb].
    destruct (str_of_nat_digits (Z.to_nat a)) as (Hnea & Hda & _).
    destruct (str_of_nat_digits (Z.to_nat b)) as (Hneb & Hdb & _).
    destruct (digits_clear _ Hda) as (Hba & _ & Hia & Hsa & _).
    destruct (digits_clear _ Hdb) as (Hbb & _ & _ & Hsb & _).
    pose proof (int_str_of_nat (Z.to_nat a)) as Hinta.
    pose proof (int_str_of_nat (Z.to_nat b)) as Hintb.
    rewrite Z2Nat.id in Hinta, Hintb by assumption.
    unfold parse_cardinality. cbv zeta.
    rewrite strip_chars_brackets
      by (rewrite !forallb_app, Hba, Hbb; reflexivity).
    change (str "-" ++ Py.str_of_nat (Z.to_nat b))
      with ("-"%char :: Py.str_of_nat (Z.to_nat b)).
    rewrite (split_at _ _ _ Hsa), (split_none _ _ Hsb), Hinta, Hintb.
    destruct (Py.str_of_nat (Z.to_nat a)) as [|c ra]; [contradiction|].
    cbn [forallb] in Hda, Hia. apply andb_prop in Hda as [Hc _].
    apply andb_prop in Hia as [Hic Hira].
    destruct (digit_char_facts c Hc) as (_ & _ & _ & Hstar & _).
    cbn [app Py.eqs]. rewrite Hstar. cbn [andb].
    unfold Py.isdigit. cbn [forallb]. rewrite Hic, forallb_app, Hira.
    cbn [forallb andb].
    change (Py.isdigit_char "-"%char) with false. cbn [andb].
    unfold Py.mem. cbn [existsb]. rewrite existsb_app. cbn [existsb].
    change (Py.eqc "-"%char "-"%char) with true.
    rewrite ?orb_true_r. reflexivity.
Qed.

(** ** A header written out and parsed *)

Lemma count_level_times (n : nat) (x : pystr) :
  count_level (Py.times "#"%char n ++ " "%char :: x) = n.
Proof.
  induction n as [|n IH]; [reflexivity|].
  change (Py.times "#"%char (S n)) with ("#"%char :: Py.times "#"%char n).
  cbn [app count_level]. now rewrite IH.
Qed.

Lemma drop_times (n : nat) (x : pystr) :
  drop n (Py.times "#"%char n ++ x) = x.
Proof. induction n as [|n IH]; [reflexivity|exact IH]. Qed.

Lemma until_first (body rest : pystr) :
  forallb (fun c => negb (Py.eqc c "]"%char)) body = true ->
  Grammar.until "]"%char (body ++ "]"%char :: rest) = Some (body, rest).
Proof.
  induction body as [|c body IH]; cbn [forallb app Grammar.until].
  - intros _. reflexivity.
  - intros [Hc Hb]%andb_prop. apply negb_true_iff in Hc.
    rewrite Hc, (IH Hb). reflexivity.
Qed.

Lemma cardinality_text_closed (c : cardinality) :
  forallb (fun c => negb (Py.eqc c "]"%char)) (cardinality_text c) = true.
Proof.
  destruct c as [|n|a b]; cbn [cardinality_text].
  - reflexivity.
  - destruct (str_of_nat_digits (Z.to_nat n)) as (_ & Hd & _).
    apply (digits_clear _ Hd).
  - destruct (str_of_nat_digits (Z.to_nat a)) as (_ & Hda & _).
    destruct (str_of_nat_digits (Z.to_nat b)) as (_ & Hdb & _).
    rewrite !forallb_app.
    destruct (digits_clear _ Hda) as (_&_&_&_&->).
    destruct (digits_clear _ Hdb) as (_&_&_&_&->). reflexivity.
Qed.

Lemma notes_tail_text (notes : pystr) :
  Py.strip notes = notes ->
  Grammar.notes_tail (notes_text notes)
  = Some (match notes with [] => None | _ :: _ => Some notes end).
Proof.
  intros Hs. destruct notes as [|c n]; [reflexivity|].
  destruct (solid_of_strip (c :: n)) as [Hst _]; [discriminate|exact Hs|].
  unfold Grammar.notes_tail, notes_text.
  change (Py.lstrip (str " | " ++ c :: n))
    with ("|"%char :: " "%char :: c :: n).
  cbv iota.
  change (Py.lstrip (" "%char :: c :: n)) with (Py.lstrip (c :: n)).
  rewrite (lstrip_solid _ Hst). reflexivity.
Qed.

Lemma dollar_tail_text (required : bool) (notes : pystr) :
  Py.strip notes = notes ->
  Grammar.dollar_tail (required_text required ++ notes_text notes)
  = Some (required, match notes with [] => None | _ :: _ => Some notes end).
Proof.
  intros Hs. pose proof (notes_tail_text notes Hs) as Hn.
  unfold Grammar.dollar_tail. cbv zeta. destruct required.
  - change (Py.lstrip (required_text true ++ notes_text notes))
      with ("$"%char :: notes_text notes).
    cbv iota. rewrite Hn. reflexivity.
  - cbn [required_text app]. rewrite Hn.
    destruct notes as [|c n]; reflexivity.
Qed.

Lemma header_tail_text (c : cardinality) (required : bool) (notes : pystr) :
  Py.strip notes = notes ->
  Grammar.header_tail
    (str " [" ++ cardinality_text c ++ str "]"
       ++ required_text required ++ notes_text notes)
  = Some (Some ("["%char :: cardinality_text c ++ ["]"%char]), required,
          match notes with [] => None | _ :: _ => Some notes end).
Proof.
  intros Hs. unfold Grammar.header_tail, Grammar.bracket_group. cbv zeta.
  change (Py.lstrip (str " [" ++ cardinality_text c ++ str "]"
                       ++ required_text required ++ notes_text notes))
    with ("["%char :: cardinality_text c
            ++ "]"%char :: required_text required ++ notes_text notes).
  cbv iota.
  rewrite (until_first _ _ (cardinality_text_closed c)).
  rewrite (dollar_tail_text _ _ Hs). reflexivity.
Qed.

Lemma tail_ends_solid (c : cardinality) (required : bool) (notes : pystr) :
  Py.strip notes = notes ->
  ends_solid (str " [" ++ cardinality_text c ++ str "]"
                ++ required_text required ++ notes_text notes).
Proof.
  intros Hs. rewrite !app_assoc.
  destruct notes as [|x n].
  - cbn [notes_text]. rewrite app_nil_r. destruct required.
    + apply ends_solid_app. reflexivity.
    + cbn [required_text]. rewrite app_nil_r. apply ends_solid_app.
      reflexivity.
  - apply ends_solid_app. unfold notes_text. apply ends_solid_app.
    apply (solid_of_strip (x :: n)); [discriminate|exact Hs].
Qed.

Lemma parse_template_line_of (h : header) :
  field_name_ok (name h) -> cardinality_nonneg (card h) ->
  Py.strip (notes h) = notes h ->
  parse_header_line (template_line_of h) = Ok h.
Proof.
  intros Hn Hc Hnotes. destruct h as [lvl nm c rq nts].
  cbn [level name card required notes] in *.
  unfold parse_header_line, template_line_of.
  cbn [level name card required notes]. cbv zeta.
  change (str " " ++ nm ++ str " [" ++ cardinality_text c ++ str "]"
            ++ required_text rq ++ notes_text nts)
    with (" "%char :: nm ++ str " [" ++ cardinality_text c ++ str "]"
            ++ required_text rq ++ notes_text nts).
  rewrite count_level_times, drop_times.
  destruct (solid_of_strip nm (name_not_empty _ Hn) (name_stripped _ Hn))
    as [Hst He].
  assert (Hstrip :
    Py.strip (" "%char :: nm ++ str " [" ++ cardinality_text c ++ str "]"
                ++ required_text rq ++ notes_text nts)
    = nm ++ str " [" ++ cardinality_text c ++ str "]"
        ++ required_text rq ++ notes_text nts).
  { unfold Py.strip.
    change (Py.lstrip (" "%char :: ?x)) with (Py.lstrip x).
    rewrite (lstrip_solid _ (starts_solid_app _ _ Hst)).
    apply rstrip_solid, ends_solid_app, tail_ends_solid, Hnotes. }
  rewrite Hstrip. unfold Grammar.header_match.
  rewrite (lazy_plus_exact Grammar.name_char Grammar.header_tail nm _ _
             (name_not_empty _ Hn) (name_chars _ Hn)
             (header_tail_text c rq nts Hnotes)).
  - rewrite (name_stripped _ Hn). cbn [default id].
    rewrite (parse_cardinality_text c Hc). cbn [mbind result_bind].
    destruct nts; reflexivity.
  - intros p u Hpu Hp Hu. subst nm. apply header_tail_blocked.
    + exact Hu.
    + apply (forallb_suffix _ p), (name_chars _ Hn).
    + apply (ends_solid_suffix p), He. exact Hu.
Qed.

Lemma template_line_of_stripped (h : header) :
  1 <= level h -> Py.strip (notes h) = notes h ->
  Py.strip (template_line_of h) = template_line_of h /\
  exists r, template_line_of h = "#"%char :: r.
Proof.
  intros Hl Hnotes. unfold template_line_of.
  destruct (level h) as [|n]; [lia|].
  change (Py.times "#"%char (S n)) with ("#"%char :: Py.times "#"%char n).
  split; [|eexists; reflexivity].
  apply strip_solid; [reflexivity|].
  rewrite (app_assoc _ (str " ")), (app_assoc _ (name h)).
  apply ends_solid_app, tail_ends_solid, Hnotes.
Qed.

(** X5. A header written in the documented form, hashes, name, bracketed
    cardinality, dollar flag and notes, is read back as the header it was
    written from, by the header parser and by the template parser alike. *)
Theorem header_round_trip (h : header) :
  header_ok h ->
  parse_header_line (template_line_of h) = Ok h /\
  parse_template_structure [template_line_of h] = Ok [HeaderEntry h].
Proof.
  intros [Hl Hn Hc _ Hnotes _].
  pose proof (parse_template_line_of h Hn Hc Hnotes) as Hp.
  split; [exact Hp|].
  destruct (template_line_of_stripped h Hl Hnotes) as [Hs [r Hr]].
  unfold parse_template_structure.
  rewrite parse_template_lines_header; rewrite Hs.
  - rewrite Hp. reflexivity.
  - rewrite Hr. reflexivity.
Qed.

Lemma header_round_trip_witness :
  header_ok (Header 2 (str "Full Name") (Range 1 3) true (str "as on passport"))
  /\ parse_header_line (str "## Full Name [1-3] $ | as on passport")
     = Ok (Header 2 (str "Full Name") (Range 1 3) true (str "as on passport")).
Proof.
  assert (Hok : header_ok
    (Header 2 (str "Full Name") (Range 1 3) true (str "as on passport"))).
  { split; cbn [level name card required notes cardinality_nonneg
                  cardinality_small].
    - lia.
    - split; [discriminate|reflexivity|reflexivity|reflexivity].
    - lia.
    - split; vm_compute; reflexivity.
    - reflexivity.
    - reflexivity. }
  split; [exact Hok|].
  exact (proj1 (header_round_trip _ Hok)).
Defined.

(** ** The hierarchy read in preorder *)

Lemma filter_seq_ext (p q : nat -> bool) (a n : nat) :
  (forall i, a <= i < a + n -> p i = q i) ->
  List.filter p (seq a n) = List.filter q (seq a n).
Proof.
  intros Hpq. apply List.filter_ext_in. intros i Hi%in_seq. apply Hpq. lia.
Qed.

Lemma filter_seq_none (p : nat -> bool) (a n : nat) :
  (forall i, a <= i < a + n -> p i = false) ->
  List.filter p (seq a n) = [].
Proof.
  intros Hp. rewrite (filter_seq_ext p (fun _ => false) a n Hp).
  induction (seq a n) as [|x l IH]; [reflexivity|exact IH].
Qed.

Lemma bool_of_iff (p q : bool) : (p = true <-> q = true) -> p = q.
Proof. destruct p, q; intros [H1 H2]; auto; symmetry; auto. Qed.

Lemma tops_mem (structure : list header) (a i : nat) :
  forallb (fun m => level_at structure i <=? level_at structure m)
          (seq a (i - a)) = true <->
  forall m, a <= m < i -> level_at structure i <= level_at structure m.
Proof.
  rewrite forallb_forall. split.
  - intros Hall m Hm. apply Nat.leb_le, Hall, in_seq. lia.
  - intros Hall m Hm%in_seq. apply Nat.leb_le, Hall. lia.
Qed.

Lemma roots_are_tops (structure : list header) :
  roots_of structure = tops structure 0 (length structure).
Proof.
  unfold roots_of, roots_upto, tops. rewrite Nat.sub_0_r.
  apply filter_seq_ext. intros i Hi. apply bool_of_iff.
  rewrite bool_decide_eq_true, tops_mem.
  unfold nearest_smaller. rewrite nearest_below_none.
  split; intros Hall m Hm; apply Hall; lia.
Qed.

Lemma seq_split3 (a e n : nat) :
  a < e <= n ->
  seq 0 n = seq 0 (S a) ++ seq (S a) (e - S a) ++ seq e (n - e).
Proof.
  intros H.
  replace n with (S a + ((e - S a) + (n - e))) at 1 by lia.
  rewrite !seq_app. cbn [Nat.add].
  replace (S (a + (e - S a))) with e by lia. reflexivity.
Qed.

Lemma children_are_tops (structure : list header) (a e : nat) :
  a < e <= length structure ->
  (forall m, a < m < e -> level_at structure a < level_at structure m) ->
  (e = length structure \/ level_at structure e <= level_at structure a) ->
  children_of structure a = tops structure (S a) e.
Proof.
  intros Hae Hin Hend. unfold children_of, children_upto.
  rewrite (seq_split3 a e _ Hae), !List.filter_app.
  rewrite (filter_seq_none _ 0), (filter_seq_none _ e).
  - rewrite app_nil_r. cbn [app]. unfold tops. apply filter_seq_ext.
    intros i Hi. apply bool_of_iff.
    rewrite bool_decide_eq_true, tops_mem. unfold nearest_smaller.
    rewrite nearest_below_spec. split.
    + intros (_ & _ & Hall) m Hm. apply Hall. lia.
    + intros Hall. split; [lia|]. split; [apply Hin; lia|].
      intros m Hm. apply Hall. lia.
  - intros i Hi. apply bool_decide_eq_false. unfold nearest_smaller.
    rewrite nearest_below_spec. intros (_ & Hlt & Hall).
    destruct Hend as [->|He]; [lia|].
    destruct (decide (i = e)) as [->|Hie]; [lia|].
    assert (level_at structure i <= level_at structure e)
      by (apply Hall; lia).
    lia.
  - intros i Hi. apply bool_decide_eq_false. unfold nearest_smaller.
    rewrite nearest_below_spec. lia.
Qed.

(** Where the tree opened at [a] ends within [a, b). *)
Lemma tree_end (structure : list header) (l a b : nat) :
  a <= b ->
  exists e, a <= e <= b
    /\ (forall m, a <= m < e -> l < level_at structure m)
    /\ (e = b \/ level_at structure e <= l).
Proof.
  intros Hab. remember (b - a) as d eqn:Hd.
  revert a Hab Hd. induction d as [|d IH]; intros a Hab Hd.
  - exists a. split; [lia|]. split; [intros; lia|]. left. lia.
  - destruct (le_lt_dec (level_at structure a) l) as [Hle|Hgt].
    + exists a. split; [lia|]. split; [intros; lia|]. now right.
    + destruct (IH (S a)) as (e & He & Hin & Hend); [lia|lia|].
      exists e. split; [lia|]. split; [|exact Hend].
      intros m Hm. destruct (decide (m = a)) as [->|]; [exact Hgt|].
      apply Hin. lia.
Qed.

Lemma tops_cons (structure : list header) (a e b : nat) :
  a < e <= b ->
  (forall m, a < m < e -> level_at structure a < level_at structure m) ->
  (e = b \/ level_at structure e <= level_at structure a) ->
  tops structure a b = a :: tops structure e b.
Proof.
  intros Hae Hin Hend. unfold tops.
  assert (Hseq : seq a (b - a) = a :: seq (S a) (e - S a) ++ seq e (b - e)).
  { replace (b - a) with (S ((e - S a) + (b - e))) by lia.
    cbn [seq]. rewrite seq_app.
    replace (S a + (e - S a)) with e by lia. reflexivity. }
  rewrite Hseq. cbn [List.filter]. rewrite Nat.sub_diag. cbn [seq forallb].
  f_equal. rewrite List.filter_app.
  rewrite filter_seq_none; cycle 1.
  { intros i Hi. apply not_true_is_false. rewrite tops_mem. intros Hall.
    assert (level_at structure i <= level_at structure a)
      by (apply Hall; lia).
    assert (level_at structure a < level_at structure i)
      by (apply Hin; lia).
    lia. }
  cbn [app].
  apply filter_seq_ext. intros i Hi. apply bool_of_iff.
  rewrite !tops_mem. split.
  - intros Hall m Hm. apply Hall. lia.
  - intros Hall m Hm. destruct (le_lt_dec e m) as [Hem|Hme].
    + apply Hall. lia.
    + destruct Hend as [->|He]; [lia|].
      assert (level_at structure i <= level_at structure e).
      { destruct (decide (i = e)) as [->|]; [lia|]. apply Hall. lia. }
      destruct (decide (m = a)) as [->|]; [lia|].
      assert (level_at structure a < level_at structure m)
        by (apply Hin; lia).
      lia.
Qed.

Lemma tops_empty (structure : list header) (a : nat) :
  tops structure a a = [].
Proof. unfold tops. now rewrite Nat.sub_diag. Qed.

Lemma preorder_range (structure : list header) (fuel : nat) :
  forall (a b : nat) (ts : list item),
    b - a <= fuel -> a <= b <= length structure ->
    closed structure a b ->
    Forall2 (tree_of structure) (tops structure a b) ts ->
    flat_map flatten ts = take (b - a) (drop a structure).
Proof.
  induction fuel as [|fuel IH]; intros a b ts Hfuel Hab Hcl Hts.
  - replace b with a in * by lia. rewrite tops_empty in Hts.
    inversion Hts. now rewrite Nat.sub_diag.
  - destruct (decide (a = b)) as [->|Hne].
    { rewrite tops_empty in Hts. inversion Hts. now rewrite Nat.sub_diag. }
    destruct (tree_end structure (level_at structure a) (S a) b)
      as (e & He & Hin & Hend); [lia|].
    rewrite (tops_cons structure a e b) in Hts; [|lia| |exact Hend]; cycle 1.
    { intros m Hm. apply Hin. lia. }
    inversion Hts as [|? t ? ts2 Ht Hts2]; subst.
    inversion Ht as [? h ts1 Hh Hts1]; subst.
    assert (Hkids : children_of structure a = tops structure (S a) e).
    { apply children_are_tops; [lia| |].
      - intros m Hm. apply Hin. lia.
      - destruct Hend as [->|Hle]; [|now right].
        destruct Hcl as [->|Hcl]; [now left|right].
        destruct (decide (b = length structure)) as [Hb|Hb].
        + unfold level_at at 1. rewrite lookup_ge_None_2; lia.
        + specialize (Hcl a). lia. }
    rewrite Hkids in Hts1.
    cbn [flat_map flatten].
    rewrite (IH (S a) e ts1), (IH e b ts2); try lia; try assumption.
    + rewrite (drop_S _ _ _ Hh).
      replace (b - a) with (S ((e - S a) + (b - e))) by lia.
      cbn [take app]. f_equal.
      rewrite <- take_take_drop, drop_drop.
      replace (S a + (e - S a)) with e by lia. reflexivity.
    + destruct Hcl as [->|Hcl]; [now left|right].
      intros m Hm. apply Hcl. lia.
    + destruct Hend as [->|Hle].
      * destruct Hcl as [->|Hcl]; [now left|right].
        intros m Hm. apply Hcl. lia.
      * right. intros m Hm. specialize (Hin m). lia.
Qed.

(** X6. Read in preorder, the hierarchy gives back the flat list it was
    built from: no record is lost, repeated or moved. *)
Theorem hierarchy_preorder (structure : list header) :
  flat_map flatten (build_hierarchy structure) = structure.
Proof.
  pose proof (build_hierarchy_trees structure) as Hts.
  rewrite roots_are_tops in Hts.
  rewrite (preorder_range structure (length structure) 0 (length structure)
             _ ltac:(lia) ltac:(lia) (or_introl eq_refl) Hts).
  rewrite Nat.sub_0_r, drop_0. apply firstn_all.
Qed.

(** ** One section on its own *)

Lemma flat_map_const {A B} (l : list B) (xs : list A) :
  flat_map (fun _ => l) xs = concat (repeat l (length xs)).
Proof. induction xs as [|x xs IH]; [reflexivity|]. cbn. now rewrite IH. Qed.

Lemma generate_alone (h : header) (quantities : gmap pystr Z) :
  generate_item_output (Item h []) quantities [] = flat_lines quantities h.
Proof.
  rewrite generate_item_output_unfold. unfold flat_lines. cbv zeta.
  change (path_key [] h) with (name h). cbn [has_children negb].
  rewrite andb_true_r, andb_false_r.
  destruct (_ =? 1)%Z; [reflexivity|].
  rewrite flat_map_const, length_seq. reflexivity.
Qed.

Lemma generate_headers_alone (hs : list header) (quantities : gmap pystr Z)
    (result : list pystr) :
  generate_worksheet_lines (map HeaderEntry hs) quantities result
  = result ++ flat_map (flat_lines quantities) hs.
Proof.
  revert result. induction hs as [|h hs IH]; intros result.
  - cbn. now rewrite app_nil_r.
  - cbn [map]. rewrite generate_worksheet_lines_header, IH, generate_alone.
    cbn [flat_map]. now rewrite app_assoc.
Qed.

(** X7. Asked for one section, the generator expands each header of the
    section on its own: nesting is not rebuilt, so a header with records
    below it gives a field line, the count is looked up under the bare
    name, and neither the section title nor the rule is written. *)
Theorem section_mode_flat (template s out : pystr)
    (quantities : option (gmap pystr Z)) :
  Py.truthy s = true ->
  parse_llm_md template (Some s) quantities = Ok out ->
  exists structure content,
    parse_template_structure (lines_of_template template) = Ok structure
    /\ find_section_structure structure s = Some content
    /\ content <> []
    /\ out = Py.join [newline]
               (flat_map (flat_lines (default ∅ quantities)) content).
Proof.
  intros Hs. unfold parse_llm_md. cbv zeta.
  fold (lines_of_template template).
  destruct (parse_template_structure (lines_of_template template))
    as [structure|e] eqn:Hp; [|discriminate].
  cbn [mbind result_bind]. rewrite Hs.
  destruct (find_section_structure structure s) as [[|h hs]|] eqn:Hf;
    [discriminate| |discriminate].
  intros [= <-]. exists structure, (h :: hs).
  split; [reflexivity|]. split; [exact Hf|]. split; [discriminate|].
  unfold generate_worksheet.
  change (HeaderEntry h :: map HeaderEntry hs)
    with (map HeaderEntry (h :: hs)).
  now rewrite generate_headers_alone.
Qed.

Lemma section_mode_flat_witness :
  exists structure content,
    parse_template_structure (lines_of_template cast_template) = Ok structure
    /\ find_section_structure structure (str "Cast") = Some content
    /\ content <> []
    /\ Py.join [newline] [str "# Hero | "; []; str "## Name | ";
                          str "## Name | "; str "### Alias | "]
       = Py.join [newline] (flat_map (flat_lines (default ∅ None)) content).
Proof.
  apply (section_mode_flat cast_template (str "Cast") _ None);
    [reflexivity|vm_compute; reflexivity].
Defined.

(** ** What the worksheet parser stores *)

Lemma eqs_eq (a b : pystr) : Py.eqs a b = true -> a = b.
Proof.
  revert b. induction a as [|x a IH]; intros [|y b]; cbn [Py.eqs];
    try discriminate; [reflexivity|].
  intros [Hx Hab]%andb_prop. apply Ascii.eqb_eq in Hx. subst y.
  now rewrite (IH b Hab).
Qed.

Lemma fields_tidy_empty : fields_tidy ∅.
Proof. intros n v Hn. now rewrite lookup_empty in Hn. Qed.

Lemma fields_tidy_commit (t : pystr) (f : gmap pystr pystr)
    (cf : option pystr) (cfc : list pystr) :
  fields_tidy f ->
  Worksheet.field_truthy cf = true ->
  (forall n, cf = Some n -> Py.strip n = n) ->
  fields_tidy (snd (Worksheet.commit (t, f) cf cfc)).
Proof.
  intros Hf Hcf Hn. destruct cf as [n|]; [|discriminate].
  cbn [Worksheet.commit snd fst default fs_set dict_store].
  intros k v. destruct (decide (k = n)) as [->|Hk].
  - rewrite lookup_insert_eq. intros [= <-].
    split; [now destruct n|]. split; [now apply Hn|].
    apply strip_idempotent.
  - rewrite lookup_insert_ne by (intros E; apply Hk; symmetry; exact E). apply Hf.
Qed.

Lemma opens_with_snoc (t x : pystr) (lines : list pystr) :
  opens_with t lines -> opens_with t (lines ++ [x]).
Proof.
  intros (line & rule & rest & -> & H1 & H2 & H3).
  exists line, rule, (rest ++ [x]). now repeat split.
Qed.

(** The title of a section is never empty. *)
Lemma title_nonempty (raw : pystr) :
  Py.startswith (str "# ") (Py.strip raw) = true ->
  Py.strip (drop 2 (Py.strip raw)) <> [].
Proof.
  intros Hs. destruct (strip_shape raw) as [He|[_ He]].
  { rewrite He in Hs. discriminate. }
  destruct (Py.strip raw) as [|c [|d r]];
    cbn [str list_ascii_of_string Py.startswith] in Hs;
    [discriminate|now rewrite andb_false_r in Hs|].
  apply andb_prop in Hs as [_ Hs]. apply andb_prop in Hs as [Hd _].
  apply Ascii.eqb_eq in Hd. subst d.
  destruct r as [|x r].
  { apply (ends_solid_tail c) in He; [|discriminate]. discriminate He. }
  cbn [drop].
  apply (ends_solid_suffix [c; " "%char]) in He; [|discriminate].
  unfold Py.strip. intros Hnil.
  destruct (lstrip_shape (x :: r)) as [Hl|Hl].
  - unfold Py.lstrip in Hl.
    assert (Hall : forallb Py.is_space (x :: r) = true).
    { clear -Hl. induction (x :: r) as [|y l IH]; [reflexivity|].
      cbn [Py.drop_while] in Hl. cbn [forallb].
      destruct (Py.is_space y); [|discriminate]. now apply IH. }
    unfold ends_solid in He. rewrite <- forallb_rev in Hall.
    destruct (rev (x :: r)) as [|y l]; [contradiction|].
    cbn [forallb] in Hall. apply andb_prop in Hall as [Hy _].
    cbn in He. congruence.
  - apply (strip_nonempty_of_solid _ Hl).
    unfold Py.strip. rewrite (lstrip_solid _ Hl). exact Hnil.
Qed.

Lemma finalize_tidy (ss : gmap pystr (Worksheet.section (gmap pystr pystr)))
    (t : pystr) (f : gmap pystr pystr) (cc cfc : list pystr)
    (cf : option pystr) :
  (forall k s, ss !! k = Some s -> section_tidy k s) ->
  (t <> [] /\ Py.strip t = t) -> fields_tidy f -> opens_with t cc ->
  (forall n, cf = Some n -> Py.strip n = n) ->
  forall k s,
    Worksheet.finalize_section ss (t, f) cc cf cfc !! k = Some s ->
    section_tidy k s.
Proof.
  intros Hss Ht Hf Hcc Hcf k s. unfold Worksheet.finalize_section.
  cbv zeta.
  assert (Hfst : fst (if Worksheet.field_truthy cf
                      then Worksheet.commit (t, f) cf cfc else (t, f)) = t)
    by now destruct (Worksheet.field_truthy cf).
  rewrite Hfst. destruct (decide (k = t)) as [->|Hk].
  - rewrite lookup_insert_eq. intros [= <-]. split.
    + reflexivity.
    + exact Ht.
    + exists cc. now split.
    + cbn [Worksheet.fields].
      destruct (Worksheet.field_truthy cf) eqn:Htr; [|exact Hf].
      now apply fields_tidy_commit.
  - rewrite lookup_insert_ne by (intros E; apply Hk; symmetry; exact E). apply Hss.
Qed.

Lemma step_tidy (st : Worksheet.state (gmap pystr pystr)) (line : pystr) :
  state_tidy st -> state_tidy (Worksheet.step st line).
Proof.
  intros [Hss Hcur Hfld]. unfold Worksheet.step.
  destruct (Py.startswith (str "#") line && Py.endswith (str "|") line).
  - assert (Hcs : forall t f,
      match Worksheet.current_section st with
      | Some cs =>
          if Worksheet.field_truthy (Worksheet.current_field st)
          then Some (Worksheet.commit cs (Worksheet.current_field st)
                       (Worksheet.current_field_content st))
          else Some cs
      | None => None
      end = Some (t, f) ->
      (t <> [] /\ Py.strip t = t) /\ fields_tidy f
      /\ opens_with t (Worksheet.current_content st)).
    { intros t f. destruct (Worksheet.current_section st) as [[t0 f0]|];
        [|discriminate].
      destruct (Hcur t0 f0 eq_refl) as (Ht & Hf & Ho).
      destruct (Worksheet.field_truthy (Worksheet.current_field st)) eqn:Htr.
      - intros [= <- <-]. split; [exact Ht|]. split; [|exact Ho].
        now apply (fields_tidy_commit t0 f0).
      - intros [= <- <-]. split; [exact Ht|]. split; [exact Hf|exact Ho]. }
    destruct (Worksheet.field_match line) as [[[g1 g2] g3]|].
    + split; cbn [Worksheet.sections Worksheet.current_section
                  Worksheet.current_content Worksheet.current_field].
      * exact Hss.
      * intros t f Htf. destruct (Hcs t f Htf) as (Ht & Hf & Ho).
        split; [exact Ht|]. split; [exact Hf|]. now apply opens_with_snoc.
      * intros n [= <-]. apply strip_idempotent.
    + split; cbn [Worksheet.sections Worksheet.current_section
                  Worksheet.current_content Worksheet.current_field].
      * exact Hss.
      * exact Hcs.
      * exact Hfld.
  - destruct (Py.startswith (str "#") line).
    + destruct (Worksheet.current_section st) as [[t0 f0]|] eqn:Hc.
      * destruct (Hcur t0 f0 eq_refl) as (Ht & Hf & Ho).
        destruct (Worksheet.field_truthy (Worksheet.current_field st))
          eqn:Htr.
        -- split; cbn [Worksheet.sections Worksheet.current_section
                       Worksheet.current_content Worksheet.current_field].
           ++ exact Hss.
           ++ intros t f [= <- <-]. split; [exact Ht|].
              split; [now apply (fields_tidy_commit t0 f0)|].
              now apply opens_with_snoc.
           ++ discriminate.
        -- split; cbn [Worksheet.sections Worksheet.current_section
                       Worksheet.current_content Worksheet.current_field].
           ++ exact Hss.
           ++ intros t f [= <- <-]. split; [exact Ht|]. split; [exact Hf|].
              now apply opens_with_snoc.
           ++ exact Hfld.
      * split; cbn [Worksheet.sections Worksheet.current_section
                    Worksheet.current_content Worksheet.current_field].
        -- exact Hss.
        -- discriminate.
        -- exact Hfld.
    + split; cbn [Worksheet.sections Worksheet.current_section
                  Worksheet.current_content Worksheet.current_field].
      * exact Hss.
      * intros t f Htf. destruct (Hcur t f Htf) as (Ht & Hf & Ho).
        split; [exact Ht|]. split; [exact Hf|]. now apply opens_with_snoc.
      * exact Hfld.
Qed.

Lemma open_tidy (st : Worksheet.state (gmap pystr pystr)) (raw next : pystr) :
  state_tidy st ->
  Py.startswith (str "# ") (Py.strip raw) = true ->
  Py.strip next = str "---" ->
  state_tidy (Worksheet.open_section st (Py.strip raw) next).
Proof.
  intros [Hss Hcur Hfld] Hs Hn. unfold Worksheet.open_section. cbv zeta.
  split; cbn [Worksheet.sections Worksheet.current_section
              Worksheet.current_content Worksheet.current_field].
  - destruct (Worksheet.current_section st) as [[t0 f0]|] eqn:Hc;
      [|exact Hss].
    destruct (Hcur t0 f0 eq_refl) as (Ht & Hf & Ho).
    now apply finalize_tidy.
  - intros t f [= <- <-]. split; [split|split].
    + now apply title_nonempty.
    + apply strip_idempotent.
    + apply fields_tidy_empty.
    + exists (Py.strip raw), next, [].
      split; [reflexivity|]. split; [exact Hs|]. split; [reflexivity|exact Hn].
  - discriminate.
Qed.

Lemma loop_tidy (n : nat) :
  forall (lines : list pystr) (st : Worksheet.state (gmap pystr pystr)),
    length lines <= n -> state_tidy st ->
    state_tidy (Worksheet.loop st lines).
Proof.
  induction n as [|n IH]; intros lines st Hlen Hst.
  - destruct lines; [exact Hst|cbn in Hlen; lia].
  - destruct lines as [|raw [|next rest]].
    + exact Hst.
    + rewrite loop_last. now apply step_tidy.
    + rewrite loop_next.
      destruct (Py.startswith (str "# ") (Py.strip raw)) eqn:Hs;
        cbn [andb].
      * destruct (Py.eqs (Py.strip next) (str "---")) eqn:He.
        -- apply IH; [cbn in Hlen |- *; lia|].
           apply open_tidy; [exact Hst|exact Hs|now apply eqs_eq].
        -- apply IH; [cbn in Hlen |- *; lia|]. now apply step_tidy.
      * apply IH; [cbn in Hlen |- *; lia|]. now apply step_tidy.
Qed.

(** X8. Every section the worksheet parser returns is stored under its
    own title; the title is not empty and has no blanks around it; the
    content starts with the title line and the rule; and no field has an
    empty name or blanks around its name or its value. *)
Theorem sections_tidy (worksheet k : pystr)
    (s : Worksheet.section (gmap pystr pystr)) :
  Worksheet.scan worksheet !! k = Some s -> section_tidy k s.
Proof.
  rewrite scan_finish. unfold finish.
  pose proof (loop_tidy _ (Py.split newline (Py.strip worksheet))
                Worksheet.initial (le_n _)) as Hst.
  destruct Hst as [Hss Hcur Hfld].
  { split; cbn; [intros k' s' H; now rewrite lookup_empty in H
                |discriminate|discriminate]. }
  destruct (Worksheet.current_section _) as [[t f]|] eqn:Hc; [|apply Hss].
  destruct (Hcur t f eq_refl) as (Ht & Hf & Ho).
  now apply finalize_tidy.
Qed.

Lemma sections_tidy_witness : section_tidy (str "Cast") cast_section.
Proof.
  apply (sections_tidy cast_worksheet). vm_compute. reflexivity.
Defined.

(** ** A worksheet filled in *)

Lemma down_to_succ (n : nat) :
  Worksheet.down_to (S n) 1 = S n :: Worksheet.down_to n 1.
Proof.
  unfold Worksheet.down_to.
  replace (S (S n) - 1) with (S n) by lia.
  replace (S n - 1) with n by lia.
  rewrite seq_S, rev_app_distr. reflexivity.
Qed.

Lemma take_times (n : nat) (x : pystr) :
  take n (Py.times "#"%char n ++ x) = Py.times "#"%char n.
Proof.
  induction n as [|n IH]; [reflexivity|].
  change (Py.times "#"%char (S n)) with ("#"%char :: Py.times "#"%char n).
  cbn [app firstn]. now rewrite IH.
Qed.

Lemma field_match_text (lvl : nat) (nm : pystr) :
  1 <= lvl -> field_name_ok nm ->
  Worksheet.field_match (field_text lvl nm)
  = Some (Py.times "#"%char lvl, nm, []).
Proof.
  intros Hlvl [Hne Hs Hc Hl].
  destruct (solid_of_strip nm Hne Hs) as [Hst He].
  assert (Hlazy : Grammar.lazy_plus Worksheet.not_newline Worksheet.bar_tail
                    (nm ++ str " |") = Some (nm, [])).
  { apply lazy_plus_exact; [exact Hne|exact Hl|reflexivity|].
    intros p u Hpu Hp Hu. subst nm. apply bar_tail_blocked.
    - exact Hu.
    - apply (forallb_suffix _ p), Hc.
    - apply (ends_solid_suffix p), He. exact Hu. }
  unfold Worksheet.field_match, field_text.
  change (str " " ++ nm ++ str " |") with (" "%char :: nm ++ str " |").
  rewrite count_level_times.
  destruct lvl as [|n]; [lia|]. rewrite down_to_succ.
  cbn [Worksheet.first_some].
  rewrite drop_times, take_times.
  change (Py.lstrip (" "%char :: nm ++ str " |"))
    with (Py.lstrip (nm ++ str " |")).
  rewrite (lstrip_solid _ (starts_solid_app _ _ Hst)).
  replace (length (" "%char :: nm ++ str " |") - length (nm ++ str " |"))
    with 1 by (cbn [length]; lia).
  change (Worksheet.down_to 1 0) with [1; 0].
  cbn [Worksheet.first_some].
  change (drop 1 (" "%char :: nm ++ str " |")) with (nm ++ str " |").
  rewrite Hlazy. reflexivity.
Qed.

Lemma field_text_head (lvl : nat) (nm : pystr) :
  1 <= lvl ->
  Py.startswith (str "#") (field_text lvl nm) = true
  /\ Py.endswith (str "|") (field_text lvl nm) = true
  /\ Py.eqs (field_text lvl nm) (str "---") = false.
Proof.
  intros Hlvl. unfold field_text. destruct lvl as [|n]; [lia|].
  split; [reflexivity|]. split; [|reflexivity].
  rewrite (app_assoc _ (str " ")), (app_assoc _ nm). apply endswith_bar.
Qed.

Section Filled.

Variable ss : gmap pystr (Worksheet.section (gmap pystr pystr)).
Variable t : pystr.

Lemma step_field (f : gmap pystr pystr) (cc cfc : list pystr)
    (cf : option pystr) (lvl : nat) (nm : pystr) :
  1 <= lvl -> field_name_ok nm -> pending_wf cf cfc ->
  Worksheet.step (Worksheet.State ss (Some (t, f)) cc cf cfc)
                 (field_text lvl nm)
  = Worksheet.State ss (Some (t, pend f cf cfc))
      (cc ++ [field_text lvl nm]) (Some nm) [].
Proof.
  intros Hlvl Hnm Hwf. unfold Worksheet.step.
  destruct (field_text_head lvl nm Hlvl) as (-> & -> & _). cbn [andb].
  rewrite (field_match_text lvl nm Hlvl Hnm), (name_stripped _ Hnm).
  cbn [Worksheet.current_section Worksheet.current_field
       Worksheet.current_field_content Worksheet.current_content
       Worksheet.sections].
  destruct cf as [n|]; [|reflexivity].
  cbn [pending_wf] in Hwf. destruct n; [contradiction|]. reflexivity.
Qed.

Lemma step_head (f : gmap pystr pystr) (cc cfc : list pystr)
    (cf : option pystr) (l : pystr) :
  head_line l -> pending_wf cf cfc ->
  Worksheet.step (Worksheet.State ss (Some (t, f)) cc cf cfc) l
  = Worksheet.State ss (Some (t, pend f cf cfc)) (cc ++ [l]) None [].
Proof.
  intros [Hs He] Hwf. unfold Worksheet.step. rewrite Hs, He. cbn [andb].
  cbn [Worksheet.current_section Worksheet.current_field
       Worksheet.current_field_content Worksheet.current_content
       Worksheet.sections].
  destruct cf as [n|].
  - cbn [pending_wf] in Hwf. destruct n; [contradiction|]. reflexivity.
  - cbn [pending_wf] in Hwf. subst cfc. reflexivity.
Qed.

Lemma step_text (cs : option (pystr * gmap pystr pystr))
    (cc cfc : list pystr) (cf : option pystr) (l : pystr) :
  text_line l ->
  Worksheet.step (Worksheet.State ss cs cc cf cfc) l
  = Worksheet.State ss cs (cc ++ [l]) cf
      (if Worksheet.field_truthy cf then cfc ++ [l] else cfc).
Proof.
  intros [Hs _]. unfold Worksheet.step. rewrite Hs. reflexivity.
Qed.

Lemma fold_body (cs : option (pystr * gmap pystr pystr)) (nm : pystr)
    (body : list pystr) :
  nm <> [] -> Forall text_line body ->
  forall cc cfc : list pystr,
    fold_left Worksheet.step body
      (Worksheet.State ss cs cc (Some nm) cfc)
    = Worksheet.State ss cs (cc ++ body) (Some nm) (cfc ++ body).
Proof.
  intros Hnm Hall. induction Hall as [|l body Hl _ IH]; intros cc cfc.
  - now rewrite !app_nil_r.
  - cbn [fold_left]. rewrite (step_text _ _ _ _ _ Hl).
    destruct nm; [contradiction|]. cbn [Worksheet.field_truthy Py.truthy].
    rewrite IH, <- !app_assoc. reflexivity.
Qed.

Lemma fold_others (f : gmap pystr pystr) (others : list pystr) :
  Forall (fun l => head_line l \/ text_line l) others ->
  forall cc : list pystr,
    fold_left Worksheet.step others
      (Worksheet.State ss (Some (t, f)) cc None [])
    = Worksheet.State ss (Some (t, f)) (cc ++ others) None [].
Proof.
  intros Hall. induction Hall as [|l others Hl _ IH]; intros cc.
  - now rewrite app_nil_r.
  - cbn [fold_left]. destruct Hl as [Hl|Hl].
    + rewrite (step_head f cc [] None l Hl eq_refl). cbn [pend].
      rewrite IH, <- app_assoc. reflexivity.
    + rewrite (step_text _ _ _ _ _ Hl). cbn [Worksheet.field_truthy].
      rewrite IH, <- app_assoc. reflexivity.
Qed.

Lemma fold_block (f : gmap pystr pystr) (cc cfc : list pystr)
    (cf : option pystr) (b : block) :
  block_ok b -> pending_wf cf cfc ->
  fold_left Worksheet.step (block_lines b)
    (Worksheet.State ss (Some (t, f)) cc cf cfc)
  = Worksheet.State ss (Some (t, pend f cf cfc)) (cc ++ block_lines b)
      (Some (block_name b)) (block_body b).
Proof.
  intros [Hh Hlvl Hnm Hbody] Hwf. unfold block_lines.
  rewrite fold_left_app. cbn [fold_left].
  destruct (block_heads b) as [|first others].
  - cbn [fold_left app]. rewrite (step_field _ _ _ _ _ _ Hlvl Hnm Hwf).
    rewrite (fold_body _ _ _ (name_not_empty _ Hnm) Hbody).
    rewrite <- app_assoc. reflexivity.
  - destruct Hh as [Hfirst Hothers]. cbn [fold_left].
    rewrite (step_head _ _ _ _ _ Hfirst Hwf).
    rewrite (fold_others _ _ Hothers).
    rewrite (step_field _ _ [] None _ _ Hlvl Hnm eq_refl). cbn [pend].
    rewrite (fold_body _ _ _ (name_not_empty _ Hnm) Hbody).
    rewrite <- !app_assoc. reflexivity.
Qed.

Lemma fold_blocks (blocks : list block) :
  Forall block_ok blocks ->
  forall (f : gmap pystr pystr) (cc cfc : list pystr) (cf : option pystr),
    pending_wf cf cfc ->
    finish (fold_left Worksheet.step (flat_map block_lines blocks)
              (Worksheet.State ss (Some (t, f)) cc cf cfc))
    = <[t := Worksheet.Section t
               (Py.join [newline] (cc ++ flat_map block_lines blocks))
               (fold_left (fun m kv => <[fst kv := snd kv]> m)
                          (map block_value blocks) (pend f cf cfc))]> ss.
Proof.
  intros Hall. induction Hall as [|b blocks Hb _ IH]; intros f cc cfc cf Hwf.
  - cbn [flat_map fold_left map]. rewrite app_nil_r.
    unfold finish, Worksheet.finalize_section.
    cbn [Worksheet.current_section Worksheet.current_field
         Worksheet.current_field_content Worksheet.current_content
         Worksheet.sections].
    destruct cf as [n|]; [|reflexivity].
    cbn [pending_wf] in Hwf. destruct n; [contradiction|]. reflexivity.
  - cbn [flat_map map]. rewrite fold_left_app.
    rewrite (fold_block _ _ _ _ _ Hb Hwf).
    rewrite IH by exact (name_not_empty _ (ok_field_name _ Hb)).
    rewrite <- app_assoc. reflexivity.
Qed.

End Filled.

Lemma loop_fold (lines : list pystr) :
  Forall (fun l => Py.eqs (Py.strip l) (str "---") = false) lines ->
  forall st : Worksheet.state (gmap pystr pystr),
    Worksheet.loop st lines = fold_left Worksheet.step (map Py.strip lines) st.
Proof.
  intros Hall. induction Hall as [|raw lines Hraw Hlines IH]; intros st.
  - reflexivity.
  - destruct lines as [|next rest].
    + now rewrite loop_last.
    + rewrite loop_next. inversion Hlines as [|? ? Hnext _]; subst.
      rewrite Hnext, andb_false_r. rewrite IH. reflexivity.
Qed.

Lemma block_line_no_rule (b : block) (l : pystr) :
  block_ok b -> l ∈ block_lines b -> Py.eqs l (str "---") = false.
Proof.
  intros [Hh Hlvl Hnm Hbody]. unfold block_lines.
  rewrite elem_of_app, elem_of_cons.
  intros [Hl|[->|Hl]].
  - destruct (block_heads b) as [|first others]; [now apply elem_of_nil in Hl|].
    destruct Hh as [Hfirst Hothers].
    assert (Hhead : forall x, head_line x -> Py.eqs x (str "---") = false).
    { intros [|c x] [Hs _]; [discriminate|].
      cbn [str list_ascii_of_string Py.startswith] in Hs.
      apply andb_prop in Hs as [Hc _]. apply Ascii.eqb_eq in Hc. subst c.
      reflexivity. }
    apply elem_of_cons in Hl as [->|Hl]; [now apply Hhead|].
    rewrite Forall_forall in Hothers.
    destruct (Hothers l Hl) as [H|[_ H]]; [now apply Hhead|exact H].
  - now apply field_text_head.
  - rewrite Forall_forall in Hbody. now apply Hbody.
Qed.

Lemma scan_filled (worksheet title rule t : pystr) (rest : list pystr)
    (blocks : list block) :
  lines_of_worksheet worksheet = title :: rule :: rest ->
  Py.strip title = str "# " ++ t ->
  Py.strip t = t ->
  Py.strip rule = str "---" ->
  map Py.strip rest = flat_map block_lines blocks ->
  Forall block_ok blocks ->
  Worksheet.scan worksheet
  = {[ t := Worksheet.Section t
              (Py.join [newline]
                 ((str "# " ++ t) :: rule :: flat_map block_lines blocks))
              (replay (map block_value blocks)) ]}.
Proof.
  intros Hlines Htitle Ht Hrule Hrest Hok.
  rewrite scan_finish. fold (lines_of_worksheet worksheet).
  rewrite Hlines, loop_next, Htitle, Hrule.
  change (Py.startswith (str "# ") (str "# " ++ t)) with true.
  change (Py.eqs (str "---") (str "---")) with true. cbn [andb].
  unfold Worksheet.open_section, Worksheet.initial. cbv zeta.
  cbn [Worksheet.current_section Worksheet.sections].
  change (drop 2 (str "# " ++ t)) with t. rewrite Ht.
  rewrite loop_fold.
  - rewrite Hrest.
    rewrite (fold_blocks ∅ t blocks Hok fs_empty _ [] None eq_refl).
    reflexivity.
  - rewrite <- Forall_fmap with (f := Py.strip)
      (P := fun l => Py.eqs l (str "---") = false).
    change (Py.strip <$> rest) with (map Py.strip rest). rewrite Hrest.
    rewrite Forall_forall. intros l Hl.
    apply list_elem_of_In, in_flat_map in Hl as (b & Hb & Hl).
    apply (block_line_no_rule b).
    + rewrite Forall_forall in Hok. apply Hok. now apply list_elem_of_In.
    + now apply list_elem_of_In.
Qed.

(** X9. A worksheet made of a title line, a rule and blocks, each block
    being container headers, a field line and the text written under it, is
    read back as one section whose field mapping gives every name the text
    under its last field line, joined and stripped; the two convenience
    functions return that section's content and that mapping. *)
Theorem filled_worksheet_read_back (worksheet title rule t : pystr)
    (rest : list pystr) (blocks : list block) :
  lines_of_worksheet worksheet = title :: rule :: rest ->
  Py.strip title = str "# " ++ t ->
  t <> [] -> Py.strip t = t ->
  Py.strip rule = str "---" ->
  map Py.strip rest = flat_map block_lines blocks ->
  Forall block_ok blocks ->
  let content :=
    Py.join [newline]
      ((str "# " ++ t) :: rule :: flat_map block_lines blocks) in
  let fields := replay (map block_value blocks) in
  parse_worksheet_content worksheet None
    = Worksheet.AllSections {[ t := Worksheet.Section t content fields ]}
  /\ get_section_content worksheet t = ContentText content
  /\ get_section_fields worksheet t = FieldsMap fields
  /\ forall n, fields !! n = last_assigned n (map block_value blocks).
Proof.
  intros Hlines Htitle Hne Ht Hrule Hrest Hok content fields.
  pose proof (scan_filled _ _ _ _ _ _ Hlines Htitle Ht Hrule Hrest Hok)
    as Hscan.
  fold content fields in Hscan.
  assert (Htr : Py.truthy t = true) by now destruct t.
  unfold get_section_content, get_section_fields, parse_worksheet_content.
  cbv zeta. rewrite Htr, Hscan, lookup_singleton_eq.
  repeat split. intros n. apply replay_lookup.
Qed.

Lemma filled_cast_blocks_ok : Forall block_ok filled_cast_blocks.
Proof.
  assert (Hname : field_name_ok (str "Name")).
  { split; [discriminate|vm_compute; reflexivity..]. }
  assert (Hage : field_name_ok (str "Age")).
  { split; [discriminate|vm_compute; reflexivity..]. }
  assert (Hhead : head_line (str "## Character")).
  { split; vm_compute; reflexivity. }
  assert (Htext : forall s, Py.startswith (str "#") s = false ->
                            Py.eqs s (str "---") = false -> text_line s).
  { intros s H1 H2. now split. }
  unfold filled_cast_blocks.
  constructor; [|constructor; [|constructor; [|constructor]]].
  - split; cbn [block_heads block_level block_name block_body].
    + split; [exact Hhead|].
      constructor; [|constructor].
      right. apply Htext; vm_compute; reflexivity.
    + lia.
    + exact Hname.
    + constructor; [apply Htext; vm_compute; reflexivity|].
      constructor; [apply Htext; vm_compute; reflexivity|].
      constructor; [apply Htext; vm_compute; reflexivity|].
      constructor.
  - split; cbn [block_heads block_level block_name block_body].
    + exact I.
    + lia.
    + exact Hage.
    + constructor.
  - split; cbn [block_heads block_level block_name block_body].
    + split; [exact Hhead|constructor].
    + lia.
    + exact Hname.
    + constructor; [apply Htext; vm_compute; reflexivity|].
      constructor.
Qed.

Lemma filled_worksheet_read_back_witness :
  get_section_fields filled_cast (str "Cast")
    = FieldsMap (replay (map block_value filled_cast_blocks))
  /\ (forall n,
        replay (map block_value filled_cast_blocks) !! n
        = last_assigned n (map block_value filled_cast_blocks)).
Proof.
  destruct (filled_worksheet_read_back filled_cast (str "# Cast")
              (str "---") (str "Cast")
              (skipn 2 (lines_of_worksheet filled_cast)) filled_cast_blocks)
    as (_ & _ & Hfields & Hlast).
  - vm_compute. reflexivity.
  - vm_compute. reflexivity.
  - discriminate.
  - vm_compute. reflexivity.
  - vm_compute. reflexivity.
  - vm_compute. reflexivity.
  - exact filled_cast_blocks_ok.
  - split; [exact Hfields|exact Hlast].
Defined.

Example filled_cast_values :
  last_assigned (str "Name") (map block_value filled_cast_blocks)
    = Some (str "Marcus")
  /\ last_assigned (str "Age") (map block_value filled_cast_blocks) = Some []
  /\ map block_value filled_cast_blocks
     = [(str "Name", Py.join [newline] [str "Elena"; str "of Troy"]);
        (str "Age", []); (str "Name", str "Marcus")].
Proof. repeat split; vm_compute; reflexivity. Qed.
